(** * Lucefact: the diagram layout and interaction engine

    A shallow embedding of [src/visualizer.ts] (class [Visualizer]) and of the
    selection handler of [src/main.ts] ([handleLayerSelection]), with the
    properties of the engine stated and proved over it.  Further parts embed
    the layout buttons and the model history of the host ([setLayout] and
    [addToHistory] of [src/main.ts]), the choice of a parser
    ([src/parser.ts]), the four parsers ([src/parsers/*.ts]) and the
    extremes and issues that [src/insights.ts] reports.

    Conventions of the embedding.
    - A JavaScript [number] that carries a real quantity (scale, offsets,
      parameter counts, widths, coordinates, angles) is a binary64 float,
      Rocq's primitive [float]; its operations are the IEEE 754 ones, so
      [0 / 0] is [nan] as in JavaScript.
    - A JavaScript [number] that is an integer by construction (an array
      index, an array length, [MouseEvent.detail]) is a [nat]; it is
      converted with [js_of_nat] where the source does float arithmetic on it.
    - A string is a [string] of bytes.  [String.prototype.toLowerCase] is
      a parameter of the development, of which only the value on strings
      of ASCII characters is fixed: there it turns the letters A to Z into
      a to z.
    - The DOM below the canvas is a tree of elements; a CSS length the source
      writes as [`${w}px`] is recorded as the number [w].
    - [Math.cos], [Math.sin] and [Math.atan2], which ECMAScript leaves
      implementation-approximated, are parameters of the engine;
      [Math.sqrt] is the IEEE 754 square root and [Math.pow(x, 2)] is
      [x * x]. *)

From Stdlib Require Import Floats Uint63 ZArith List String Ascii Bool Arith Lia.
From Stdlib Require Import Permutation.
From Stdlib Require DecimalString DecimalNat.
From Stdlib.Strings Require Import Byte.
Import ListNotations.

Set Warnings "-inexact-float".
Local Open Scope float_scope.

(** ** JavaScript numbers *)

Definition number := float.

Definition is_nan (x : number) : bool := negb (x =? x).

Definition is_zero (x : number) : bool := x =? 0.

Definition is_neg_zero (x : number) : bool :=
  match classify x with NZero => true | _ => false end.

(** [Math.min(a, b)]: NaN if either is NaN; [-0] is smaller than [+0]. *)
Definition Math_min (a b : number) : number :=
  if is_nan a || is_nan b then nan
  else if a <? b then a
  else if b <? a then b
  else if is_neg_zero a then a else b.

(** [Math.max(a, b)]: NaN if either is NaN; [+0] is larger than [-0]. *)
Definition Math_max (a b : number) : number :=
  if is_nan a || is_nan b then nan
  else if a <? b then b
  else if b <? a then a
  else if is_neg_zero a then b else a.

(** [Math.max(...xs)]: [-Infinity] for no argument. *)
Definition Math_max_spread (xs : list number) : number :=
  fold_left Math_max xs neg_infinity.

Definition Math_PI : number := 3.141592653589793.

Definition two52 : number := 4503599627370496.

(** [Math.ceil]: below [2^52] in magnitude, adding and subtracting [2^52]
    rounds to an integer, which is then corrected upwards. *)
Definition Math_ceil (x : number) : number :=
  if is_nan x then x
  else if two52 <=? abs x then x
  else if is_zero x then x
  else if 0 <? x then
    let r := (x + two52) - two52 in
    if r <? x then r + 1 else r
  else
    let r := (x - two52) + two52 in
    let c := if r <? x then r + 1 else r in
    if is_zero c then (-0) else c.

(** [Math.sqrt(Math.pow(a, 2) + Math.pow(b, 2))]; [Math.pow(x, 2)] is [x * x]. *)
Definition Math_hypot2 (a b : number) : number :=
  PrimFloat.sqrt (a * a + b * b).

(** The number that an integer of the program denotes. *)
Definition js_of_nat (n : nat) : number :=
  of_uint63 (Uint63.of_Z (Z.of_nat n)).

(** ** JavaScript strings *)

Local Open Scope string_scope.

Definition lower_ascii (c : ascii) : ascii :=
  let n := nat_of_ascii c in
  if (65 <=? n)%nat && (n <=? 90)%nat then ascii_of_nat (n + 32) else c.

Fixpoint toLowerCase_ASCII (s : string) : string :=
  match s with
  | EmptyString => EmptyString
  | String c t => String (lower_ascii c) (toLowerCase_ASCII t)
  end.

(** A string of ASCII characters. *)
Fixpoint isASCII (s : string) : bool :=
  match s with
  | EmptyString => true
  | String c t => (nat_of_ascii c <? 128)%nat && isASCII t
  end.

(** [s.toLowerCase()].  The conversion follows the case tables of Unicode
    and looks at the context of a character (a capital sigma at the end of
    a word is not converted as one inside a word), so it is not a map of
    characters.  On a string of ASCII characters it turns the letters A to
    Z into a to z and keeps the rest; this is all that is fixed here. *)
Class StringPrototype := {
  toLowerCase : string -> string;
  toLowerCase_isASCII :
    forall s : string, isASCII s = true -> toLowerCase s = toLowerCase_ASCII s
}.

(** [s.includes(sub)] *)
Fixpoint includes (sub s : string) : bool :=
  String.prefix sub s ||
  match s with
  | EmptyString => false
  | String _ t => includes sub t
  end.

(** Truthiness of an optional string argument: [undefined] and [''] are falsy. *)
Definition truthy (o : option string) : bool :=
  match o with
  | None => false
  | Some s => negb (String.eqb s "")
  end.

(** ** JavaScript objects used as string-keyed maps

    An object literal [{}] holds its own properties in creation order and
    inherits from [Object.prototype]. *)

Definition JsObject (V : Type) := list (string * V).

Definition Object_prototype_names : list string :=
  [ "constructor"; "__defineGetter__"; "__defineSetter__"; "hasOwnProperty";
    "__lookupGetter__"; "__lookupSetter__"; "isPrototypeOf";
    "propertyIsEnumerable"; "toString"; "valueOf"; "__proto__";
    "toLocaleString" ].

Definition inherited (k : string) : bool :=
  existsb (String.eqb k) Object_prototype_names.

Fixpoint own_lookup {V} (o : JsObject V) (k : string) : option V :=
  match o with
  | [] => None
  | (k', v) :: t => if String.eqb k k' then Some v else own_lookup t k
  end.

Fixpoint own_update {V} (o : JsObject V) (k : string) (v : V) : JsObject V :=
  match o with
  | [] => []
  | (k', v') :: t =>
      if String.eqb k k' then (k', v) :: t else (k', v') :: own_update t k v
  end.

Definition is_digit (c : ascii) : bool :=
  let n := nat_of_ascii c in (48 <=? n)%nat && (n <=? 57)%nat.

Fixpoint decimal_value (acc : N) (s : string) : option N :=
  match s with
  | EmptyString => Some acc
  | String c t =>
      if is_digit c
      then decimal_value (acc * 10 + N.of_nat (nat_of_ascii c - 48)) t
      else None
  end.

(** An array index is a canonical numeric string below [2^32 - 1]. *)
Definition array_index (k : string) : option N :=
  match k with
  | EmptyString => None
  | String c t =>
      if Ascii.eqb c "0" && negb (String.eqb t "") then None
      else if (10 <? String.length k)%nat then None
      else match decimal_value 0 k with
           | Some n => if (n <? 4294967295)%N then Some n else None
           | None => None
           end
  end.

Fixpoint insert_by_index {V} (n : N) (e : string * V)
         (l : list (N * (string * V))) : list (N * (string * V)) :=
  match l with
  | [] => [(n, e)]
  | (m, e') :: t =>
      if (n <? m)%N then (n, e) :: l else (m, e') :: insert_by_index n e t
  end.

Fixpoint split_entries {V} (o : JsObject V)
  : list (N * (string * V)) * list (string * V) :=
  match o with
  | [] => ([], [])
  | (k, v) :: t =>
      let '(ix, rest) := split_entries t in
      match array_index k with
      | Some n => (insert_by_index n (k, v) ix, rest)
      | None => (ix, (k, v) :: rest)
      end
  end.

(** [Object.entries(o)]: array-index keys in ascending order, then the other
    keys in creation order. *)
Definition Object_entries {V} (o : JsObject V) : list (string * V) :=
  let '(ix, rest) := split_entries o in map snd ix ++ rest.


(** ** The model descriptor ([src/types.ts]) *)

Record ModelLayer := {
  name : string;
  type : string;
  inputShape : option (list number);
  outputShape : option (list number);
  parameters : number;
  trainableParams : number;
  nonTrainableParams : number;
  activation : option string
}.

Record ModelMetadata := {
  fileName : string;
  layers : list ModelLayer
}.

(** ** The rendered surface

    What [visualize] builds below the canvas element.  A layer node keeps what
    its click handler closes over ([node_layer], [node_metadata]), the style
    properties and children the source sets, and its three state classes. *)

Inductive css_length :=
| css_unset
| css_none
| css_px (w : number)
| css_percent (p : number).

Record NodeStyle := {
  animationDelay : number;
  width : css_length;
  minWidth : css_length;
  maxWidth : css_length;
  style_left : css_length;
  style_top : css_length
}.

Record LayerNode := {
  node_layer : ModelLayer;
  node_metadata : ModelMetadata;
  node_style : NodeStyle;
  size_bar : css_length;
  layer_activation : option string;
  layer_name : string;
  layer_type : string;
  layer_params : number;
  selected : bool;
  dimmed : bool;
  highlighted : bool
}.

Inductive Element :=
| layer_node (n : LayerNode)
| layer_connector (direction : string)
| layer_arrow
| connection_line (x1 y1 length angle : number)
| layer_group (header_type : string) (header_count : nat)
              (members : list LayerNode).

Record Container := {
  container_size : css_length;
  children : list Element;
  transform : option (number * number * number)
}.

Record Canvas := {
  canvas_height : css_length;
  cursor : string;
  hide_labels : bool;
  hide_params : bool;
  viz_container : option Container
}.

(** ** The engine state (the fields of class [Visualizer]) *)

Record Visualizer := {
  canvas : Canvas;
  scale : number;
  translateX : number;
  translateY : number;
  isDragging : bool;
  startX : number;
  startY : number;
  startTranslateX : number;
  startTranslateY : number;
  currentLayout : string;
  currentMetadata : option ModelMetadata;
  searchTerm : string
}.

(** The events the engine dispatches on its canvas. *)
Inductive CustomEvent :=
| layerClick (detail : ModelLayer)
| layerSelection (count : nat) (selection : list ModelLayer).

(** A call either returns or lets a [TypeError] escape; both carry the state
    the engine is left in. *)
Inductive Completion (A : Type) :=
| Normal (a : A)
| Throw (a : A).
Arguments Normal {A} a.
Arguments Throw {A} a.

Definition state_of {A} (c : Completion A) : A :=
  match c with Normal a => a | Throw a => a end.

Definition returns {A} (c : Completion A) : bool :=
  match c with Normal _ => true | Throw _ => false end.

(** *** Field updates *)

Definition set_viz_container (c : Canvas) (k : option Container) : Canvas :=
  {| canvas_height := canvas_height c; cursor := cursor c;
     hide_labels := hide_labels c; hide_params := hide_params c;
     viz_container := k |}.

Definition set_canvas_height (c : Canvas) (h : css_length) : Canvas :=
  {| canvas_height := h; cursor := cursor c;
     hide_labels := hide_labels c; hide_params := hide_params c;
     viz_container := viz_container c |}.

Definition set_cursor (c : Canvas) (s : string) : Canvas :=
  {| canvas_height := canvas_height c; cursor := s;
     hide_labels := hide_labels c; hide_params := hide_params c;
     viz_container := viz_container c |}.

Definition set_canvas (v : Visualizer) (c : Canvas) : Visualizer :=
  {| canvas := c; scale := scale v; translateX := translateX v;
     translateY := translateY v; isDragging := isDragging v;
     startX := startX v; startY := startY v;
     startTranslateX := startTranslateX v;
     startTranslateY := startTranslateY v;
     currentLayout := currentLayout v;
     currentMetadata := currentMetadata v; searchTerm := searchTerm v |}.

Definition set_view (v : Visualizer) (s tx ty : number) : Visualizer :=
  {| canvas := canvas v; scale := s; translateX := tx; translateY := ty;
     isDragging := isDragging v; startX := startX v; startY := startY v;
     startTranslateX := startTranslateX v;
     startTranslateY := startTranslateY v;
     currentLayout := currentLayout v;
     currentMetadata := currentMetadata v; searchTerm := searchTerm v |}.

Definition set_drag (v : Visualizer) (d : bool) (x y tx ty : number)
  : Visualizer :=
  {| canvas := canvas v; scale := scale v; translateX := translateX v;
     translateY := translateY v; isDragging := d; startX := x; startY := y;
     startTranslateX := tx; startTranslateY := ty;
     currentLayout := currentLayout v;
     currentMetadata := currentMetadata v; searchTerm := searchTerm v |}.

Definition set_model (v : Visualizer) (m : option ModelMetadata) (l : string)
  : Visualizer :=
  {| canvas := canvas v; scale := scale v; translateX := translateX v;
     translateY := translateY v; isDragging := isDragging v;
     startX := startX v; startY := startY v;
     startTranslateX := startTranslateX v;
     startTranslateY := startTranslateY v;
     currentLayout := l; currentMetadata := m; searchTerm := searchTerm v |}.

Definition set_searchTerm (v : Visualizer) (t : string) : Visualizer :=
  {| canvas := canvas v; scale := scale v; translateX := translateX v;
     translateY := translateY v; isDragging := isDragging v;
     startX := startX v; startY := startY v;
     startTranslateX := startTranslateX v;
     startTranslateY := startTranslateY v;
     currentLayout := currentLayout v;
     currentMetadata := currentMetadata v; searchTerm := t |}.

Definition set_classes (n : LayerNode) (s d h : bool) : LayerNode :=
  {| node_layer := node_layer n; node_metadata := node_metadata n;
     node_style := node_style n; size_bar := size_bar n;
     layer_activation := layer_activation n; layer_name := layer_name n;
     layer_type := layer_type n; layer_params := layer_params n;
     selected := s; dimmed := d; highlighted := h |}.

Definition set_node_style (n : LayerNode) (st : NodeStyle) : LayerNode :=
  {| node_layer := node_layer n; node_metadata := node_metadata n;
     node_style := st; size_bar := size_bar n;
     layer_activation := layer_activation n; layer_name := layer_name n;
     layer_type := layer_type n; layer_params := layer_params n;
     selected := selected n; dimmed := dimmed n;
     highlighted := highlighted n |}.

(** The state the constructor leaves: an empty canvas, the identity view,
    the vertical layout, no model. *)
Definition empty_canvas : Canvas :=
  {| canvas_height := css_unset; cursor := ""; hide_labels := false;
     hide_params := false; viz_container := None |}.

Definition new_Visualizer : Visualizer :=
  {| canvas := empty_canvas; scale := 1; translateX := 0; translateY := 0;
     isDragging := false; startX := 0; startY := 0;
     startTranslateX := 0; startTranslateY := 0;
     currentLayout := "vertical"; currentMetadata := None; searchTerm := "" |}.

Local Open Scope list_scope.

(** ** The engine

    [Math.cos], [Math.sin] and [Math.atan2] are parameters: every property
    below holds for whatever approximation the host provides. *)

Section Engine.

Variable Math_cos Math_sin : number -> number.
Variable Math_atan2 : number -> number -> number.

(** *** Iteration helpers *)

(** [xs.forEach((x, index) => ...)], the callback returning the elements it
    appends to the container, in order. *)
Fixpoint forEach_from {A B} (f : A -> nat -> list B) (index : nat)
         (xs : list A) : list B :=
  match xs with
  | [] => []
  | x :: rest => f x index ++ forEach_from f (S index) rest
  end.

Definition forEach {A B} (f : A -> nat -> list B) (xs : list A) : list B :=
  forEach_from f 0 xs.

(** *** [createLayerNode]

    [layout] is [this.currentLayout] at the time of the call. *)

Definition createLayerNode (layout : string) (layer : ModelLayer)
           (index : nat) (metadata : ModelMetadata) : LayerNode :=
  let maxParams := Math_max_spread (map parameters (layers metadata)) in
  let relativeSize := (parameters layer / maxParams)%float in
  let style :=
    if String.eqb layout "horizontal" then
      let minWidth := 280%float in
      let maxWidth := 350%float in
      let width := (minWidth + (maxWidth - minWidth) * relativeSize)%float in
      {| animationDelay := (js_of_nat index * 0.1)%float;
         width := css_px width; minWidth := css_px width;
         maxWidth := css_px width;
         style_left := css_unset; style_top := css_unset |}
    else
      let minWidth := 300%float in
      let maxWidth := 500%float in
      let width := (minWidth + (maxWidth - minWidth) * relativeSize)%float in
      {| animationDelay := (js_of_nat index * 0.1)%float;
         width := css_percent 100; minWidth := css_unset;
         maxWidth := css_px width;
         style_left := css_unset; style_top := css_unset |} in
  {| node_layer := layer; node_metadata := metadata;
     node_style := style;
     size_bar := css_percent (relativeSize * 100)%float;
     layer_activation :=
       if truthy (activation layer) then activation layer else None;
     layer_name := name layer;
     layer_type := type layer;
     layer_params := parameters layer;
     selected := false; dimmed := false; highlighted := false |}.

Definition createConnector (direction : string) : Element :=
  layer_connector direction.

Definition createConnectionLine (x1 y1 x2 y2 : number) : Element :=
  let length := Math_hypot2 (x2 - x1) (y2 - y1) in
  let angle := (Math_atan2 (y2 - y1) (x2 - x1) * 180 / Math_PI)%float in
  connection_line x1 y1 length angle.

(** *** The four layouts *)

Definition renderVerticalLayout (layout : string) (metadata : ModelMetadata)
  : list Element :=
  forEach (fun layer index =>
    (if (0 <? index)%nat then [createConnector "vertical"] else []) ++
    [layer_node (createLayerNode layout layer index metadata)])
    (layers metadata).

Definition renderHorizontalLayout (layout : string) (metadata : ModelMetadata)
  : list Element :=
  forEach (fun layer index =>
    let node := createLayerNode layout layer index metadata in
    (if (0 <? index)%nat then [layer_arrow] else []) ++
    [layer_node node])
    (layers metadata).

Definition circular_radius (layerCount : nat) : number :=
  Math_min 300 (Math_max 200 (js_of_nat layerCount * 15)%float).

Definition circular_size (layerCount : nat) : number :=
  ((circular_radius layerCount * 2) + 150 + 100)%float.

Definition circular_angle (index layerCount : nat) : number :=
  ((js_of_nat index / js_of_nat layerCount) * 2 * Math_PI - Math_PI / 2)%float.

(** The point at angle [circular_angle i n] of the circle of the layout. *)
Definition circular_point (n i : nat) : number * number :=
  let radius := circular_radius n in
  let center := (circular_size n / 2)%float in
  ((center + radius * Math_cos (circular_angle i n))%float,
   (center + radius * Math_sin (circular_angle i n))%float).

Definition place_absolute (n : LayerNode) (x y : number) : LayerNode :=
  set_node_style n
    {| animationDelay := animationDelay (node_style n);
       width := width (node_style n);
       minWidth := minWidth (node_style n);
       maxWidth := maxWidth (node_style n);
       style_left := css_px x; style_top := css_px y |}.

Definition renderCircularLayout (layout : string) (metadata : ModelMetadata)
  : list Element :=
  let layerCount := List.length (layers metadata) in
  let radius := circular_radius layerCount in
  let size := circular_size layerCount in
  let centerX := (size / 2)%float in
  let centerY := (size / 2)%float in
  forEach (fun layer index =>
    let angle := circular_angle index (List.length (layers metadata)) in
    let x := (centerX + radius * Math_cos angle)%float in
    let y := (centerY + radius * Math_sin angle)%float in
    let node := createLayerNode layout layer index metadata in
    [layer_node (place_absolute node x y)] ++
    (if (Z.of_nat index <? Z.of_nat (List.length (layers metadata)) - 1)%Z
     then
       let nextAngle :=
         circular_angle (index + 1) (List.length (layers metadata)) in
       let nextX := (centerX + radius * Math_cos nextAngle)%float in
       let nextY := (centerY + radius * Math_sin nextAngle)%float in
       [createConnectionLine x y nextX nextY]
     else []))
    (layers metadata).

(** The grouping loop of [renderTreeLayout].  [layersByType[layer.type]] reads
    through the prototype chain: an own property is an array (truthy); an
    inherited one is truthy too, so it is not replaced, and it has no [push],
    which is a [TypeError] ([None]). *)
Fixpoint group_layers (ls : list ModelLayer)
         (layersByType : JsObject (list ModelLayer))
  : option (JsObject (list ModelLayer)) :=
  match ls with
  | [] => Some layersByType
  | layer :: rest =>
      match own_lookup layersByType (type layer) with
      | Some group =>
          group_layers rest
            (own_update layersByType (type layer) (group ++ [layer]))
      | None =>
          if inherited (type layer) then None
          else group_layers rest (layersByType ++ [(type layer, [layer])])
      end
  end.

Definition tree_node (n : LayerNode) : LayerNode :=
  set_node_style n
    {| animationDelay := animationDelay (node_style n);
       width := width (node_style n);
       minWidth := minWidth (node_style n);
       maxWidth := css_none;
       style_left := style_left (node_style n);
       style_top := style_top (node_style n) |}.

Definition renderTreeLayout (layout : string) (metadata : ModelMetadata)
  : option (list Element) :=
  match group_layers (layers metadata) [] with
  | None => None
  | Some layersByType =>
      Some (map (fun '(type, group) =>
                   layer_group type (List.length group)
                     (forEach (fun layer index =>
                        [tree_node (createLayerNode layout layer index metadata)])
                        group))
                (Object_entries layersByType))
  end.

(** *** [render]: the view transform is written on the container, if any *)

Definition render (v : Visualizer) : Visualizer :=
  match viz_container (canvas v) with
  | Some container =>
      set_canvas v
        (set_viz_container (canvas v)
           (Some {| container_size := container_size container;
                    children := children container;
                    transform :=
                      Some (scale v,
                            (translateX v / scale v)%float,
                            (translateY v / scale v)%float) |}))
  | None => v
  end.

(** *** [visualize] *)

Definition canvas_height_for (layout : string) (layerCount : nat)
           (old : css_length) : css_length :=
  if String.eqb layout "vertical" then
    css_px (Math_max 600 (js_of_nat layerCount * 150 + 100)%float)
  else if String.eqb layout "horizontal" then
    let rows := Math_ceil (js_of_nat layerCount / 3)%float in
    css_px (Math_max 600 (rows * 180 + 100)%float)
  else if String.eqb layout "circular" then
    css_px (circular_size layerCount)
  else if String.eqb layout "tree" then
    css_px (Math_min (400 + js_of_nat layerCount * 10)%float 1000)
  else old.

(** The [switch] of [visualize]: the children of the new container, and its
    size when the layout sets one; [None] when the layout throws. *)
Definition render_layout (layout : string) (metadata : ModelMetadata)
  : option (css_length * list Element) :=
  if String.eqb layout "vertical" then
    Some (css_unset, renderVerticalLayout layout metadata)
  else if String.eqb layout "horizontal" then
    Some (css_unset, renderHorizontalLayout layout metadata)
  else if String.eqb layout "circular" then
    Some (css_px (circular_size (List.length (layers metadata))),
          renderCircularLayout layout metadata)
  else if String.eqb layout "tree" then
    match renderTreeLayout layout metadata with
    | Some els => Some (css_unset, els)
    | None => None
    end
  else Some (css_unset, []).

Definition visualize (v : Visualizer) (metadata : ModelMetadata)
           (layout : option string) : Completion Visualizer :=
  let layout' :=
    match layout with
    | Some l => if truthy layout then l else currentLayout v
    | None => currentLayout v
    end in
  let v1 := set_model v (Some metadata) layout' in
  let layerCount := List.length (layers metadata) in
  let cleared := set_viz_container (canvas v1) None in
  let sized :=
    set_canvas_height cleared
      (canvas_height_for layout' layerCount (canvas_height cleared)) in
  let v2 := set_canvas v1 sized in
  match render_layout layout' metadata with
  | None => Throw v2
  | Some (size, els) =>
      let container :=
        {| container_size := size; children := els; transform := None |} in
      Normal (render (set_canvas v2 (set_viz_container sized (Some container))))
  end.

Definition setLayout (v : Visualizer) (layout : string)
  : Completion Visualizer :=
  match currentMetadata v with
  | Some metadata => visualize v metadata (Some layout)
  | None => Normal v
  end.

End Engine.

(** *** Reading the surface *)

Definition nodes_of (e : Element) : list LayerNode :=
  match e with
  | layer_node n => [n]
  | layer_group _ _ members => members
  | _ => []
  end.

(** [canvas.querySelectorAll('.layer-node')], in document order. *)
Definition querySelectorAll_layer_node (c : Canvas) : list LayerNode :=
  match viz_container c with
  | Some container => flat_map nodes_of (children container)
  | None => []
  end.

Definition is_connector (e : Element) : bool :=
  match e with
  | layer_connector _ | layer_arrow | connection_line _ _ _ _ => true
  | _ => false
  end.

(** The connectors, markers and lines of the surface, in document order. *)
Definition connectors_of (c : Canvas) : list Element :=
  match viz_container c with
  | Some container => filter is_connector (children container)
  | None => []
  end.

(** *** Rewriting the nodes of the surface, in document order *)

Fixpoint update_members (f : nat -> LayerNode -> LayerNode) (k : nat)
         (ms : list LayerNode) : list LayerNode :=
  match ms with
  | [] => []
  | n :: rest => f k n :: update_members f (S k) rest
  end.

Fixpoint update_nodes (f : nat -> LayerNode -> LayerNode) (k : nat)
         (els : list Element) : list Element :=
  match els with
  | [] => []
  | layer_node n :: rest => layer_node (f k n) :: update_nodes f (S k) rest
  | layer_group t c ms :: rest =>
      layer_group t c (update_members f k ms)
      :: update_nodes f (k + List.length ms) rest
  | e :: rest => e :: update_nodes f k rest
  end.

Definition update_canvas_nodes (f : nat -> LayerNode -> LayerNode)
           (c : Canvas) : Canvas :=
  match viz_container c with
  | Some container =>
      set_viz_container c
        (Some {| container_size := container_size container;
                 children := update_nodes f 0 (children container);
                 transform := transform container |})
  | None => c
  end.

(** *** [search] *)

Definition search_node {String_prototype : StringPrototype}
           (term searchTerm : string) (node : LayerNode) : LayerNode :=
  let layerName := toLowerCase (layer_name node) in
  let layerType := toLowerCase (layer_type node) in
  if String.eqb term "" || includes searchTerm layerName
     || includes searchTerm layerType
  then set_classes node (selected node) false (negb (String.eqb term ""))
  else set_classes node (selected node) true false.

Definition search {String_prototype : StringPrototype} (v : Visualizer)
           (term : string) : Visualizer :=
  let v1 := set_searchTerm v (toLowerCase term) in
  set_canvas v1
    (update_canvas_nodes (fun _ => search_node term (searchTerm v1))
       (canvas v1)).

(** *** The click handler of a node

    [target] is the clicked node's position in document order and [detail]
    the click count of the mouse event. *)

Definition toggle_selected (node : LayerNode) : LayerNode :=
  set_classes node (negb (selected node)) (dimmed node) (highlighted node).

Definition toggle_at (target : nat) (k : nat) (node : LayerNode) : LayerNode :=
  if (k =? target)%nat then toggle_selected node else node.

(** [metadata.layers.find(l => l.name === name)] *)
Definition find_layer (metadata : ModelMetadata) (nm : string)
  : option ModelLayer :=
  find (fun l => String.eqb (name l) nm) (layers metadata).

(** [selectedLayers.map(n => ...find...).filter(Boolean)] *)
Fixpoint resolve_layers (metadata : ModelMetadata) (ns : list LayerNode)
  : list ModelLayer :=
  match ns with
  | [] => []
  | n :: rest =>
      match find_layer metadata (layer_name n) with
      | Some l => l :: resolve_layers metadata rest
      | None => resolve_layers metadata rest
      end
  end.

Definition click (v : Visualizer) (target : nat) (detail : nat)
  : Visualizer * list CustomEvent :=
  match nth_error (querySelectorAll_layer_node (canvas v)) target with
  | None => (v, [])
  | Some node =>
      if (detail =? 2)%nat then (v, [layerClick (node_layer node)])
      else
        let v' :=
          set_canvas v (update_canvas_nodes (toggle_at target) (canvas v)) in
        let selectedLayers :=
          filter selected (querySelectorAll_layer_node (canvas v')) in
        (v', [layerSelection (List.length selectedLayers)
                (resolve_layers (node_metadata node) selectedLayers)])
  end.

(** *** [zoom], [reset] and the visibility toggles *)

Inductive Direction := zoom_in | zoom_out.

Definition zoom (v : Visualizer) (direction : Direction) : Visualizer :=
  match direction with
  | zoom_in =>
      render (set_view v (Math_min 2 (scale v + 0.1)%float)
                (translateX v) (translateY v))
  | zoom_out =>
      render (set_view v (Math_max 0.5 (scale v - 0.1)%float)
                (translateX v) (translateY v))
  end.

Definition reset (v : Visualizer) : Visualizer :=
  render (set_view v 1%float 0%float 0%float).

Definition toggleLabels (v : Visualizer) : Visualizer :=
  set_canvas v
    {| canvas_height := canvas_height (canvas v); cursor := cursor (canvas v);
       hide_labels := negb (hide_labels (canvas v));
       hide_params := hide_params (canvas v);
       viz_container := viz_container (canvas v) |}.

Definition toggleParams (v : Visualizer) : Visualizer :=
  set_canvas v
    {| canvas_height := canvas_height (canvas v); cursor := cursor (canvas v);
       hide_labels := hide_labels (canvas v);
       hide_params := negb (hide_params (canvas v));
       viz_container := viz_container (canvas v) |}.

(** *** The pointer handlers installed by [setupEventListeners] *)

Definition mousedown (v : Visualizer) (clientX clientY : number)
  : Visualizer :=
  let v1 := set_drag v true clientX clientY (translateX v) (translateY v) in
  set_canvas v1 (set_cursor (canvas v1) "grabbing").

Definition mousemove (v : Visualizer) (clientX clientY : number)
  : Visualizer :=
  if isDragging v then
    let deltaX := (clientX - startX v)%float in
    let deltaY := (clientY - startY v)%float in
    render (set_view v (scale v) (startTranslateX v + deltaX)%float
              (startTranslateY v + deltaY)%float)
  else v.

Definition mouseup (v : Visualizer) : Visualizer :=
  let v1 := set_drag v false (startX v) (startY v)
              (startTranslateX v) (startTranslateY v) in
  set_canvas v1 (set_cursor (canvas v1) "default").

Definition mouseleave (v : Visualizer) : Visualizer := mouseup v.

(** ** The host's selection handler ([handleLayerSelection], [src/main.ts]) *)

Inductive HostAction :=
| showComparison (compared : list ModelLayer)
| showToast (kind message : string)
| hideComparison.

Definition handleLayerSelection (count : nat) (selection : list ModelLayer)
  : HostAction :=
  if (2 <=? count)%nat && (count <=? 3)%nat then showComparison selection
  else if (3 <? count)%nat then
    showToast "warning" "Select up to 3 layers to compare"
  else hideComparison.

(** ** Sequences of operations on the engine *)

Inductive Operation :=
| op_visualize (metadata : ModelMetadata) (layout : option string)
| op_setLayout (layout : string)
| op_search (term : string)
| op_click (target detail : nat)
| op_zoom (direction : Direction)
| op_reset
| op_toggleLabels
| op_toggleParams
| op_mousedown (clientX clientY : number)
| op_mousemove (clientX clientY : number)
| op_mouseup
| op_mouseleave.

Section Operations.

Context {String_prototype : StringPrototype}.
Variable Math_cos Math_sin : number -> number.
Variable Math_atan2 : number -> number -> number.

(** The state an operation leaves, whether it returns or throws. *)
Definition step (v : Visualizer) (op : Operation) : Visualizer :=
  match op with
  | op_visualize metadata layout =>
      state_of (visualize Math_cos Math_sin Math_atan2 v metadata layout)
  | op_setLayout layout =>
      state_of (setLayout Math_cos Math_sin Math_atan2 v layout)
  | op_search term => search v term
  | op_click target detail => fst (click v target detail)
  | op_zoom direction => zoom v direction
  | op_reset => reset v
  | op_toggleLabels => toggleLabels v
  | op_toggleParams => toggleParams v
  | op_mousedown x y => mousedown v x y
  | op_mousemove x y => mousemove v x y
  | op_mouseup => mouseup v
  | op_mouseleave => mouseleave v
  end.

Definition run (v : Visualizer) (ops : list Operation) : Visualizer :=
  fold_left step ops v.

End Operations.

(** ** The zoom levels

    The scales that [zoom] reaches from the initial scale [1], computed by
    closing [{1}] under the two zoom steps. *)

Fixpoint mem_number (x : number) (l : list number) : bool :=
  match l with
  | [] => false
  | y :: rest => PrimFloat.Leibniz.eqb x y || mem_number x rest
  end.

Definition add_level (x : number) (todo_seen : list number * list number)
  : list number * list number :=
  let '(todo, seen) := todo_seen in
  if mem_number x seen then (todo, seen) else (x :: todo, x :: seen).

Fixpoint zoom_closure (fuel : nat) (todo seen : list number) : list number :=
  match fuel with
  | O => seen
  | S fuel' =>
      match todo with
      | [] => seen
      | s :: rest =>
          let '(todo', seen') :=
            add_level (Math_max 0.5 (s - 0.1)%float)
              (add_level (Math_min 2 (s + 0.1)%float) (rest, seen)) in
          zoom_closure fuel' todo' seen'
      end
  end.

Definition zoom_levels : list number :=
  Eval vm_compute in zoom_closure 1000 [1%float] [1%float].

Definition in_zoom_range (s : number) : bool :=
  (0.5 <=? s)%float && (s <=? 2)%float.

(** ** A reference [Math] library

    Series approximations of the three functions the engine takes as
    parameters, used to run it on concrete models. *)

Fixpoint trig_series (fuel : nat) (term acc k x2 : number) : number :=
  match fuel with
  | O => acc
  | S fuel' =>
      let term' := (- term * x2 / ((k + 1) * (k + 2)))%float in
      trig_series fuel' term' (acc + term')%float (k + 2)%float x2
  end.

Definition ref_cos (x : number) : number :=
  trig_series 24 1%float 1%float 0%float (x * x)%float.

Definition ref_sin (x : number) : number :=
  trig_series 24 x x 1%float (x * x)%float.

Fixpoint atan_series (fuel : nat) (pow acc k z2 : number) : number :=
  match fuel with
  | O => acc
  | S fuel' =>
      let pow' := (- pow * z2)%float in
      atan_series fuel' pow' (acc + pow' / (k + 2))%float (k + 2)%float z2
  end.

Definition atan_halve (z : number) : number :=
  (z / (1 + PrimFloat.sqrt (1 + z * z)))%float.

Definition ref_atan (z : number) : number :=
  let w := atan_halve (atan_halve (atan_halve z)) in
  (8 * atan_series 24 w w 1%float (w * w))%float.

Definition ref_atan2 (y x : number) : number :=
  if (0 <? x)%float then ref_atan (y / x)%float
  else if (x <? 0)%float then
    if (y <? 0)%float then (ref_atan (y / x) - Math_PI)%float
    else (ref_atan (y / x) + Math_PI)%float
  else if (0 <? y)%float then (Math_PI / 2)%float
  else if (y <? 0)%float then (- (Math_PI / 2))%float
  else 0%float.

(** ** A reference [toLowerCase]

    The conversion of the ASCII letters alone, used to run the engine and
    the parsers on strings of ASCII characters. *)

Definition ASCII_strings : StringPrototype :=
  {| toLowerCase := toLowerCase_ASCII;
     toLowerCase_isASCII := fun _ _ => eq_refl |}.

Local Close Scope float_scope.
Local Open Scope nat_scope.
Bind Scope float_scope with number.

(** ** Observations used to state the properties *)

(** The view transform: scale and pan offset. *)
Definition view_of (v : Visualizer) : number * number * number :=
  (scale v, translateX v, translateY v).

(** The scale a discrete zoom step moves to: [+0.1] capped at [2], or
    [-0.1] floored at [0.5]. *)
Definition zoom_scale (d : Direction) (s : number) : number :=
  match d with
  | zoom_in => Math_min 2 (s + 0.1)%float
  | zoom_out => Math_max 0.5 (s - 0.1)%float
  end.

(** [clamp(x, lo, hi)] *)
Definition clamp (x lo hi : number) : number := Math_min hi (Math_max lo x).

(** A placement: the layer a node stands for, with its geometry. *)
Definition placement_of (n : LayerNode)
  : ModelLayer * NodeStyle * css_length :=
  (node_layer n, node_style n, size_bar n).

Definition placements (c : Canvas) : list (ModelLayer * NodeStyle * css_length) :=
  map placement_of (querySelectorAll_layer_node c).

(** The selected nodes, in document order. *)
Definition selected_nodes (v : Visualizer) : list LayerNode :=
  filter selected (querySelectorAll_layer_node (canvas v)).

(** What holds of a node that was just created for model [m]: no state class,
    and the texts it displays are those of the layer it stands for. *)
Definition fresh_node (m : ModelMetadata) (n : LayerNode) : Prop :=
  selected n = false /\ dimmed n = false /\ highlighted n = false
  /\ node_metadata n = m
  /\ layer_name n = name (node_layer n)
  /\ layer_type n = type (node_layer n).

(** The surface shows the layers [order], one node each and in that order,
    as nodes of the model [m]. *)
Definition shows_in_order (order : list ModelLayer) (m : ModelMetadata)
           (v : Visualizer) : Prop :=
  map node_layer (querySelectorAll_layer_node (canvas v)) = order
  /\ Forall (fun n => node_metadata n = m
                      /\ layer_name n = name (node_layer n))
       (querySelectorAll_layer_node (canvas v)).

(** The surface shows the layers of [m], one node each, in model order. *)
Definition shows_in_model_order (m : ModelMetadata) (v : Visualizer) : Prop :=
  shows_in_order (layers m) m v.

(** The distinct strings of a list, in the order of their first
    occurrence. *)
Fixpoint add_new (acc xs : list string) : list string :=
  match xs with
  | [] => acc
  | x :: rest =>
      add_new (if existsb (String.eqb x) acc then acc else acc ++ [x]) rest
  end.

Definition first_occurrences (xs : list string) : list string := add_new [] xs.

(** The layers of a model by type: the types in the order in which they
    first occur, the layers of one type in model order. *)
Definition by_type (m : ModelMetadata) : list ModelLayer :=
  flat_map (fun k => filter (fun l => String.eqb (type l) k) (layers m))
    (first_occurrences (map type (layers m))).

(** The layouts that chain the nodes in model order. *)
Definition ChainLayouts : list string := ["vertical"; "horizontal"; "circular"].

(** Two characters that are the same up to the case of the letters A to Z:
    they are equal, or one is a capital letter and the other one the small
    letter of it, [32] places further. *)
Definition same_letter (a b : ascii) : bool :=
  let x := nat_of_ascii a in
  let y := nat_of_ascii b in
  (x =? y)
  || ((65 <=? x) && (x <=? 90) && (y =? x + 32))
  || ((65 <=? y) && (y <=? 90) && (x =? y + 32)).

(** Two strings of one length whose characters are the same up to case. *)
Fixpoint same_letters (a b : string) : bool :=
  match a, b with
  | EmptyString, EmptyString => true
  | String x a', String y b' => same_letter x y && same_letters a' b'
  | _, _ => false
  end.

(** [t] occurs in [s] up to letter case: some substring of [s] is [t] up to
    the case of its letters. *)
Definition ci_substring (t s : string) : Prop :=
  exists pre mid post,
    s = String.append pre (String.append mid post)
    /\ same_letters mid t = true.

(** The layout kinds of [LayoutType]. *)
Definition LayoutKinds : list string :=
  ["vertical"; "horizontal"; "circular"; "tree"].

(** ** Example models *)

Definition layer (n t : string) (p : number) : ModelLayer :=
  {| name := n; type := t; inputShape := None; outputShape := None;
     parameters := p; trainableParams := p; nonTrainableParams := 0%float;
     activation := None |}.

Definition model (ls : list ModelLayer) : ModelMetadata :=
  {| fileName := "model.pt"; layers := ls |}.

(** Two layers that both report zero parameters. *)
Definition zero_model : ModelMetadata :=
  model [layer "a" "A" 0%float; layer "b" "B" 0%float].

(** One layer whose type is the name of a property that every object
    inherits. *)
Definition constructor_model : ModelMetadata :=
  model [layer "a" "constructor" 1%float].

(** Two layers of one type around a layer of another type. *)
Definition grouped_model : ModelMetadata :=
  model [layer "conv1" "Conv2d" 10%float; layer "fc" "Linear" 20%float;
         layer "conv2" "Conv2d" 5%float].

(** Two layers of the same name. *)
Definition duplicate_model : ModelMetadata :=
  model [layer "block" "Conv2d" 10%float; layer "block" "Linear" 20%float].

(** The model of the search example of the specification. *)
Definition conv_model : ModelMetadata :=
  model [layer "conv1" "Conv2d" 9408%float; layer "bn1" "BatchNorm2d" 128%float;
         layer "fc" "Linear" 513000%float].

(** ** The engine run with the reference [Math] library *)

Definition run_visualize := visualize ref_cos ref_sin ref_atan2.
Definition run_setLayout := setLayout ref_cos ref_sin ref_atan2.

(** The search model rendered vertically by a new engine. *)
Definition conv_vertical : Visualizer :=
  state_of (run_visualize new_Visualizer conv_model (Some "vertical")).

(** The grouped model rendered as a tree: the nodes stand in the order
    [conv1], [conv2], [fc]. *)
Definition grouped_tree : Visualizer :=
  state_of (run_visualize new_Visualizer grouped_model (Some "tree")).

(** The two layers named [block] rendered vertically. *)
Definition duplicate_vertical : Visualizer :=
  state_of (run_visualize new_Visualizer duplicate_model (Some "vertical")).

(** Membership in a list of float literals, decided by evaluation. *)
Ltac in_levels :=
  vm_compute;
  repeat match goal with
         | |- _ \/ _ => first [ left; reflexivity | right ]
         end.

(** ** Further observations on the engine *)

(** The pointer moves of a gesture, applied in order. *)
Definition mousemoves (v : Visualizer) (moves : list (number * number))
  : Visualizer :=
  fold_left (fun w p => mousemove w (fst p) (snd p)) moves v.

(** The container's transform is the one [render] writes for the current
    view. *)
Definition transform_current (v : Visualizer) : Prop :=
  match viz_container (canvas v) with
  | Some container =>
      transform container
      = Some (scale v, (translateX v / scale v)%float,
              (translateY v / scale v)%float)
  | None => True
  end.

(** What a render reads of the engine besides the model and the layout: the
    view, the drag state, the search term, the cursor and the two visibility
    classes of the canvas. *)
Definition frame_of (v : Visualizer) :=
  (view_of v, isDragging v, (startX v, startY v),
   (startTranslateX v, startTranslateY v), searchTerm v,
   (cursor (canvas v), hide_labels (canvas v), hide_params (canvas v))).

(** What the surface shows: the size of the container, the placements and
    the connectors, in document order. *)
Definition surface_of (v : Visualizer) :=
  option_map (fun container =>
                (container_size container,
                 map placement_of (flat_map nodes_of (children container)),
                 filter is_connector (children container)))
             (viz_container (canvas v)).

Section Sync.

Variable Math_cos Math_sin : number -> number.
Variable Math_atan2 : number -> number -> number.

(** The surface is the render of the current model under the current layout;
    there is none only before the first model or after a tree render that
    threw. *)
Definition in_sync (v : Visualizer) : Prop :=
  match surface_of v with
  | Some (size, shown, lines) =>
      exists m els,
        currentMetadata v = Some m
        /\ render_layout Math_cos Math_sin Math_atan2 (currentLayout v) m
           = Some (size, els)
        /\ shown = map placement_of (flat_map nodes_of els)
        /\ lines = filter is_connector els
  | None =>
      currentMetadata v = None
      \/ exists m,
           currentMetadata v = Some m /\ currentLayout v = "tree"
           /\ existsb (fun l => inherited (type l)) (layers m) = true
  end.

End Sync.

(** The type a group of the tree layout is headed by. *)
Definition group_type (e : Element) : option string :=
  match e with
  | layer_group header_type _ _ => Some header_type
  | _ => None
  end.

(** Every own property holds the layers of its type met so far, in order. *)
Definition grouped (done : list ModelLayer) (o : JsObject (list ModelLayer))
  : Prop :=
  Forall (fun e => snd e = filter (fun l => String.eqb (type l) (fst e)) done
                   /\ snd e <> []) o.

(** Whether each child of a chain of [n] nodes is a connector: nodes and
    connectors in turn, a node first and last. *)
Definition alternating (n : nat) : list bool :=
  match n with
  | O => []
  | S k => false :: List.concat (repeat [true; false] k)
  end.

(** A convolution followed by an activation, which has no parameters. *)
Definition relu_model : ModelMetadata :=
  model [layer "conv1" "Conv2d" 9408%float; layer "relu" "ReLU" 0%float].

(** ** The order of binary64 numbers

    [<?] is read through its specification on [spec_float]: a number that is
    not NaN has a rank, and [x <? y] holds when the rank of [x] is below the
    rank of [y] in the lexicographic order. *)

Definition rank (x : spec_float) : option (Z * Z * Z) :=
  match x with
  | S754_nan => None
  | S754_infinity s => Some (if s then -2 else 2, 0, 0)%Z
  | S754_zero _ => Some (0, 0, 0)%Z
  | S754_finite s m e =>
      Some (if s then (-1, - e, - Zpos m) else (1, e, Zpos m))%Z
  end.

Definition rank_lt (a b : Z * Z * Z) : Prop :=
  let '(c1, e1, m1) := a in
  let '(c2, e2, m2) := b in
  (c1 < c2 \/ (c1 = c2 /\ (e1 < e2 \/ (e1 = e2 /\ m1 < m2))))%Z.

Definition below (x y : number) : Prop :=
  match rank (Prim2SF x), rank (Prim2SF y) with
  | Some a, Some b => rank_lt a b
  | _, _ => False
  end.

(** ** The host ([src/main.ts], class [LucefactApp])

    The layout buttons and the model history. *)

(** ['vertical' | 'horizontal' | 'radial' | 'force'], the layouts the
    buttons of the toolbar name. *)
Inductive ToolbarLayout := vertical | horizontal | radial | force.

Definition ToolbarLayout_eqb (a b : ToolbarLayout) : bool :=
  match a, b with
  | vertical, vertical | horizontal, horizontal
  | radial, radial | force, force => true
  | _, _ => false
  end.

(** The object [layoutMap] of [setLayout], read at a key of its type. *)
Definition layoutMap (layout : ToolbarLayout) : string :=
  match layout with
  | vertical => "vertical"
  | horizontal => "horizontal"
  | radial => "circular"
  | force => "tree"
  end.

(** The fields of [ModelMetadata] that the engine does not read. *)
Record ModelTotals := {
  framework : string;
  fileSize : nat;
  format : string;
  totalLayers : number;
  totalParameters : number;
  trainableParameters : number;
  nonTrainableParameters : number
}.

Module HistoryItem.

Record t := {
  fileName : string;
  framework : string;
  timestamp : number;
  layers : number;
  params : number
}.

End HistoryItem.

Module LucefactApp.

(** The engine the host holds, if its canvas element exists, and the layout
    buttons that carry the class [active]. *)
Record t := {
  visualizer : option Visualizer;
  active : list ToolbarLayout
}.

Section Host.

Variable Math_cos Math_sin : number -> number.
Variable Math_atan2 : number -> number -> number.

(** [setLayout]: an exception of the engine leaves it before the buttons are
    updated. *)
Definition setLayout (app : t) (layout : ToolbarLayout) : Completion t :=
  let buttons :=
    filter (fun l => ToolbarLayout_eqb l layout)
           [vertical; horizontal; radial; force] in
  match visualizer app with
  | Some v =>
      match setLayout Math_cos Math_sin Math_atan2 v (layoutMap layout) with
      | Normal v' => Normal {| visualizer := Some v'; active := buttons |}
      | Throw v' => Throw {| visualizer := Some v'; active := active app |}
      end
  | None => Normal {| visualizer := None; active := buttons |}
  end.

End Host.

(** [addToHistory], on the field [modelHistory]; [now] is the value of
    [Date.now()]. *)
Definition addToHistory (now : number) (metadata : ModelMetadata)
           (totals : ModelTotals) (modelHistory : list HistoryItem.t)
  : list HistoryItem.t :=
  let item :=
    {| HistoryItem.fileName := fileName metadata;
       HistoryItem.framework := framework totals;
       HistoryItem.timestamp := now;
       HistoryItem.layers := totalLayers totals;
       HistoryItem.params := totalParameters totals |} in
  let others :=
    filter (fun h => negb (String.eqb (HistoryItem.fileName h)
                             (HistoryItem.fileName item)))
           modelHistory in
  firstn 10 (item :: others).

End LucefactApp.

(** [xs.reduce(f, init)] *)
Definition reduce {A B} (f : B -> A -> B) (xs : list A) (init : B) : B :=
  fold_left f xs init.

(** ** The parsers ([src/parsers/*.ts]) and the parser's front
    ([src/parser.ts])

    The parsers do not read the layers from the file: they check a
    signature and make up layers from the size of the file and from
    [Math.random()]. *)

(** [Math.floor]: as [Math_ceil], corrected downwards. *)
Definition Math_floor (x : number) : number :=
  if is_nan x then x
  else if (two52 <=? abs x)%float then x
  else if is_zero x then x
  else if (0 <? x)%float then
    let r := ((x + two52) - two52)%float in
    if (x <? r)%float then (r - 1)%float else r
  else
    let r := ((x - two52) + two52)%float in
    if (x <? r)%float then (r - 1)%float else r.

(** The integer that a number denotes as a property key of an array, if it
    denotes a non-negative one. *)
Definition to_index (x : number) : option N :=
  match Prim2SF x with
  | S754_zero _ => Some 0%N
  | S754_finite false m e =>
      match e with
      | Z0 => Some (Npos m)
      | Zpos p => Some (Z.to_N (Zpos m * 2 ^ Zpos p))
      | Zneg p =>
          if (Zpos m mod 2 ^ Zpos p =? 0)%Z
          then Some (Z.to_N (Zpos m / 2 ^ Zpos p))
          else None
      end
  | _ => None
  end.

(** [xs[i]] for a number [i]: [undefined] unless [i] is an index of [xs]. *)
Definition array_get {A} (xs : list A) (i : number) : option A :=
  match to_index i with
  | Some n =>
      if (n <? N.of_nat (List.length xs))%N then nth_error xs (N.to_nat n)
      else None
  | None => None
  end.

(** [`${n}`] for an index [n]: its decimal digits. *)
Definition string_of_nat (n : nat) : string :=
  DecimalString.NilEmpty.string_of_uint (Nat.to_uint n).

(** A [File]: its name and its content. *)
Record File := {
  File_name : string;
  File_bytes : list byte
}.

(** A [ParseResult]: the metadata of a success or the error of a failure. *)
Definition ParseResult := (ModelMetadata * ModelTotals + string)%type.

(** [signature.every((byte, i) => byte === reference[i])] *)
Fixpoint every_equal (signature reference : list byte) : bool :=
  match signature, reference with
  | [], _ => true
  | b :: rest, r :: reference' => Byte.eqb b r && every_equal rest reference'
  | _ :: _, [] => false
  end.

(** The field [success] of a [ParseResult]. *)
Definition success (r : ParseResult) : bool :=
  match r with
  | inl _ => true
  | inr _ => false
  end.

(** The metadata object that the four parsers build from their layers. *)
Definition metadata_of (framework format : string) (file : File)
           (layers : list ModelLayer) : ModelMetadata * ModelTotals :=
  ({| fileName := File_name file; layers := layers |},
   {| framework := framework;
      fileSize := List.length (File_bytes file);
      format := format;
      totalLayers := js_of_nat (List.length layers);
      totalParameters :=
        reduce (fun sum l => (sum + parameters l)%float) layers 0%float;
      trainableParameters :=
        reduce (fun sum l => (sum + trainableParams l)%float) layers 0%float;
      nonTrainableParameters :=
        reduce (fun sum l => (sum + nonTrainableParams l)%float) layers
          0%float |}).

(** [for (let i = 0; i < count; i++) layers.push(...)]: [body] makes the
    layer from the index, the layers pushed so far and the number of calls
    of [Math.random()] so far, and returns the new number of calls. *)
Fixpoint extract_loop
         (body : nat -> list ModelLayer -> nat -> ModelLayer * nat)
         (remaining i : nat) (layers : list ModelLayer) (calls : nat)
  : list ModelLayer * nat :=
  match remaining with
  | O => (layers, calls)
  | S remaining' =>
      let '(l, calls') := body i layers calls in
      extract_loop body remaining' (S i) (layers ++ [l]) calls'
  end.

Module TensorFlowParser.

Definition hdf5Signature : list byte :=
  [x89; x48; x44; x46; x0d; x0a; x1a; x0a].

Definition commonLayerTypes : list string :=
  ["Dense"; "Conv2D"; "MaxPooling2D"; "Dropout"; "Flatten";
   "BatchNormalization"].

Definition activations : list string :=
  ["relu"; "sigmoid"; "tanh"; "softmax"; "linear"].

Section Parse.

(** [Math_random n] is the value of the call of [Math.random()] that [n]
    calls precede. *)
Variable Math_random : nat -> number.

Definition layer_of (i : nat) (layers : list ModelLayer) (calls : nat)
  : ModelLayer * nat :=
  let layerType :=
    nth (i mod List.length commonLayerTypes) commonLayerTypes "" in
  let params :=
    (Math_floor (Math_random calls * 100000) + 1000)%float in
  let active := String.eqb layerType "Dense" || String.eqb layerType "Conv2D" in
  ({| name := String.append "layer_" (string_of_nat (i + 1));
      type := layerType;
      inputShape :=
        if i =? 0 then Some [28%float; 28%float; 1%float] else None;
      outputShape :=
        if (Z.of_nat i =? Z.of_nat (List.length layers) - 1)%Z
        then Some [10%float] else None;
      parameters := params;
      trainableParams := Math_floor (params * 0.9)%float;
      nonTrainableParams := Math_floor (params * 0.1)%float;
      activation :=
        if active
        then array_get activations
               (Math_floor (Math_random (S calls)
                            * js_of_nat (List.length activations))%float)
        else None |},
   if active then S (S calls) else S calls).

Definition extractLayers (byteLength : N) : list ModelLayer :=
  let estimatedLayers := N.min (byteLength / 50000) 20 in
  fst (extract_loop layer_of (N.to_nat (N.max estimatedLayers 3)) 0 [] 0).

Definition parse (file : File) : ParseResult :=
  let signature := firstn 8 (File_bytes file) in
  let isHDF5 := every_equal signature hdf5Signature in
  if negb isHDF5 then inr "Invalid HDF5/Keras model file"
  else
    inl (metadata_of "TensorFlow" ".h5 (Keras/HDF5)" file
           (extractLayers (N.of_nat (List.length (File_bytes file))))).

End Parse.

End TensorFlowParser.

Module PyTorchParser.

Definition layerTypes : list string :=
  ["Linear"; "Conv2d"; "BatchNorm2d"; "ReLU"; "MaxPool2d"; "Dropout";
   "Embedding"].

Definition activations : list string :=
  ["relu"; "leaky_relu"; "sigmoid"; "tanh"; "softmax"].

Section Parse.

Context {String_prototype : StringPrototype}.
Variable Math_random : nat -> number.

Definition layer_of (i : nat) (layers : list ModelLayer) (calls : nat)
  : ModelLayer * nat :=
  let layerType := nth (i mod List.length layerTypes) layerTypes "" in
  let params :=
    (Math_floor (Math_random calls * 150000) + 500)%float in
  let active := existsb (String.eqb layerType) ["Linear"; "Conv2d"] in
  ({| name :=
        String.append (toLowerCase layerType)
          (String.append "_" (string_of_nat (i + 1)));
      type := layerType;
      inputShape :=
        if i =? 0 then Some [3%float; 224%float; 224%float] else None;
      outputShape :=
        if (Z.of_nat i =? Z.of_nat (List.length layers) - 1)%Z
        then Some [1000%float] else None;
      parameters := params;
      trainableParams := params;
      nonTrainableParams := 0%float;
      activation :=
        if active
        then array_get activations
               (Math_floor (Math_random (S calls)
                            * js_of_nat (List.length activations))%float)
        else None |},
   if active then S (S calls) else S calls).

Definition extractLayers (byteLength : N) : list ModelLayer :=
  let estimatedLayers := N.min (byteLength / 40000) 25 in
  fst (extract_loop layer_of (N.to_nat (N.max estimatedLayers 3)) 0 [] 0).

Definition parse (file : File) : ParseResult :=
  let isPickle :=
    match File_bytes file with
    | b :: _ => Byte.eqb b x80
    | [] => false
    end in
  if negb isPickle then inr "Invalid PyTorch model file"
  else
    inl (metadata_of "PyTorch" ".pt/.pth (PyTorch)" file
           (extractLayers (N.of_nat (List.length (File_bytes file))))).

End Parse.

End PyTorchParser.

Module ONNXParser.

Definition operatorTypes : list string :=
  ["Gemm"; "Conv"; "Relu"; "MaxPool"; "BatchNormalization"; "Dropout";
   "Softmax"; "Add"].

Section Parse.

Variable Math_random : nat -> number.

Definition layer_of (i : nat) (layers : list ModelLayer) (calls : nat)
  : ModelLayer * nat :=
  let opType := nth (i mod List.length operatorTypes) operatorTypes "" in
  let params :=
    (Math_floor (Math_random calls * 200000) + 1000)%float in
  let trained :=
    existsb (String.eqb opType) ["Gemm"; "Conv"; "BatchNormalization"] in
  ({| name := String.append opType (String.append "_" (string_of_nat i));
      type := opType;
      inputShape := None;
      outputShape := None;
      parameters := params;
      trainableParams := if trained then params else 0%float;
      nonTrainableParams := if trained then 0%float else params;
      activation :=
        if String.eqb opType "Relu" then Some "relu"
        else if String.eqb opType "Softmax" then Some "softmax"
        else None |},
   S calls).

Definition extractLayers (byteLength : N) : list ModelLayer :=
  let estimatedLayers := N.min (byteLength / 30000) 30 in
  fst (extract_loop layer_of (N.to_nat (N.max estimatedLayers 4)) 0 [] 0).

(** The signature is looked for, but a file without it is parsed all the
    same. *)
Definition parse (file : File) : ParseResult :=
  inl (metadata_of "ONNX" ".onnx (Open Neural Network Exchange)" file
         (extractLayers (N.of_nat (List.length (File_bytes file))))).

End Parse.

End ONNXParser.

Module PickleParser.

Definition layerTypes : list string :=
  ["Estimator"; "Transformer"; "Classifier"; "Regressor"; "Encoder";
   "Scaler"].

Section Parse.

Context {String_prototype : StringPrototype}.
Variable Math_random : nat -> number.

Definition layer_of (i : nat) (layers : list ModelLayer) (calls : nat)
  : ModelLayer * nat :=
  let componentType := nth (i mod List.length layerTypes) layerTypes "" in
  let params :=
    (Math_floor (Math_random calls * 50000) + 100)%float in
  ({| name :=
        String.append (toLowerCase componentType)
          (String.append "_" (string_of_nat (i + 1)));
      type := componentType;
      inputShape := None;
      outputShape := None;
      parameters := params;
      trainableParams := params;
      nonTrainableParams := 0%float;
      activation := None |},
   S calls).

Definition extractLayers (byteLength : N) : list ModelLayer :=
  let estimatedComponents := N.min (byteLength / 20000) 15 in
  fst (extract_loop layer_of (N.to_nat (N.max estimatedComponents 2)) 0 [] 0).

Definition parse (file : File) : ParseResult :=
  let valid :=
    match File_bytes file with
    | b :: _ => Byte.eqb b x80
    | [] => false
    end in
  if negb valid then inr "Invalid pickle file format"
  else
    inl (metadata_of "Pickle" ".pkl/.pickle (Python Pickle)" file
           (extractLayers (N.of_nat (List.length (File_bytes file))))).

End Parse.

End PickleParser.

(** The types that the four parsers give to layers. *)
Definition parser_types : list string :=
  TensorFlowParser.commonLayerTypes ++ PyTorchParser.layerTypes
  ++ ONNXParser.operatorTypes ++ PickleParser.layerTypes.

(** What the layers of a parser have in common. *)
Definition made_up (types : list string) (count : nat)
           (ls : list ModelLayer) : Prop :=
  List.length ls = count
  /\ NoDup (map name ls)
  /\ Forall (fun l => In (type l) types) ls
  /\ Forall (fun l => outputShape l = None) ls
  /\ Forall (fun l => inputShape l = None) (tl ls).


(** ** The parser's front ([src/parser.ts], class [ModelParser]) *)

(** [s.split(sep)] for a separator of one character: never empty. *)
Fixpoint split (sep : ascii) (s : string) : list string :=
  match s with
  | EmptyString => [EmptyString]
  | String c t =>
      if Ascii.eqb c sep then EmptyString :: split sep t
      else match split sep t with
           | part :: parts => String c part :: parts
           | [] => [String c EmptyString]
           end
  end.

(** The four parsers that a [ModelParser] holds. *)
Inductive Parser :=
  tensorflowParser | pytorchParser | onnxParser | pickleParser.

Module ModelParser.

Section Front.

Context {String_prototype : StringPrototype}.

Definition getFileExtension (filename : string) : string :=
  let parts := split "." filename in
  toLowerCase (nth (List.length parts - 1) parts EmptyString).

(** The [switch] of [parseFile]: the parser that the file is handed to, or
    the error of the failed result. *)
Definition parser_of (file_name : string) : Parser + string :=
  let extension := getFileExtension file_name in
  if String.eqb extension "h5" || String.eqb extension "keras"
  then inl tensorflowParser
  else if String.eqb extension "pt" || String.eqb extension "pth"
  then inl pytorchParser
  else if String.eqb extension "onnx" then inl onnxParser
  else if String.eqb extension "pkl" || String.eqb extension "pickle"
  then inl pickleParser
  else inr (String.append "Unsupported file format: ." extension).

Definition parseFile (Math_random : nat -> number) (file : File)
  : ParseResult :=
  match parser_of (File_name file) with
  | inl tensorflowParser => TensorFlowParser.parse Math_random file
  | inl pytorchParser => PyTorchParser.parse Math_random file
  | inl onnxParser => ONNXParser.parse Math_random file
  | inl pickleParser => PickleParser.parse Math_random file
  | inr error => inr error
  end.

End Front.

End ModelParser.

(** Two files and a generator, for the examples: a file of two bytes that
    begins as a pickle stream does, an empty file, and a [Math.random()]
    that returns one half at every call. *)
Definition pth_file : File :=
  {| File_name := "m.PTH"; File_bytes := [x80; x02] |}.

Definition empty_h5 : File := {| File_name := "empty.h5"; File_bytes := [] |}.

Definition half_random (call : nat) : number := 0.5%float.

(** ** The extremes reported by [generateInsights] ([src/insights.ts]) *)

(** [layers.reduce((max, layer) => layer.parameters > max.parameters ? layer
    : max, layers[0] || { name: 'N/A', parameters: 0 })]; [None] stands for
    the placeholder object, which is the result only for an empty array. *)
Definition mostComplexLayer (layers : list ModelLayer) : option ModelLayer :=
  match layers with
  | [] => None
  | first :: _ =>
      Some (reduce (fun max layer =>
                      if (parameters max <? parameters layer)%float
                      then layer else max)
                   layers first)
  end.

Definition layersWithParams (layers : list ModelLayer) : list ModelLayer :=
  filter (fun l => (0 <? parameters l)%float) layers.

Definition largestLayer (layers : list ModelLayer) : option ModelLayer :=
  mostComplexLayer (layersWithParams layers).

Definition smallestLayer (layers : list ModelLayer) : option ModelLayer :=
  match layersWithParams layers with
  | [] => None
  | first :: _ =>
      Some (reduce (fun min layer =>
                      if (parameters layer <? parameters min)%float
                      then layer else min)
                   (layersWithParams layers) first)
  end.

(** The [{ name, params }] pair the insights carry for an extreme. *)
Definition reported (o : option ModelLayer) : string * number :=
  match o with
  | Some l => (name l, parameters l)
  | None => ("N/A", 0%float)
  end.

(** ** The issues of [identifyIssues] ([src/insights.ts])

    An issue stands for the message that the source formats from it. *)

Inductive Issue :=
| NoLayers
| ManyWithoutParameters (without all : nat)
| MissingShapes (missing : nat)
| VeryLarge (totalParameters : number)
| NoTrainableParameters
| Unbalanced
| NoSignificantIssues.

(** [Math.min(...xs)]: [Infinity] for no argument. *)
Definition Math_min_spread (xs : list number) : number :=
  fold_left Math_min xs infinity.

Definition when {A} (b : bool) (x : A) : list A := if b then [x] else [].

Definition identifyIssues (metadata : ModelMetadata) (totals : ModelTotals)
  : list Issue :=
  let layers := layers metadata in
  let layersWithoutParams :=
    filter (fun l => (parameters l =? 0)%float) layers in
  let missingShapes :=
    filter (fun l => match inputShape l, outputShape l with
                     | None, None => true
                     | _, _ => false
                     end) layers in
  let paramCounts :=
    filter (fun p => (0 <? p)%float) (map parameters layers) in
  let issues :=
    when (List.length layers =? 0) NoLayers
    ++ when (List.length layers <? 2 * List.length layersWithoutParams)
         (ManyWithoutParameters (List.length layersWithoutParams)
            (List.length layers))
    ++ when (0 <? List.length missingShapes)
         (MissingShapes (List.length missingShapes))
    ++ when (100000000 <? totalParameters totals)%float
         (VeryLarge (totalParameters totals))
    ++ when ((trainableParameters totals =? 0)%float
             && (0 <? totalParameters totals)%float)
         NoTrainableParameters
    ++ when ((1 <? List.length paramCounts)
             && (Math_min_spread paramCounts * 1000
                 <? Math_max_spread paramCounts)%float)
         Unbalanced in
  if List.length issues =? 0 then issues ++ [NoSignificantIssues] else issues.

(** * Properties of the engine *)

Section Properties.

Context {String_prototype : StringPrototype}.
Variable Math_cos Math_sin : number -> number.
Variable Math_atan2 : number -> number -> number.

Local Abbreviation visualize' := (visualize Math_cos Math_sin Math_atan2).
Local Abbreviation setLayout' := (setLayout Math_cos Math_sin Math_atan2).
Local Abbreviation step' := (step Math_cos Math_sin Math_atan2).
Local Abbreviation run' := (run Math_cos Math_sin Math_atan2).
Local Abbreviation circular_point' := (circular_point Math_cos Math_sin).

(** ** The view state under the operations *)

Lemma view_render (v : Visualizer) : view_of (render v) = view_of v.
Proof. unfold render. destruct (viz_container (canvas v)); reflexivity. Qed.

Lemma searchTerm_render (v : Visualizer) : searchTerm (render v) = searchTerm v.
Proof. unfold render. destruct (viz_container (canvas v)); reflexivity. Qed.

Lemma isDragging_render (v : Visualizer) : isDragging (render v) = isDragging v.
Proof. unfold render. destruct (viz_container (canvas v)); reflexivity. Qed.

Lemma scale_render (v : Visualizer) : scale (render v) = scale v.
Proof. exact (f_equal (fun t => fst (fst t)) (view_render v)). Qed.

Lemma scale_zoom (v : Visualizer) (d : Direction) :
  scale (zoom v d) = zoom_scale d (scale v).
Proof. destruct d; unfold zoom; rewrite scale_render; reflexivity. Qed.

Lemma isDragging_zoom (v : Visualizer) (d : Direction) :
  isDragging (zoom v d) = isDragging v.
Proof. destruct d; unfold zoom; rewrite isDragging_render; reflexivity. Qed.

Lemma view_reset (v : Visualizer) : view_of (reset v) = (1, 0, 0)%float.
Proof. unfold reset. rewrite view_render. reflexivity. Qed.

Lemma scale_iter_zoom (d : Direction) (k : nat) (v : Visualizer) :
  scale (Nat.iter k (fun w => zoom w d) v) = Nat.iter k (zoom_scale d) (scale v).
Proof.
  induction k as [|k IH]; simpl; [reflexivity|].
  rewrite scale_zoom, IH. reflexivity.
Qed.

Lemma view_visualize (v : Visualizer) (m : ModelMetadata) (l : option string) :
  view_of (state_of (visualize' v m l)) = view_of v
  /\ searchTerm (state_of (visualize' v m l)) = searchTerm v.
Proof.
  unfold visualize.
  destruct (render_layout _ _ _ _ _) as [[size els]|]; cbn [state_of].
  - rewrite view_render, searchTerm_render. split; reflexivity.
  - split; reflexivity.
Qed.

Lemma view_setLayout (v : Visualizer) (l : string) :
  view_of (state_of (setLayout' v l)) = view_of v.
Proof.
  unfold setLayout. destruct (currentMetadata v); [|reflexivity].
  apply view_visualize.
Qed.

Lemma view_click (v : Visualizer) (target detail : nat) :
  view_of (fst (click v target detail)) = view_of v.
Proof.
  unfold click.
  destruct (nth_error _ target); [|reflexivity].
  destruct (detail =? 2)%nat; reflexivity.
Qed.

Lemma scale_mousemove (v : Visualizer) (x y : number) :
  scale (mousemove v x y) = scale v.
Proof.
  unfold mousemove. destruct (isDragging v); [|reflexivity].
  rewrite scale_render. reflexivity.
Qed.

(** Every operation other than a zoom or a reset keeps the scale. *)
Lemma scale_step (v : Visualizer) (op : Operation) :
  scale (step' v op) =
  match op with
  | op_zoom d => zoom_scale d (scale v)
  | op_reset => 1%float
  | _ => scale v
  end.
Proof.
  destruct op; simpl; try reflexivity.
  - exact (f_equal (fun t => fst (fst t)) (proj1 (view_visualize v metadata layout))).
  - exact (f_equal (fun t => fst (fst t)) (view_setLayout v layout)).
  - exact (f_equal (fun t => fst (fst t)) (view_click v target detail)).
  - apply scale_zoom.
  - exact (f_equal (fun t => fst (fst t)) (view_reset v)).
  - apply scale_mousemove.
Qed.

Lemma zoom_levels_closed (d : Direction) (s : number) :
  In s zoom_levels -> In (zoom_scale d s) zoom_levels.
Proof.
  unfold zoom_levels. intros H. simpl in H.
  repeat (destruct H as [H | H]; [subst s; destruct d; in_levels|]).
  contradiction.
Qed.

Lemma zoom_levels_in_range (s : number) :
  In s zoom_levels -> in_zoom_range s = true.
Proof.
  assert (H : forallb in_zoom_range zoom_levels = true)
    by (vm_compute; reflexivity).
  rewrite forallb_forall in H. apply H.
Qed.

Lemma iter_zoom_scale_in_levels (d : Direction) (k : nat) :
  In (Nat.iter k (zoom_scale d) 1%float) zoom_levels.
Proof.
  induction k as [|k IH]; [in_levels|].
  rewrite Nat.iter_succ. apply zoom_levels_closed, IH.
Qed.

Lemma scale_run_in_levels (ops : list Operation) (v : Visualizer) :
  In (scale v) zoom_levels -> In (scale (run' v ops)) zoom_levels.
Proof.
  revert v. induction ops as [|op ops IH]; intros v Hv; [exact Hv|].
  simpl. apply IH. rewrite scale_step.
  destruct op; try exact Hv.
  - apply zoom_levels_closed; exact Hv.
  - in_levels.
Qed.

(** C9.  A zoom step sets the scale to [min(2, scale + 0.1)] or
    [max(0.5, scale - 0.1)] whatever the drag state, which it leaves as it
    is; twenty steps in from scale [1] end at exactly [2] and no intermediate
    scale exceeds [2]; twenty steps out end at exactly [0.5]; and from the
    constructed engine the scale stays within [[0.5, 2]] under every sequence
    of operations, so in particular under every sequence of zooms. *)
Theorem zoom_saturates_in_range :
  forall (v : Visualizer) (ops : list Operation) (zs : list Direction),
    scale (zoom v zoom_in) = Math_min 2 (scale v + 0.1)%float
    /\ scale (zoom v zoom_out) = Math_max 0.5 (scale v - 0.1)%float
    /\ isDragging (zoom v zoom_in) = isDragging v
    /\ isDragging (zoom v zoom_out) = isDragging v
    /\ scale (Nat.iter 20 (fun w => zoom w zoom_in) (reset v)) = 2%float
    /\ forallb (fun k => (scale (Nat.iter k (fun w => zoom w zoom_in) (reset v))
                          <=? 2)%float) (seq 0 21) = true
    /\ scale (Nat.iter 20 (fun w => zoom w zoom_out) (reset v)) = 0.5%float
    /\ forallb (fun k => (0.5 <=? scale (Nat.iter k (fun w => zoom w zoom_out)
                                           (reset v)))%float) (seq 0 21) = true
    /\ in_zoom_range (scale (run' new_Visualizer ops)) = true
    /\ in_zoom_range (scale (fold_left zoom zs (reset v))) = true.
Proof.
  intros v ops zs.
  assert (H1 : scale (reset v) = 1%float)
    by exact (f_equal (fun t => fst (fst t)) (view_reset v)).
  repeat split.
  - apply (scale_zoom v zoom_in).
  - apply (scale_zoom v zoom_out).
  - apply isDragging_zoom.
  - apply isDragging_zoom.
  - rewrite scale_iter_zoom, H1. vm_compute. reflexivity.
  - apply forallb_forall. intros k _.
    rewrite scale_iter_zoom, H1.
    pose proof (iter_zoom_scale_in_levels zoom_in k) as Hk.
    apply zoom_levels_in_range in Hk. unfold in_zoom_range in Hk.
    apply andb_true_iff in Hk. apply Hk.
  - rewrite scale_iter_zoom, H1. vm_compute. reflexivity.
  - apply forallb_forall. intros k _.
    rewrite scale_iter_zoom, H1.
    pose proof (iter_zoom_scale_in_levels zoom_out k) as Hk.
    apply zoom_levels_in_range in Hk. unfold in_zoom_range in Hk.
    apply andb_true_iff in Hk. apply Hk.
  - apply zoom_levels_in_range, scale_run_in_levels. in_levels.
  - apply zoom_levels_in_range.
    assert (G : forall w, In (scale w) zoom_levels ->
                          In (scale (fold_left zoom zs w)) zoom_levels).
    { induction zs as [|d zs IH]; intros w Hw; [exact Hw|].
      simpl. apply IH. rewrite scale_zoom. apply zoom_levels_closed, Hw. }
    apply G. rewrite H1. in_levels.
Qed.

(** ** Sizing when every layer reports zero parameters *)

Lemma Math_max_spread_zeros (xs : list number) :
  xs <> [] -> Forall (fun x => x = 0%float) xs -> Math_max_spread xs = 0%float.
Proof.
  intros Hne Hall. unfold Math_max_spread.
  destruct Hall as [|x xs Hx Hxs]; [contradiction|].
  subst x. clear Hne. simpl.
  change (Math_max neg_infinity 0) with 0%float.
  induction Hxs as [|y ys Hy _ IH]; [reflexivity|].
  subst y. simpl.
  change (Math_max 0 0) with 0%float. exact IH.
Qed.

(** With no layer above zero parameters the size ratio of every node is
    [0 / 0]: the width the node is given and the width of its size bar are
    both [nan]. *)
Lemma createLayerNode_zero_parameters
      (layout : string) (l : ModelLayer) (index : nat) (m : ModelMetadata) :
  Forall (fun x => parameters x = 0%float) (layers m) ->
  In l (layers m) ->
  size_bar (createLayerNode layout l index m) = css_percent nan
  /\ maxWidth (node_style (createLayerNode layout l index m)) = css_px nan.
Proof.
  intros Hall Hin.
  assert (Hl : parameters l = 0%float)
    by (rewrite Forall_forall in Hall; apply Hall, Hin).
  assert (Hmax : Math_max_spread (map parameters (layers m)) = 0%float).
  { apply Math_max_spread_zeros.
    - destruct (layers m); [contradiction | discriminate].
    - apply Forall_map. exact Hall. }
  unfold createLayerNode. rewrite Hmax, Hl.
  destruct (String.eqb layout "horizontal"); split; reflexivity.
Qed.

(** C1.  The size ratio of a node is [parameters / maxParams] with no case
    for [maxParams = 0]: when every layer of a model reports zero parameters
    the ratio is [0 / 0], which is [nan] and not [0], and with it the width
    given to every node and the width of its size bar.  On the model of two
    layers with zero parameters each, under every layout, the size bar of
    both nodes is [nan] percent wide and the width computed for both nodes
    is [nan] (the tree layout then overwrites that maximal width with
    [none]). *)
Theorem zero_parameters_give_nan_sizes :
  (forall (layout : string) (l : ModelLayer) (index : nat) (m : ModelMetadata),
      Forall (fun x => parameters x = 0%float) (layers m) ->
      In l (layers m) ->
      size_bar (createLayerNode layout l index m) = css_percent nan
      /\ maxWidth (node_style (createLayerNode layout l index m)) = css_px nan)
  /\ (let rendered := fun layout =>
         querySelectorAll_layer_node
           (canvas (state_of
                      (visualize' new_Visualizer zero_model (Some layout)))) in
       let widths := fun layout =>
         map (fun n => (maxWidth (node_style n), size_bar n))
             (rendered layout) in
       widths "vertical"
         = [(css_px nan, css_percent nan); (css_px nan, css_percent nan)]
       /\ widths "horizontal"
         = [(css_px nan, css_percent nan); (css_px nan, css_percent nan)]
       /\ widths "circular"
         = [(css_px nan, css_percent nan); (css_px nan, css_percent nan)]
       /\ widths "tree"
         = [(css_none, css_percent nan); (css_none, css_percent nan)]
       /\ Math_max_spread (map parameters (layers zero_model)) = 0%float
       /\ (0 / 0 = nan)%float).
Proof.
  split; [exact createLayerNode_zero_parameters|].
  repeat split; vm_compute; reflexivity.
Qed.

(** ** Lists built by [forEach] *)

Lemma flat_map_forEach_from {A B C} (g : B -> list C)
      (f : A -> nat -> list B) (k : nat) (xs : list A) :
  flat_map g (forEach_from f k xs)
  = forEach_from (fun x i => flat_map g (f x i)) k xs.
Proof.
  revert k. induction xs as [|x xs IH]; intros k; simpl; [reflexivity|].
  rewrite flat_map_app, IH. reflexivity.
Qed.

Lemma filter_forEach_from {A B} (p : B -> bool)
      (f : A -> nat -> list B) (k : nat) (xs : list A) :
  filter p (forEach_from f k xs)
  = forEach_from (fun x i => filter p (f x i)) k xs.
Proof.
  revert k. induction xs as [|x xs IH]; intros k; simpl; [reflexivity|].
  rewrite filter_app, IH. reflexivity.
Qed.

Lemma forEach_from_ext {A B} (f g : A -> nat -> list B) (k : nat)
      (xs : list A) :
  (forall x i, f x i = g x i) -> forEach_from f k xs = forEach_from g k xs.
Proof.
  intros E. revert k. induction xs as [|x xs IH]; intros k; simpl;
    [reflexivity|]. rewrite E, IH. reflexivity.
Qed.

Lemma Forall_forEach_from {A B} (P : B -> Prop) (f : A -> nat -> list B)
      (k : nat) (xs : list A) :
  (forall x i, Forall P (f x i)) -> Forall P (forEach_from f k xs).
Proof.
  intros H. revert k. induction xs as [|x xs IH]; intros k; simpl.
  - constructor.
  - apply Forall_app. split; [apply H | apply IH].
Qed.

Lemma map_forEach_from {A B C} (h : B -> C) (g : A -> nat -> B) (k : nat)
      (xs : list A) :
  map h (forEach_from (fun x i => [g x i]) k xs)
  = forEach_from (fun x i => [h (g x i)]) k xs.
Proof.
  revert k. induction xs as [|x xs IH]; intros k; simpl;
    [reflexivity | rewrite IH; reflexivity].
Qed.

Lemma forEach_from_self {A} (k : nat) (xs : list A) :
  forEach_from (fun x _ => [x]) k xs = xs.
Proof.
  revert k. induction xs as [|x xs IH]; intros k; simpl;
    [reflexivity | rewrite IH; reflexivity].
Qed.

(** A marker before every element but the first gives one less than the
    number of elements. *)
Lemma length_forEach_from_markers {A B} (c : B) (k : nat) (xs : list A) :
  List.length (forEach_from (fun _ i => if (0 <? i)%nat then [c] else []) k xs)
  = match k with O => List.length xs - 1 | S _ => List.length xs end.
Proof.
  revert k. induction xs as [|x xs IH]; intros k; simpl.
  - destruct k; reflexivity.
  - rewrite length_app, IH. destruct k; simpl; lia.
Qed.

(** A line after every element but the last. *)
Lemma forEach_from_lines {A B} (h : nat -> B) (n : nat) (xs : list A) (k : nat) :
  k + List.length xs = n ->
  forEach_from
    (fun _ i => if (Z.of_nat i <? Z.of_nat n - 1)%Z then [h i] else []) k xs
  = map h (seq k (List.length xs - 1)).
Proof.
  revert k. induction xs as [|x xs IH]; intros k Hn; [reflexivity|].
  simpl in Hn. cbn [forEach_from].
  rewrite (IH (S k)) by lia.
  destruct xs as [|y ys].
  - simpl in *. destruct (Z.ltb_spec (Z.of_nat k) (Z.of_nat n - 1)); [lia|].
    reflexivity.
  - simpl List.length in *.
    destruct (Z.ltb_spec (Z.of_nat k) (Z.of_nat n - 1)); [|lia].
    replace (S (S (List.length ys)) - 1) with (S (S (List.length ys) - 1))
      by lia.
    reflexivity.
Qed.

(** ** The nodes a render creates *)

Lemma nodes_render (v : Visualizer) :
  querySelectorAll_layer_node (canvas (render v))
  = querySelectorAll_layer_node (canvas v).
Proof.
  unfold render, querySelectorAll_layer_node.
  destruct (viz_container (canvas v)) eqn:E; simpl; rewrite ?E; reflexivity.
Qed.

Lemma connectors_render (v : Visualizer) :
  connectors_of (canvas (render v)) = connectors_of (canvas v).
Proof.
  unfold render, connectors_of.
  destruct (viz_container (canvas v)) eqn:E; simpl; rewrite ?E; reflexivity.
Qed.

(** The nodes and connectors on the surface after [visualize], in terms of
    what the layout produced. *)
Lemma surface_visualize (v : Visualizer) (m : ModelMetadata)
      (l : option string) :
  let layout := if truthy l then match l with Some k => k | None => "" end
                else currentLayout v in
  match render_layout Math_cos Math_sin Math_atan2 layout m with
  | Some (size, els) =>
      visualize' v m l
      = Normal (render (set_canvas (set_model v (Some m) layout)
           (set_viz_container
              (set_canvas_height (set_viz_container (canvas v) None)
                 (canvas_height_for layout (List.length (layers m))
                    (canvas_height (canvas v))))
              (Some {| container_size := size; children := els;
                       transform := None |}))))
      /\ querySelectorAll_layer_node (canvas (state_of (visualize' v m l)))
         = flat_map nodes_of els
      /\ connectors_of (canvas (state_of (visualize' v m l)))
         = filter is_connector els
  | None =>
      visualize' v m l
      = Throw (set_canvas (set_model v (Some m) layout)
                 (set_canvas_height (set_viz_container (canvas v) None)
                    (canvas_height_for layout (List.length (layers m))
                       (canvas_height (canvas v)))))
      /\ querySelectorAll_layer_node (canvas (state_of (visualize' v m l))) = []
      /\ connectors_of (canvas (state_of (visualize' v m l))) = []
  end.
Proof.
  assert (E : match l with
              | Some k => if truthy l then k else currentLayout v
              | None => currentLayout v
              end
              = if truthy l then match l with Some k => k | None => "" end
                else currentLayout v).
  { destruct l; [destruct (truthy (Some s))|]; reflexivity. }
  cbv zeta. unfold visualize. rewrite E.
  destruct (render_layout _ _ _ _ m) as [[size els]|]; cbn [state_of].
  - rewrite nodes_render, connectors_render. repeat split.
  - repeat split.
Qed.

(** The chain layouts: one node per layer, in model order. *)

Lemma nodes_renderVerticalLayout (layout : string) (m : ModelMetadata) :
  flat_map nodes_of (renderVerticalLayout layout m)
  = forEach (fun l i => [createLayerNode layout l i m]) (layers m).
Proof.
  unfold renderVerticalLayout, forEach. rewrite flat_map_forEach_from.
  apply forEach_from_ext. intros x i. destruct (0 <? i)%nat; reflexivity.
Qed.

Lemma connectors_renderVerticalLayout (layout : string) (m : ModelMetadata) :
  filter is_connector (renderVerticalLayout layout m)
  = forEach (fun _ i => if (0 <? i)%nat then [layer_connector "vertical"] else [])
      (layers m).
Proof.
  unfold renderVerticalLayout, forEach. rewrite filter_forEach_from.
  apply forEach_from_ext. intros x i. destruct (0 <? i)%nat; reflexivity.
Qed.

Lemma nodes_renderHorizontalLayout (layout : string) (m : ModelMetadata) :
  flat_map nodes_of (renderHorizontalLayout layout m)
  = forEach (fun l i => [createLayerNode layout l i m]) (layers m).
Proof.
  unfold renderHorizontalLayout, forEach. rewrite flat_map_forEach_from.
  apply forEach_from_ext. intros x i. destruct (0 <? i)%nat; reflexivity.
Qed.

Lemma connectors_renderHorizontalLayout (layout : string) (m : ModelMetadata) :
  filter is_connector (renderHorizontalLayout layout m)
  = forEach (fun _ i => if (0 <? i)%nat then [layer_arrow] else []) (layers m).
Proof.
  unfold renderHorizontalLayout, forEach. rewrite filter_forEach_from.
  apply forEach_from_ext. intros x i. destruct (0 <? i)%nat; reflexivity.
Qed.

Lemma nodes_renderCircularLayout (layout : string) (m : ModelMetadata) :
  flat_map nodes_of (renderCircularLayout Math_cos Math_sin Math_atan2 layout m)
  = forEach (fun l i =>
       [place_absolute (createLayerNode layout l i m)
          (fst (circular_point' (List.length (layers m)) i))
          (snd (circular_point' (List.length (layers m)) i))])
      (layers m).
Proof.
  unfold renderCircularLayout, forEach. rewrite flat_map_forEach_from.
  apply forEach_from_ext. intros x i.
  destruct (Z.of_nat i <? Z.of_nat (List.length (layers m)) - 1)%Z;
    reflexivity.
Qed.

Lemma connectors_renderCircularLayout (layout : string) (m : ModelMetadata) :
  filter is_connector
    (renderCircularLayout Math_cos Math_sin Math_atan2 layout m)
  = map (fun i =>
           createConnectionLine Math_atan2
             (fst (circular_point' (List.length (layers m)) i))
             (snd (circular_point' (List.length (layers m)) i))
             (fst (circular_point' (List.length (layers m)) (i + 1)))
             (snd (circular_point' (List.length (layers m)) (i + 1))))
        (seq 0 (List.length (layers m) - 1)).
Proof.
  unfold renderCircularLayout, forEach. rewrite filter_forEach_from.
  rewrite <- (forEach_from_lines _ (List.length (layers m)) (layers m) 0)
    by reflexivity.
  apply forEach_from_ext. intros x i.
  destruct (Z.of_nat i <? Z.of_nat (List.length (layers m)) - 1)%Z;
    reflexivity.
Qed.

(** The tree layout: one group per entry of the grouping object. *)
Lemma nodes_renderTreeLayout (layout : string) (m : ModelMetadata)
      (els : list Element) :
  renderTreeLayout layout m = Some els ->
  exists layersByType,
    group_layers (layers m) [] = Some layersByType
    /\ flat_map nodes_of els
       = flat_map (fun e =>
                     forEach (fun l i =>
                       [tree_node (createLayerNode layout l i m)]) (snd e))
           (Object_entries layersByType)
    /\ filter is_connector els = [].
Proof.
  unfold renderTreeLayout.
  destruct (group_layers (layers m) []) as [o|]; [|discriminate].
  intros E. injection E as <-. exists o. split; [reflexivity|].
  induction (Object_entries o) as [|[t g] es [IH1 IH2]]; [split; reflexivity|].
  simpl. rewrite IH1, IH2. split; reflexivity.
Qed.

Lemma render_layout_fresh (layout : string) (m : ModelMetadata)
      (size : css_length) (els : list Element) :
  render_layout Math_cos Math_sin Math_atan2 layout m = Some (size, els) ->
  Forall (fresh_node m) (flat_map nodes_of els).
Proof.
  unfold render_layout.
  destruct (String.eqb layout "vertical").
  { intros E. injection E as _ <-. rewrite nodes_renderVerticalLayout.
    apply Forall_forEach_from. intros x i. repeat constructor. }
  destruct (String.eqb layout "horizontal").
  { intros E. injection E as _ <-. rewrite nodes_renderHorizontalLayout.
    apply Forall_forEach_from. intros x i. repeat constructor. }
  destruct (String.eqb layout "circular").
  { intros E. injection E as _ <-. rewrite nodes_renderCircularLayout.
    apply Forall_forEach_from. intros x i. repeat constructor. }
  destruct (String.eqb layout "tree").
  { destruct (renderTreeLayout layout m) as [els'|] eqn:T; [|discriminate].
    intros E. injection E as _ <-.
    destruct (nodes_renderTreeLayout _ _ _ T) as (o & _ & -> & _).
    induction (Object_entries o) as [|e es IH]; simpl; [constructor|].
    apply Forall_app. split; [|exact IH].
    apply Forall_forEach_from. intros x i. repeat constructor. }
  intros E. injection E as _ <-. constructor.
Qed.

(** ** A new render keeps the view transform and the search term *)

Lemma visualize_nodes_fresh (v : Visualizer) (m : ModelMetadata)
      (l : option string) :
  Forall (fresh_node m)
    (querySelectorAll_layer_node (canvas (state_of (visualize' v m l)))).
Proof.
  pose proof (surface_visualize v m l) as H. cbv zeta in H.
  destruct (render_layout _ _ _ _ m) as [[size els]|] eqn:R.
  - destruct H as (_ & -> & _). exact (render_layout_fresh _ _ _ _ R).
  - destruct H as (_ & -> & _). constructor.
Qed.

Lemma searchTerm_zoom (v : Visualizer) (d : Direction) :
  searchTerm (zoom v d) = searchTerm v.
Proof. destruct d; unfold zoom; rewrite searchTerm_render; reflexivity. Qed.

(** C3 (as the engine behaves).  Rendering a model, new or not, keeps the
    view transform and the search term the engine had; every node of the new
    surface is created unselected, neither dimmed nor highlighted.  [reset]
    sets the view transform to [{scale: 1, translateX: 0, translateY: 0}];
    of the operations of the engine, none but a zoom, a reset and a pointer
    move changes the view transform, and none but a search changes the
    search term. *)
Theorem visualize_keeps_view_and_search_term :
  forall (v : Visualizer) (m : ModelMetadata) (l : option string),
    view_of (state_of (visualize' v m l)) = view_of v
    /\ searchTerm (state_of (visualize' v m l)) = searchTerm v
    /\ Forall (fun n => selected n = false /\ dimmed n = false
                        /\ highlighted n = false)
         (querySelectorAll_layer_node (canvas (state_of (visualize' v m l))))
    /\ selected_nodes (state_of (visualize' v m l)) = []
    /\ view_of (reset v) = (1, 0, 0)%float
    /\ (forall op : Operation,
          match op with
          | op_zoom _ | op_reset | op_mousemove _ _ => True
          | _ => view_of (step' v op) = view_of v
          end)
    /\ (forall op : Operation,
          match op with
          | op_search _ => True
          | _ => searchTerm (step' v op) = searchTerm v
          end).
Proof.
  intros v m l.
  pose proof (visualize_nodes_fresh v m l) as F.
  split; [apply view_visualize|]. split; [apply view_visualize|].
  split.
  { eapply Forall_impl; [|exact F].
    intros n (Hs & Hd & Hh & _). repeat split; assumption. }
  split.
  { unfold selected_nodes.
    induction F as [|n ns (Hs & _) _ IH]; [reflexivity|].
    simpl. rewrite Hs. exact IH. }
  split; [apply view_reset|].
  split.
  - intros op. destruct op; try exact I; cbn [step]; try reflexivity.
    + apply view_visualize.
    + apply view_setLayout.
    + apply view_click.
  - intros op. destruct op; try exact I; cbn [step]; try reflexivity.
    + apply view_visualize.
    + unfold setLayout. destruct (currentMetadata v); [|reflexivity].
      apply view_visualize.
    + unfold click. destruct (nth_error _ target); [|reflexivity].
      destruct (detail =? 2)%nat; reflexivity.
    + apply searchTerm_zoom.
    + unfold reset. rewrite searchTerm_render. reflexivity.
    + unfold mousemove. destruct (isDragging v); [|reflexivity].
      rewrite searchTerm_render. reflexivity.
Qed.

(** ** A layout kind outside the enumeration *)

Lemma eqb_kind_false (kind k : string) :
  ~ In kind LayoutKinds -> In k LayoutKinds -> String.eqb kind k = false.
Proof.
  intros Hout Hin. apply String.eqb_neq. intros ->. exact (Hout Hin).
Qed.

Lemma render_layout_unknown (kind : string) (m : ModelMetadata)
      (old : css_length) :
  ~ In kind LayoutKinds ->
  render_layout Math_cos Math_sin Math_atan2 kind m = Some (css_unset, [])
  /\ canvas_height_for kind (List.length (layers m)) old = old.
Proof.
  intros Hout. unfold render_layout, canvas_height_for.
  rewrite !(eqb_kind_false kind) by (assumption || (simpl; tauto)).
  split; reflexivity.
Qed.

(** C2 (as the engine behaves).  Nothing rejects a layout kind outside the
    enumeration at run time.  With a model loaded and a non-empty unknown
    kind, [setLayout] returns normally, records the kind as the current
    layout, and replaces the rendered container by an empty one: no node and
    no connector is left; the canvas height and the view transform are kept.
    With the empty string it renders the current layout again, and with no
    model loaded it does nothing. *)
Theorem setLayout_unknown_kind_renders_empty :
  forall (v : Visualizer) (kind : string),
    ~ In kind LayoutKinds ->
    match currentMetadata v with
    | None => setLayout' v kind = Normal v
    | Some m =>
        if String.eqb kind "" then setLayout' v kind = visualize' v m None
        else
          exists v',
            setLayout' v kind = Normal v'
            /\ currentLayout v' = kind
            /\ currentMetadata v' = Some m
            /\ viz_container (canvas v')
               = Some {| container_size := css_unset; children := [];
                         transform :=
                           Some (scale v, (translateX v / scale v)%float,
                                 (translateY v / scale v)%float) |}
            /\ querySelectorAll_layer_node (canvas v') = []
            /\ connectors_of (canvas v') = []
            /\ canvas_height (canvas v') = canvas_height (canvas v)
            /\ view_of v' = view_of v
    end.
Proof.
  intros v kind Hout. unfold setLayout.
  destruct (currentMetadata v) as [m|]; [|reflexivity].
  destruct (String.eqb kind "") eqn:Ek.
  - apply String.eqb_eq in Ek. subst kind. reflexivity.
  - unfold visualize. cbn [truthy]. rewrite Ek. cbn [negb].
    destruct (render_layout_unknown kind m (canvas_height (canvas v)) Hout)
      as [-> Hh].
    cbn [set_canvas_height set_viz_container canvas set_model canvas_height]
      in *.
    rewrite Hh.
    eexists. split; [reflexivity|]. repeat split.
Qed.

(** ** Rewriting nodes in document order *)

Lemma update_members_app (f : nat -> LayerNode -> LayerNode) (k : nat)
      (xs ys : list LayerNode) :
  update_members f k (xs ++ ys)
  = update_members f k xs ++ update_members f (k + List.length xs) ys.
Proof.
  revert k. induction xs as [|x xs IH]; intros k; simpl.
  - rewrite Nat.add_0_r. reflexivity.
  - rewrite IH. replace (S k + List.length xs) with (k + S (List.length xs))
      by lia. reflexivity.
Qed.

Lemma length_update_members (f : nat -> LayerNode -> LayerNode) (k : nat)
      (ms : list LayerNode) :
  List.length (update_members f k ms) = List.length ms.
Proof.
  revert k. induction ms as [|n ms IH]; intros k; simpl;
    [reflexivity | rewrite IH; reflexivity].
Qed.

Lemma nth_error_update_members (f : nat -> LayerNode -> LayerNode)
      (k i : nat) (ms : list LayerNode) :
  nth_error (update_members f k ms) i
  = option_map (f (k + i)) (nth_error ms i).
Proof.
  revert k i. induction ms as [|n ms IH]; intros k [|i]; simpl;
    try reflexivity.
  - rewrite Nat.add_0_r. reflexivity.
  - rewrite IH. replace (S k + i) with (k + S i) by lia. reflexivity.
Qed.

Lemma update_members_ext (f g : nat -> LayerNode -> LayerNode) (k : nat)
      (ms : list LayerNode) :
  (forall i n, f i n = g i n) -> update_members f k ms = update_members g k ms.
Proof.
  intros E. revert k. induction ms as [|n ms IH]; intros k; simpl;
    [reflexivity | rewrite E, IH; reflexivity].
Qed.

Lemma update_members_id (k : nat) (ms : list LayerNode) :
  update_members (fun _ n => n) k ms = ms.
Proof.
  revert k. induction ms as [|n ms IH]; intros k; simpl;
    [reflexivity | rewrite IH; reflexivity].
Qed.

Lemma update_members_compose (f g : nat -> LayerNode -> LayerNode) (k : nat)
      (ms : list LayerNode) :
  update_members f k (update_members g k ms)
  = update_members (fun i n => f i (g i n)) k ms.
Proof.
  revert k. induction ms as [|n ms IH]; intros k; simpl;
    [reflexivity | rewrite IH; reflexivity].
Qed.

Lemma map_update_members {A} (h : LayerNode -> A)
      (f : nat -> LayerNode -> LayerNode) (k : nat) (ms : list LayerNode) :
  (forall i n, h (f i n) = h n) ->
  map h (update_members f k ms) = map h ms.
Proof.
  intros E. revert k. induction ms as [|n ms IH]; intros k; simpl;
    [reflexivity | rewrite E, IH; reflexivity].
Qed.

Lemma nodes_update_nodes (f : nat -> LayerNode -> LayerNode) (k : nat)
      (els : list Element) :
  flat_map nodes_of (update_nodes f k els)
  = update_members f k (flat_map nodes_of els).
Proof.
  revert k. induction els as [|e els IH]; intros k; [reflexivity|].
  destruct e; simpl; rewrite ?IH; try reflexivity.
  rewrite update_members_app. reflexivity.
Qed.

Lemma connectors_update_nodes (f : nat -> LayerNode -> LayerNode) (k : nat)
      (els : list Element) :
  filter is_connector (update_nodes f k els) = filter is_connector els.
Proof.
  revert k. induction els as [|e els IH]; intros k; [reflexivity|].
  destruct e; simpl; rewrite ?IH; reflexivity.
Qed.

Lemma update_nodes_id (k : nat) (els : list Element) :
  update_nodes (fun _ n => n) k els = els.
Proof.
  revert k. induction els as [|e els IH]; intros k; [reflexivity|].
  destruct e; simpl; rewrite ?IH, ?update_members_id; reflexivity.
Qed.

Lemma update_nodes_ext (f g : nat -> LayerNode -> LayerNode) (k : nat)
      (els : list Element) :
  (forall i n, f i n = g i n) -> update_nodes f k els = update_nodes g k els.
Proof.
  intros E. revert k. induction els as [|e els IH]; intros k; [reflexivity|].
  destruct e; simpl; rewrite ?IH, ?E, ?(update_members_ext f g _ _ E);
    reflexivity.
Qed.

Lemma update_nodes_compose (f g : nat -> LayerNode -> LayerNode) (k : nat)
      (els : list Element) :
  update_nodes f k (update_nodes g k els)
  = update_nodes (fun i n => f i (g i n)) k els.
Proof.
  revert k. induction els as [|e els IH]; intros k; [reflexivity|].
  destruct e; simpl;
    rewrite ?length_update_members, ?IH, ?update_members_compose;
    reflexivity.
Qed.

Lemma nodes_update_canvas_nodes (f : nat -> LayerNode -> LayerNode)
      (c : Canvas) :
  querySelectorAll_layer_node (update_canvas_nodes f c)
  = update_members f 0 (querySelectorAll_layer_node c).
Proof.
  unfold update_canvas_nodes, querySelectorAll_layer_node.
  destruct (viz_container c) as [k|] eqn:E; simpl; rewrite ?E;
    [apply nodes_update_nodes | reflexivity].
Qed.

Lemma connectors_update_canvas_nodes (f : nat -> LayerNode -> LayerNode)
      (c : Canvas) :
  connectors_of (update_canvas_nodes f c) = connectors_of c.
Proof.
  unfold update_canvas_nodes, connectors_of.
  destruct (viz_container c) as [k|] eqn:E; simpl; rewrite ?E;
    [apply connectors_update_nodes | reflexivity].
Qed.

Lemma update_canvas_nodes_involutive (f : nat -> LayerNode -> LayerNode)
      (c : Canvas) :
  (forall i n, f i (f i n) = n) ->
  update_canvas_nodes f (update_canvas_nodes f c) = c.
Proof.
  intros Hf. destruct c as [h cur hl hp [[size els tr]|]]; [|reflexivity].
  unfold update_canvas_nodes. simpl. unfold set_viz_container. simpl.
  rewrite update_nodes_compose.
  rewrite (update_nodes_ext _ (fun _ n => n)) by exact Hf.
  rewrite update_nodes_id. reflexivity.
Qed.

(** ** Selection by click *)

Lemma toggle_at_involutive (target i : nat) (n : LayerNode) :
  toggle_at target i (toggle_at target i n) = n.
Proof.
  unfold toggle_at. destruct (i =? target); [|reflexivity].
  destruct n. unfold toggle_selected, set_classes. simpl.
  rewrite negb_involutive. reflexivity.
Qed.

Lemma click_single (v : Visualizer) (target detail : nat) (node : LayerNode) :
  nth_error (querySelectorAll_layer_node (canvas v)) target = Some node ->
  detail <> 2 ->
  click v target detail
  = (set_canvas v (update_canvas_nodes (toggle_at target) (canvas v)),
     [layerSelection
        (List.length (selected_nodes (fst (click v target detail))))
        (resolve_layers (node_metadata node)
           (selected_nodes (fst (click v target detail))))]).
Proof.
  intros Hn Hd. unfold click. rewrite Hn.
  apply Nat.eqb_neq in Hd. rewrite Hd. reflexivity.
Qed.

Lemma click_double (v : Visualizer) (target : nat) (node : LayerNode) :
  nth_error (querySelectorAll_layer_node (canvas v)) target = Some node ->
  click v target 2 = (v, [layerClick (node_layer node)]).
Proof. intros Hn. unfold click. rewrite Hn. reflexivity. Qed.

Lemma nodes_click (v : Visualizer) (target detail : nat) (node : LayerNode) :
  nth_error (querySelectorAll_layer_node (canvas v)) target = Some node ->
  detail <> 2 ->
  querySelectorAll_layer_node (canvas (fst (click v target detail)))
  = update_members (toggle_at target) 0
      (querySelectorAll_layer_node (canvas v)).
Proof.
  intros Hn Hd. rewrite (click_single _ _ _ _ Hn Hd). simpl.
  apply nodes_update_canvas_nodes.
Qed.

(** C6.  A click on a node whose count is not two toggles the [selected]
    class of that node and of no other, and leaves the placements and the
    connectors as they are; a second such click on the same node restores
    the engine state exactly (the toggle law).  A click with count two, the
    second click of a double click, dispatches [layerClick] with the layer of
    that one node and changes nothing. *)
Theorem click_toggles_selection :
  forall (v : Visualizer) (target detail detail' : nat) (node : LayerNode),
    nth_error (querySelectorAll_layer_node (canvas v)) target = Some node ->
    detail <> 2 -> detail' <> 2 ->
    let v1 := fst (click v target detail) in
    nth_error (querySelectorAll_layer_node (canvas v1)) target
      = Some (toggle_selected node)
    /\ selected (toggle_selected node) = negb (selected node)
    /\ (forall k, k <> target ->
          nth_error (querySelectorAll_layer_node (canvas v1)) k
          = nth_error (querySelectorAll_layer_node (canvas v)) k)
    /\ placements (canvas v1) = placements (canvas v)
    /\ connectors_of (canvas v1) = connectors_of (canvas v)
    /\ fst (click v1 target detail') = v
    /\ click v target 2 = (v, [layerClick (node_layer node)]).
Proof.
  intros v target detail detail' node Hn Hd Hd' v1.
  assert (Hnodes : querySelectorAll_layer_node (canvas v1)
                   = update_members (toggle_at target) 0
                       (querySelectorAll_layer_node (canvas v)))
    by exact (nodes_click _ _ _ _ Hn Hd).
  assert (Ht : nth_error (querySelectorAll_layer_node (canvas v1)) target
               = Some (toggle_selected node)).
  { rewrite Hnodes, nth_error_update_members, Hn. simpl.
    unfold toggle_at. rewrite Nat.eqb_refl. reflexivity. }
  repeat split.
  - exact Ht.
  - intros k Hk. rewrite Hnodes, nth_error_update_members. simpl.
    destruct (nth_error _ k) as [n|]; [|reflexivity]. simpl.
    unfold toggle_at. apply Nat.eqb_neq in Hk. rewrite Hk. reflexivity.
  - unfold placements. rewrite Hnodes. apply map_update_members.
    intros i n. unfold toggle_at. destruct (i =? target); reflexivity.
  - unfold v1. rewrite (click_single _ _ _ _ Hn Hd). simpl.
    apply connectors_update_canvas_nodes.
  - rewrite (click_single _ _ _ _ Ht Hd'). simpl.
    unfold v1. rewrite (click_single _ _ _ _ Hn Hd). simpl.
    rewrite update_canvas_nodes_involutive by apply toggle_at_involutive.
    destruct v. reflexivity.
  - exact (click_double _ _ _ Hn).
Qed.

(** ** Search *)

Lemma prefix_spec (a s : string) :
  String.prefix a s = true <-> exists post, s = String.append a post.
Proof.
  revert s. induction a as [|c a IH]; intros s.
  - split; [intros _; exists s; reflexivity | destruct s; reflexivity].
  - destruct s as [|d s]; simpl;
      [split; [discriminate | intros [post E]; discriminate]|].
    destruct (ascii_dec c d) as [->|Hne].
    + rewrite IH. split; intros [post E]; exists post.
      * rewrite E. reflexivity.
      * injection E as E. exact E.
    + split; [discriminate|]. intros [post E]. injection E as E _.
      congruence.
Qed.

Lemma includes_spec (sub s : string) :
  includes sub s = true
  <-> exists pre post, s = String.append pre (String.append sub post).
Proof.
  induction s as [|c s IH]; cbn [includes].
  - rewrite orb_false_r, prefix_spec. split.
    + intros [post E]. exists EmptyString, post. exact E.
    + intros (pre & post & E). destruct pre; [exists post; exact E|].
      discriminate.
  - rewrite orb_true_iff, prefix_spec, IH. split.
    + intros [[post E] | (pre & post & E)].
      * exists EmptyString, post. exact E.
      * exists (String c pre), post. rewrite E. reflexivity.
    + intros (pre & post & E). destruct pre as [|d pre].
      * left. exists post. exact E.
      * right. injection E as _ E. exists pre, post. exact E.
Qed.

Lemma toLowerCase_ASCII_append (a b : string) :
  toLowerCase_ASCII (String.append a b)
  = String.append (toLowerCase_ASCII a) (toLowerCase_ASCII b).
Proof.
  induction a as [|c a IH]; simpl; [reflexivity | rewrite IH; reflexivity].
Qed.

Lemma toLowerCase_ASCII_split (s a b : string) :
  toLowerCase_ASCII s = String.append a b ->
  exists s1 s2,
    s = String.append s1 s2
    /\ toLowerCase_ASCII s1 = a /\ toLowerCase_ASCII s2 = b.
Proof.
  revert s. induction a as [|c a IH]; intros s E.
  - exists EmptyString, s. repeat split. exact E.
  - destruct s as [|d s]; [discriminate|]. simpl in E.
    injection E as Ec E. destruct (IH s E) as (s1 & s2 & -> & <- & <-).
    exists (String d s1), s2. simpl. rewrite Ec. repeat split.
Qed.

(** Being the same letter up to case is having the same small letter: a
    check of the 256 by 256 pairs of characters. *)
Lemma same_letter_lower (x y : ascii) :
  same_letter x y = Ascii.eqb (lower_ascii x) (lower_ascii y).
Proof.
  set (all := map ascii_of_nat (seq 0 256)).
  assert (A : forall c : ascii, In c all).
  { intro c. rewrite <- (ascii_nat_embedding c). apply in_map, in_seq.
    pose proof (nat_ascii_bounded c). lia. }
  assert (T : forallb (fun a =>
                forallb (fun b =>
                  Bool.eqb (same_letter a b)
                    (Ascii.eqb (lower_ascii a) (lower_ascii b))) all) all
              = true) by (vm_compute; reflexivity).
  rewrite forallb_forall in T. specialize (T x (A x)).
  rewrite forallb_forall in T. specialize (T y (A y)).
  apply Bool.eqb_prop in T. exact T.
Qed.

Lemma same_letters_lower (a b : string) :
  same_letters a b = true <-> toLowerCase_ASCII a = toLowerCase_ASCII b.
Proof.
  revert b. induction a as [|x a IH]; intros [|y b]; simpl;
    try (split; [reflexivity | reflexivity]);
    try (split; discriminate).
  rewrite andb_true_iff, IH, same_letter_lower, Ascii.eqb_eq. split.
  - intros [-> ->]. reflexivity.
  - intros E. injection E as E1 E2. split; assumption.
Qed.

(** On the ASCII conversion, the test of [search] is the case-insensitive
    substring relation. *)
Lemma includes_toLowerCase_ASCII (t s : string) :
  includes (toLowerCase_ASCII t) (toLowerCase_ASCII s) = true
  <-> ci_substring t s.
Proof.
  rewrite includes_spec. unfold ci_substring. split.
  - intros (a & b & E).
    destruct (toLowerCase_ASCII_split _ _ _ E) as (pre & rest & -> & <- & E2).
    destruct (toLowerCase_ASCII_split _ _ _ E2)
      as (mid & post & -> & E3 & <-).
    exists pre, mid, post. split; [reflexivity|].
    apply same_letters_lower. exact E3.
  - intros (pre & mid & post & -> & E). apply same_letters_lower in E.
    exists (toLowerCase_ASCII pre), (toLowerCase_ASCII post).
    rewrite !toLowerCase_ASCII_append, E. reflexivity.
Qed.

(** So it is for [toLowerCase] on strings of ASCII characters. *)
Lemma includes_toLowerCase (t s : string) :
  isASCII t = true -> isASCII s = true ->
  (includes (toLowerCase t) (toLowerCase s) = true <-> ci_substring t s).
Proof.
  intros Ht Hs. rewrite (toLowerCase_isASCII t Ht), (toLowerCase_isASCII s Hs).
  apply includes_toLowerCase_ASCII.
Qed.

Lemma update_members_map (g : LayerNode -> LayerNode) (k : nat)
      (ms : list LayerNode) :
  update_members (fun _ => g) k ms = map g ms.
Proof.
  revert k. induction ms as [|n ms IH]; intros k; simpl;
    [reflexivity | rewrite IH; reflexivity].
Qed.

Lemma nodes_search (v : Visualizer) (term : string) :
  querySelectorAll_layer_node (canvas (search v term))
  = map (search_node term (toLowerCase term))
      (querySelectorAll_layer_node (canvas v)).
Proof.
  unfold search. simpl. rewrite nodes_update_canvas_nodes.
  apply update_members_map.
Qed.

(** The classes of a node after a search, whatever the strings. *)
Lemma search_node_classes (term : string) (n : LayerNode) :
  let n' := search_node term (toLowerCase term) n in
  let found :=
    includes (toLowerCase term) (toLowerCase (layer_name n)) = true
    \/ includes (toLowerCase term) (toLowerCase (layer_type n)) = true in
  (highlighted n' = true <-> term <> "" /\ found)
  /\ (dimmed n' = true <-> term <> "" /\ ~ found)
  /\ (highlighted n' = false /\ dimmed n' = false <-> term = "").
Proof.
  cbv zeta. unfold search_node.
  destruct (String.eqb_spec term "") as [->|Hne]; simpl.
  - intuition congruence.
  - destruct (includes (toLowerCase term) (toLowerCase (layer_name n)));
      destruct (includes (toLowerCase term) (toLowerCase (layer_type n)));
      simpl; intuition congruence.
Qed.

(** On a node whose texts are ASCII, a search for an ASCII term is the
    search that the ASCII conversion gives. *)
Lemma search_node_ASCII (term : string) (n : LayerNode) :
  isASCII term = true ->
  isASCII (layer_name n) = true -> isASCII (layer_type n) = true ->
  search_node term (toLowerCase term) n
  = search_node (String_prototype := ASCII_strings)
      term (toLowerCase_ASCII term) n.
Proof.
  intros Ht Hn Hy. unfold search_node.
  rewrite (toLowerCase_isASCII term Ht), (toLowerCase_isASCII _ Hn),
    (toLowerCase_isASCII _ Hy).
  reflexivity.
Qed.


(** ** The layers behind the rendered nodes *)

Lemma insert_by_index_perm {V} (n : N) (e : string * V)
      (l : list (N * (string * V))) :
  Permutation (map snd (insert_by_index n e l)) (e :: map snd l).
Proof.
  induction l as [|[m e'] l IH]; simpl; [reflexivity|].
  destruct (n <? m)%N; simpl; [reflexivity|].
  rewrite IH. apply perm_swap.
Qed.

Lemma Object_entries_perm {V} (o : JsObject V) :
  Permutation (Object_entries o) o.
Proof.
  unfold Object_entries.
  induction o as [|[k x] o IH]; simpl; [reflexivity|].
  destruct (split_entries o) as [ix rest].
  destruct (array_index k) as [n|].
  - rewrite insert_by_index_perm. simpl. apply perm_skip, IH.
  - rewrite <- Permutation_middle. apply perm_skip, IH.
Qed.

Lemma own_update_members (o : JsObject (list ModelLayer)) (k : string)
      (g : list ModelLayer) (x : ModelLayer) :
  own_lookup o k = Some g ->
  Permutation (flat_map snd (own_update o k (g ++ [x])))
              (flat_map snd o ++ [x]).
Proof.
  induction o as [|[k' g'] o IH]; simpl; [discriminate|].
  destruct (String.eqb k k').
  - intros E. injection E as ->. simpl.
    rewrite <- !app_assoc. apply Permutation_app_head, Permutation_app_comm.
  - intros E. simpl. rewrite <- app_assoc.
    apply Permutation_app_head, IH, E.
Qed.

Lemma group_layers_members (ls : list ModelLayer)
      (o o' : JsObject (list ModelLayer)) :
  group_layers ls o = Some o' ->
  Permutation (flat_map snd o') (flat_map snd o ++ ls).
Proof.
  revert o. induction ls as [|l ls IH]; intros o; simpl.
  - intros E. injection E as ->. rewrite app_nil_r. reflexivity.
  - destruct (own_lookup o (type l)) as [g|] eqn:L.
    + intros E. rewrite (IH _ E), (own_update_members _ _ _ _ L).
      rewrite <- app_assoc. reflexivity.
    + destruct (inherited (type l)); [discriminate|].
      intros E. rewrite (IH _ E), flat_map_app. simpl.
      rewrite <- app_assoc. reflexivity.
Qed.

Lemma group_layers_returns (ls : list ModelLayer)
      (o : JsObject (list ModelLayer)) :
  Forall (fun l => inherited (type l) = false) ls ->
  exists o', group_layers ls o = Some o'.
Proof.
  intros H. revert o. induction H as [|l ls Hl _ IH]; intros o; simpl.
  - exists o. reflexivity.
  - destruct (own_lookup o (type l)); [apply IH|].
    rewrite Hl. apply IH.
Qed.

Lemma node_layer_forEach (g : ModelLayer -> nat -> LayerNode) (k : nat)
      (ls : list ModelLayer) :
  (forall l i, node_layer (g l i) = l) ->
  map node_layer (forEach_from (fun l i => [g l i]) k ls) = ls.
Proof.
  intros Hg. rewrite map_forEach_from.
  rewrite (forEach_from_ext _ (fun x _ => [x])).
  - apply forEach_from_self.
  - intros x i. rewrite Hg. reflexivity.
Qed.

Lemma node_layer_tree_groups (layout : string) (m : ModelMetadata)
      (es : list (string * list ModelLayer)) :
  map node_layer
    (flat_map (fun e =>
                 forEach (fun l i => [tree_node (createLayerNode layout l i m)])
                   (snd e)) es)
  = flat_map snd es.
Proof.
  induction es as [|e es IH]; [reflexivity|].
  simpl. rewrite map_app, IH. unfold forEach.
  rewrite node_layer_forEach by reflexivity. reflexivity.
Qed.

(** Whatever the layout, the rendered nodes stand for the layers of the
    model, each layer once; under a chain layout they do so in model order. *)
Lemma render_layout_layers (layout : string) (m : ModelMetadata)
      (size : css_length) (els : list Element) :
  In layout LayoutKinds ->
  render_layout Math_cos Math_sin Math_atan2 layout m = Some (size, els) ->
  Permutation (map node_layer (flat_map nodes_of els)) (layers m)
  /\ (In layout ChainLayouts ->
      map node_layer (flat_map nodes_of els) = layers m).
Proof.
  intros Hin. unfold render_layout.
  destruct (String.eqb_spec layout "vertical") as [->|H1].
  { intros E. injection E as _ <-. rewrite nodes_renderVerticalLayout.
    unfold forEach. rewrite node_layer_forEach by reflexivity.
    split; reflexivity. }
  destruct (String.eqb_spec layout "horizontal") as [->|H2].
  { intros E. injection E as _ <-. rewrite nodes_renderHorizontalLayout.
    unfold forEach. rewrite node_layer_forEach by reflexivity.
    split; reflexivity. }
  destruct (String.eqb_spec layout "circular") as [->|H3].
  { intros E. injection E as _ <-. rewrite nodes_renderCircularLayout.
    unfold forEach. rewrite node_layer_forEach by reflexivity.
    split; reflexivity. }
  destruct (String.eqb_spec layout "tree") as [->|Hne].
  { destruct (renderTreeLayout "tree" m) as [els'|] eqn:T; [|discriminate].
    intros E. injection E as _ <-.
    destruct (nodes_renderTreeLayout _ _ _ T) as (o & G & -> & _).
    split.
    - apply group_layers_members in G. simpl in G. rewrite <- G.
      rewrite <- (Permutation_flat_map snd (Object_entries_perm o)).
      apply Permutation_refl', node_layer_tree_groups.
    - unfold ChainLayouts. simpl. intuition discriminate. }
  exfalso. unfold LayoutKinds in Hin. simpl in Hin.
  destruct Hin as [<-|[<-|[<-|[<-|[]]]]]; congruence.
Qed.

(** ** Counting placements and connectors *)

Lemma render_layout_connectors (layout : string) (m : ModelMetadata) :
  In layout ChainLayouts ->
  exists size els,
    render_layout Math_cos Math_sin Math_atan2 layout m = Some (size, els)
    /\ List.length (filter is_connector els) = List.length (layers m) - 1.
Proof.
  unfold ChainLayouts. simpl. intros [<-|[<-|[<-|[]]]]; eexists; eexists;
    (split; [reflexivity|]).
  - rewrite connectors_renderVerticalLayout.
    apply (length_forEach_from_markers _ 0).
  - rewrite connectors_renderHorizontalLayout.
    apply (length_forEach_from_markers _ 0).
  - rewrite connectors_renderCircularLayout, length_map, length_seq.
    reflexivity.
Qed.

Lemma renderTreeLayout_returns (layout : string) (m : ModelMetadata) :
  Forall (fun l => inherited (type l) = false) (layers m) ->
  exists els, renderTreeLayout layout m = Some els.
Proof.
  intros H. unfold renderTreeLayout.
  destruct (group_layers_returns (layers m) [] H) as [o ->].
  eexists. reflexivity.
Qed.

(** What holds of the counts: a chain layout places one node per layer and
    one connector less than nodes; the tree layout places one node per layer
    and no connector when no layer type names an inherited property. *)
Lemma layout_counts (v : Visualizer) (m : ModelMetadata) (layout : string) :
  let shown := visualize' v m (Some layout) in
  (In layout ChainLayouts ->
   returns shown = true
   /\ List.length (querySelectorAll_layer_node (canvas (state_of shown)))
      = List.length (layers m)
   /\ List.length (connectors_of (canvas (state_of shown)))
      = List.length (layers m) - 1)
  /\ (layout = "tree" ->
      Forall (fun l => inherited (type l) = false) (layers m) ->
      returns shown = true
      /\ List.length (querySelectorAll_layer_node (canvas (state_of shown)))
         = List.length (layers m)
      /\ connectors_of (canvas (state_of shown)) = []).
Proof.
  cbv zeta.
  pose proof (surface_visualize v m (Some layout)) as S. cbv zeta in S.
  split.
  - intros Hc.
    assert (Hk : In layout LayoutKinds)
      by (unfold ChainLayouts, LayoutKinds in *; simpl in *; tauto).
    assert (Ht : truthy (Some layout) = true)
      by (unfold ChainLayouts in Hc; simpl in Hc;
          destruct Hc as [<-|[<-|[<-|[]]]]; reflexivity).
    rewrite Ht in S.
    destruct (render_layout_connectors layout m Hc) as (size & els & R & C).
    rewrite R in S. destruct S as (-> & -> & ->).
    destruct (render_layout_layers layout m size els Hk R) as [P _].
    split; [reflexivity|]. split; [|exact C].
    rewrite <- (Permutation_length P), length_map. reflexivity.
  - intros -> Hall. simpl in S.
    destruct (renderTreeLayout_returns "tree" m Hall) as [els T].
    assert (R : render_layout Math_cos Math_sin Math_atan2 "tree" m
                = Some (css_unset, els))
      by (unfold render_layout; simpl; rewrite T; reflexivity).
    rewrite R in S. destruct S as (-> & -> & ->).
    destruct (render_layout_layers "tree" m _ els
                ltac:(unfold LayoutKinds; simpl; tauto) R) as [P _].
    split; [reflexivity|]. split.
    + rewrite <- (Permutation_length P), length_map. reflexivity.
    + destruct (nodes_renderTreeLayout _ _ _ T) as (_ & _ & _ & C). exact C.
Qed.

(** C5.  A chain layout places one node per layer and one connector less
    than nodes (none for one layer).  The tree layout places one node per
    layer, grouped by type, provided that its grouping loop returns, which
    it does when no layer type names a property that objects inherit.  On
    the model of one layer whose type is [constructor] it does not return:
    the loop reads the inherited [constructor] property where it expects a
    group, and the call of [push] on it throws.  The canvas was cleared
    before, so no node is placed for a model of one layer; the other three
    layouts place the one node. *)
Theorem tree_layout_throws_on_inherited_type :
  (forall (v : Visualizer) (m : ModelMetadata) (layout : string),
      let shown := visualize' v m (Some layout) in
      (In layout ChainLayouts ->
       returns shown = true
       /\ List.length (querySelectorAll_layer_node (canvas (state_of shown)))
          = List.length (layers m)
       /\ List.length (connectors_of (canvas (state_of shown)))
          = List.length (layers m) - 1)
      /\ (layout = "tree" ->
          Forall (fun l => inherited (type l) = false) (layers m) ->
          returns shown = true
          /\ List.length (querySelectorAll_layer_node (canvas (state_of shown)))
             = List.length (layers m)
          /\ connectors_of (canvas (state_of shown)) = []))
  /\ (let shown := fun layout =>
         visualize' new_Visualizer constructor_model (Some layout) in
       let count := fun layout =>
         (List.length
            (querySelectorAll_layer_node (canvas (state_of (shown layout)))),
          List.length (connectors_of (canvas (state_of (shown layout))))) in
       List.length (layers constructor_model) = 1
       /\ returns (shown "tree") = false
       /\ count "tree" = (0, 0)
       /\ viz_container (canvas (state_of (shown "tree"))) = None
       /\ count "vertical" = (1, 0)
       /\ count "horizontal" = (1, 0)
       /\ count "circular" = (1, 0)).
Proof.
  split; [exact layout_counts|].
  repeat split; vm_compute; reflexivity.
Qed.

(** ** The groups of the tree layout *)

Lemma own_lookup_keys {V} (o : JsObject V) (k : string) :
  existsb (String.eqb k) (map fst o)
  = match own_lookup o k with Some _ => true | None => false end.
Proof.
  induction o as [| [k' x] o IH]; [ reflexivity |].
  cbn [map fst existsb own_lookup].
  destruct (String.eqb k k'); [ reflexivity | exact IH ].
Qed.

Lemma own_lookup_None {V} (o : JsObject V) (k : string) :
  own_lookup o k = None -> ~ In k (map fst o).
Proof.
  intros H Hin.
  assert (E : existsb (String.eqb k) (map fst o) = true).
  { apply existsb_exists. exists k.
    split; [ exact Hin | apply String.eqb_refl ]. }
  rewrite own_lookup_keys, H in E. discriminate.
Qed.

Lemma own_lookup_Some {V} (o : JsObject V) (k : string) (x : V) :
  own_lookup o k = Some x -> In k (map fst o).
Proof.
  intro H.
  assert (E : existsb (String.eqb k) (map fst o) = true)
    by (rewrite own_lookup_keys, H; reflexivity).
  apply existsb_exists in E. destruct E as (k' & Hin & E).
  apply String.eqb_eq in E. subst k'. exact Hin.
Qed.

Lemma keys_own_update {V} (o : JsObject V) (k : string) (x : V) :
  map fst (own_update o k x) = map fst o.
Proof.
  induction o as [| [k' x'] o IH]; [ reflexivity |].
  cbn [own_update]. destruct (String.eqb k k'); cbn [map fst];
    [ reflexivity | rewrite IH; reflexivity ].
Qed.

Lemma filter_app_one {A} (p : A -> bool) (xs : list A) (x : A) :
  filter p (xs ++ [x]) = filter p xs ++ (if p x then [x] else []).
Proof. rewrite filter_app. reflexivity. Qed.

Lemma filter_none {A} (p : A -> bool) (xs : list A) :
  (forall x, In x xs -> p x = false) -> filter p xs = [].
Proof.
  induction xs as [| x xs IH]; intro H; [ reflexivity |].
  cbn [filter]. rewrite (H x (or_introl eq_refl)).
  apply IH. intros y Hy. apply H. right. exact Hy.
Qed.

Lemma grouped_other (done : list ModelLayer) (l : ModelLayer)
      (o : JsObject (list ModelLayer)) :
  ~ In (type l) (map fst o) -> grouped done o -> grouped (done ++ [l]) o.
Proof.
  unfold grouped. intros Hn H.
  induction H as [| [k g] o [Hg Hne] _ IH]; [ constructor |].
  cbn [map fst In] in Hn. constructor.
  - cbn [fst snd] in *. split; [| exact Hne ].
    rewrite filter_app_one.
    destruct (String.eqb_spec (type l) k) as [E | _];
      [ exfalso; apply Hn; left; symmetry; exact E |].
    rewrite app_nil_r. exact Hg.
  - apply IH. intro Hin. apply Hn. right. exact Hin.
Qed.

Lemma grouped_own_update (done : list ModelLayer) (l : ModelLayer)
      (o : JsObject (list ModelLayer)) (g : list ModelLayer) :
  NoDup (map fst o) -> grouped done o ->
  own_lookup o (type l) = Some g ->
  grouped (done ++ [l]) (own_update o (type l) (g ++ [l])).
Proof.
  unfold grouped. intros Hnd H. revert Hnd.
  induction H as [| [k x] o [Hg Hne] Ho IH]; intros Hnd L; [ discriminate |].
  cbn [map fst] in Hnd. apply NoDup_cons_iff in Hnd. destruct Hnd as [Hk Hnd].
  cbn [own_lookup own_update] in *. cbn [fst snd] in *.
  destruct (String.eqb_spec (type l) k) as [E | NE].
  - injection L as <-. constructor.
    + cbn [fst snd]. split.
      * rewrite filter_app_one. cbv beta.
        rewrite E, String.eqb_refl, <- Hg. reflexivity.
      * destruct x; discriminate.
    + apply grouped_other; [ rewrite E; exact Hk | exact Ho ].
  - constructor.
    + cbn [fst snd]. split; [| exact Hne ].
      rewrite filter_app_one.
      destruct (String.eqb_spec (type l) k) as [E | _]; [ contradiction |].
      rewrite app_nil_r. exact Hg.
    + apply IH; assumption.
Qed.

Lemma group_layers_groups (ls : list ModelLayer) :
  forall (done : list ModelLayer) (o o' : JsObject (list ModelLayer)),
    NoDup (map fst o) -> grouped done o ->
    (forall l, In l done -> In (type l) (map fst o)) ->
    group_layers ls o = Some o' ->
    NoDup (map fst o') /\ grouped (done ++ ls) o'
    /\ (forall l, In l (done ++ ls) -> In (type l) (map fst o'))
    /\ map fst o' = add_new (map fst o) (map type ls).
Proof.
  induction ls as [| l ls IH]; intros done o o' Hnd Hg Hin E.
  - injection E as <-. rewrite app_nil_r. auto.
  - cbn [group_layers] in E. cbn [map add_new].
    rewrite own_lookup_keys.
    replace (done ++ l :: ls) with ((done ++ [l]) ++ ls)
      by (rewrite <- app_assoc; reflexivity).
    destruct (own_lookup o (type l)) as [g |] eqn:L.
    + rewrite <- (keys_own_update o (type l) (g ++ [l])).
      apply IH; [ | | | exact E ].
      * rewrite keys_own_update. exact Hnd.
      * apply grouped_own_update; assumption.
      * intros x Hx. rewrite keys_own_update.
        apply in_app_or in Hx. destruct Hx as [Hx | [<- | []]];
          [ apply Hin; exact Hx | eapply own_lookup_Some; exact L ].
    + destruct (inherited (type l)); [ discriminate |].
      pose proof (own_lookup_None _ _ L) as Hn.
      replace (map fst o ++ [type l])
        with (map fst (o ++ [(type l, [l])]))
        by (rewrite map_app; reflexivity).
      apply IH; [ | | | exact E ].
      * rewrite map_app. cbn [map fst].
        apply NoDup_app; [ exact Hnd | repeat constructor; intros [] | ].
        intros k Hk [<- | []]. exact (Hn Hk).
      * unfold grouped. apply Forall_app. split.
        { apply grouped_other; assumption. }
        repeat constructor; cbn [fst snd]; [| discriminate ].
        rewrite filter_app_one. cbv beta. rewrite String.eqb_refl.
        replace (filter (fun x => String.eqb (type x) (type l)) done)
          with (@nil ModelLayer); [ reflexivity |].
        symmetry. apply filter_none.
        intros x Hx. destruct (String.eqb_spec (type x) (type l)) as [Ex | _];
          [| reflexivity ].
        exfalso. apply Hn. rewrite <- Ex. apply Hin. exact Hx.
      * intros x Hx. rewrite map_app. apply in_or_app.
        apply in_app_or in Hx. destruct Hx as [Hx | [<- | []]];
          [ left; apply Hin; exact Hx | right; left; reflexivity ].
Qed.

Lemma Object_entries_no_index {V} (o : JsObject V) :
  Forall (fun k => array_index k = None) (map fst o) -> Object_entries o = o.
Proof.
  unfold Object_entries. intro H.
  assert (G : split_entries o = ([], o)).
  { induction o as [| [k x] o IH]; [ reflexivity |].
    cbn [map fst] in H. apply Forall_cons_iff in H. destruct H as [Hk H].
    cbn [split_entries]. rewrite (IH H), Hk. reflexivity. }
  rewrite G. reflexivity.
Qed.

Lemma add_new_incl (xs acc : list string) (k : string) :
  In k (add_new acc xs) -> In k acc \/ In k xs.
Proof.
  revert acc. induction xs as [| x xs IH]; intros acc H; [ left; exact H |].
  cbn [add_new] in H. apply IH in H. destruct H as [H | H].
  - destruct (existsb (String.eqb x) acc); [ left; exact H |].
    apply in_app_or in H. destruct H as [H | [<- | []]];
      [ left; exact H | right; left; reflexivity ].
  - right. right. exact H.
Qed.

(** ** The selection event *)

Lemma find_layer_unique (m : ModelMetadata) (l : ModelLayer) :
  NoDup (map name (layers m)) -> In l (layers m) ->
  find_layer m (name l) = Some l.
Proof.
  unfold find_layer. induction (layers m) as [|x ls IH]; simpl;
    [contradiction|].
  intros Hnd Hin. inversion Hnd as [|? ? Hx Hls]; subst.
  destruct Hin as [->|Hin].
  - rewrite String.eqb_refl. reflexivity.
  - destruct (String.eqb_spec (name x) (name l)) as [E|_].
    + exfalso. apply Hx. rewrite E. apply in_map, Hin.
    + apply IH; assumption.
Qed.

Lemma resolve_layers_distinct_names (m : ModelMetadata) (ns : list LayerNode) :
  NoDup (map name (layers m)) ->
  Forall (fun n => layer_name n = name (node_layer n)
                   /\ In (node_layer n) (layers m)) ns ->
  resolve_layers m ns = map node_layer ns.
Proof.
  intros Hnd H. induction H as [|n ns [Hname Hin] _ IH]; [reflexivity|].
  simpl. rewrite Hname, (find_layer_unique m _ Hnd Hin), IH. reflexivity.
Qed.

Lemma Forall_update_members (P : LayerNode -> Prop)
      (f : nat -> LayerNode -> LayerNode) (k : nat) (ms : list LayerNode) :
  (forall i n, P n -> P (f i n)) ->
  Forall P ms -> Forall P (update_members f k ms).
Proof.
  intros Hf H. revert k. induction H as [|n ms Hn _ IH]; intros k; simpl;
    constructor; [apply Hf, Hn | apply IH].
Qed.

Lemma Forall_filter_selected (P : LayerNode -> Prop) (ns : list LayerNode) :
  Forall P ns -> Forall P (filter selected ns).
Proof.
  rewrite !Forall_forall. intros H n Hn. apply filter_In in Hn.
  apply H, Hn.
Qed.

(** The layers of the selected nodes are the layers of the list the nodes
    stand for whose node is selected, in the order of that list. *)
Lemma selected_layers_in_order (ns : list LayerNode) :
  map node_layer (filter selected ns)
  = map fst (filter (fun p => selected (snd p))
               (combine (map node_layer ns) ns)).
Proof.
  induction ns as [|n ns IH]; [reflexivity|].
  simpl. destruct (selected n); simpl; rewrite IH; reflexivity.
Qed.

Lemma shows_in_order_click (order : list ModelLayer) (m : ModelMetadata)
      (v : Visualizer) (target detail : nat) :
  shows_in_order order m v ->
  shows_in_order order m (fst (click v target detail)).
Proof.
  intros [Hl Hf]. unfold click.
  destruct (nth_error _ target) as [node|] eqn:Hn; [|split; assumption].
  destruct (detail =? 2); [split; assumption|].
  unfold shows_in_order. simpl.
  rewrite nodes_update_canvas_nodes. split.
  - rewrite map_update_members; [exact Hl|].
    intros i n. unfold toggle_at. destruct (i =? target); reflexivity.
  - apply Forall_update_members; [|exact Hf].
    intros i n H. unfold toggle_at. destruct (i =? target); exact H.
Qed.

Lemma shows_in_order_nodes (order : list ModelLayer) (m : ModelMetadata)
      (v w : Visualizer) :
  querySelectorAll_layer_node (canvas w)
  = querySelectorAll_layer_node (canvas v) ->
  shows_in_order order m v -> shows_in_order order m w.
Proof. unfold shows_in_order. intros ->. exact (fun H => H). Qed.

Lemma shows_in_order_search (order : list ModelLayer) (m : ModelMetadata)
      (v : Visualizer) (term : string) :
  shows_in_order order m v -> shows_in_order order m (search v term).
Proof.
  intros [Hl Hf]. unfold shows_in_order. rewrite nodes_search. split.
  - rewrite map_map, <- Hl. apply map_ext. intros n. unfold search_node.
    destruct (_ || _ || _); reflexivity.
  - apply Forall_map. eapply Forall_impl; [|exact Hf].
    intros n H. unfold search_node. destruct (_ || _ || _); exact H.
Qed.

(** Every operation that does not render keeps the order of the surface. *)
Lemma shows_in_order_step (order : list ModelLayer) (m : ModelMetadata)
      (v : Visualizer) (op : Operation) :
  shows_in_order order m v ->
  match op with
  | op_visualize _ _ | op_setLayout _ => True
  | _ => shows_in_order order m (step' v op)
  end.
Proof.
  intros H. destruct op; simpl; try exact I.
  - apply shows_in_order_search, H.
  - apply shows_in_order_click, H.
  - apply (shows_in_order_nodes order m v); [|exact H].
    destruct direction; unfold zoom; rewrite nodes_render; reflexivity.
  - apply (shows_in_order_nodes order m v); [|exact H].
    unfold reset. rewrite nodes_render. reflexivity.
  - exact H.
  - exact H.
  - exact H.
  - apply (shows_in_order_nodes order m v); [|exact H].
    unfold mousemove. destruct (isDragging v); [|reflexivity].
    rewrite nodes_render. reflexivity.
  - exact H.
  - exact H.
Qed.

Lemma shows_in_model_order_click (m : ModelMetadata) (v : Visualizer)
      (target detail : nat) :
  shows_in_model_order m v ->
  shows_in_model_order m (fst (click v target detail)).
Proof. apply shows_in_order_click. Qed.

Lemma shows_in_model_order_nodes (m : ModelMetadata) (v w : Visualizer) :
  querySelectorAll_layer_node (canvas w)
  = querySelectorAll_layer_node (canvas v) ->
  shows_in_model_order m v -> shows_in_model_order m w.
Proof. apply shows_in_order_nodes. Qed.

Lemma shows_in_model_order_search (m : ModelMetadata) (v : Visualizer)
      (term : string) :
  shows_in_model_order m v -> shows_in_model_order m (search v term).
Proof. apply shows_in_order_search. Qed.

(** Every operation that does not render keeps the surface in model order. *)
Lemma shows_in_model_order_step (m : ModelMetadata) (v : Visualizer)
      (op : Operation) :
  shows_in_model_order m v ->
  match op with
  | op_visualize _ _ | op_setLayout _ => True
  | _ => shows_in_model_order m (step' v op)
  end.
Proof. apply shows_in_order_step. Qed.

Lemma shows_in_model_order_visualize (v : Visualizer) (m : ModelMetadata)
      (layout : string) :
  In layout ChainLayouts ->
  shows_in_model_order m (state_of (visualize' v m (Some layout))).
Proof.
  intros Hc.
  assert (Hk : In layout LayoutKinds)
    by (unfold ChainLayouts, LayoutKinds in *; simpl in *; tauto).
  pose proof (visualize_nodes_fresh v m (Some layout)) as F.
  pose proof (surface_visualize v m (Some layout)) as S. cbv zeta in S.
  assert (Ht : truthy (Some layout) = true)
    by (unfold ChainLayouts in Hc; simpl in Hc;
        destruct Hc as [<-|[<-|[<-|[]]]]; reflexivity).
  rewrite Ht in S.
  destruct (render_layout_connectors layout m Hc) as (size & els & R & _).
  rewrite R in S. destruct S as (_ & Hn & _).
  split.
  - rewrite Hn. apply (render_layout_layers layout m size els Hk R), Hc.
  - eapply Forall_impl; [|exact F].
    intros n (_ & _ & _ & Hm & Hname & _). split; assumption.
Qed.

(** The groups of the grouping loop, one after the other, are the layers by
    type. *)
Lemma grouped_flat_map (done : list ModelLayer)
      (o : JsObject (list ModelLayer)) :
  grouped done o ->
  flat_map snd o
  = flat_map (fun k => filter (fun l => String.eqb (type l) k) done)
      (map fst o).
Proof.
  unfold grouped. intros G.
  induction G as [| [k g] o [Hg _] _ IH]; [ reflexivity |].
  cbn [flat_map map fst snd] in *. rewrite Hg, IH. reflexivity.
Qed.

Lemma by_type_incl (m : ModelMetadata) : incl (by_type m) (layers m).
Proof.
  intros l Hl. unfold by_type in Hl. apply in_flat_map in Hl.
  destruct Hl as (k & _ & Hl). apply filter_In in Hl. apply Hl.
Qed.

(** The tree layout of a model of which no type is the name of an inherited
    property or an array index shows the layers by type. *)
Lemma shows_in_order_tree (v : Visualizer) (m : ModelMetadata) :
  Forall (fun l => inherited (type l) = false
                   /\ array_index (type l) = None) (layers m) ->
  shows_in_order (by_type m) m (state_of (visualize' v m (Some "tree"))).
Proof.
  intros Hp.
  assert (Hi : Forall (fun l => inherited (type l) = false) (layers m))
    by (revert Hp; apply Forall_impl; intros l [Hl _]; exact Hl).
  pose proof (visualize_nodes_fresh v m (Some "tree")) as F.
  pose proof (surface_visualize v m (Some "tree")) as S. cbv zeta in S.
  change (truthy (Some "tree")) with true in S. cbv iota in S.
  destruct (renderTreeLayout_returns "tree" m Hi) as [els T].
  assert (R : render_layout Math_cos Math_sin Math_atan2 "tree" m
              = Some (css_unset, els))
    by (unfold render_layout; cbn [String.eqb Ascii.eqb Bool.eqb];
        rewrite T; reflexivity).
  rewrite R in S. destruct S as (_ & Hn & _).
  split.
  - rewrite Hn.
    destruct (nodes_renderTreeLayout _ _ _ T) as (o & G & -> & _).
    rewrite node_layer_tree_groups.
    destruct (group_layers_groups (layers m) [] [] o)
      as (_ & Hg & _ & Hk);
      [ constructor | constructor | intros l [] | exact G |].
    cbn [app map] in Hg, Hk.
    rewrite Object_entries_no_index.
    + rewrite (grouped_flat_map _ _ Hg), Hk. reflexivity.
    + apply Forall_forall. intros k Hkin. rewrite Hk in Hkin.
      apply add_new_incl in Hkin. destruct Hkin as [[] | Hkin].
      apply in_map_iff in Hkin. destruct Hkin as (l & <- & Hl).
      rewrite Forall_forall in Hp. apply Hp. exact Hl.
  - eapply Forall_impl; [|exact F].
    intros n (_ & _ & _ & Hm & Hname & _). split; assumption.
Qed.


(** ** Layers that share a name *)

Lemma find_first {A} (p : A -> bool) (ls : list A) (x : A) :
  find p ls = Some x ->
  exists i,
    nth_error ls i = Some x /\ p x = true
    /\ forall k y, k < i -> nth_error ls k = Some y -> p y = false.
Proof.
  induction ls as [|a ls IH]; simpl; [discriminate|].
  destruct (p a) eqn:Pa.
  - intros E. injection E as <-. exists 0. repeat split; [exact Pa|].
    intros k y Hk. lia.
  - intros E. destruct (IH E) as (i & Hi & Px & Hmin).
    exists (S i). repeat split; [exact Hi | exact Px |].
    intros [|k] y Hk Hy; simpl in Hy.
    + injection Hy as <-. exact Pa.
    + apply (Hmin k); [lia | exact Hy].
Qed.

Lemma find_exists {A} (p : A -> bool) (ls : list A) (y : A) :
  In y ls -> p y = true -> exists x, find p ls = Some x.
Proof.
  intros Hin Py. destruct (find p ls) as [x|] eqn:F; [exists x; reflexivity|].
  rewrite (find_none _ _ F y Hin) in Py. discriminate.
Qed.

Lemma update_members_ext_from (f g : nat -> LayerNode -> LayerNode) (k : nat)
      (ms : list LayerNode) :
  (forall i n, k <= i -> f i n = g i n) ->
  update_members f k ms = update_members g k ms.
Proof.
  revert k. induction ms as [|n ms IH]; intros k E; simpl; [reflexivity|].
  rewrite E by lia. rewrite (IH (S k)); [reflexivity|].
  intros i n' Hi. apply E. lia.
Qed.

Lemma toggle_at_same (t : nat) (n : LayerNode) :
  toggle_at t t n = toggle_selected n.
Proof. unfold toggle_at. rewrite Nat.eqb_refl. reflexivity. Qed.

Lemma toggle_at_other (t i : nat) (n : LayerNode) :
  i <> t -> toggle_at t i n = n.
Proof.
  intros H. unfold toggle_at. apply Nat.eqb_neq in H. rewrite H. reflexivity.
Qed.

Lemma filter_selected_untouched (t k : nat) (ns : list LayerNode) :
  t < k -> Forall (fun n => selected n = false) ns ->
  filter selected (update_members (toggle_at t) k ns) = [].
Proof.
  intros Ht H. revert k Ht. induction H as [|n ns Hn _ IH]; intros k Ht;
    simpl; [reflexivity|].
  rewrite toggle_at_other by lia. rewrite Hn. apply IH. lia.
Qed.

(** One toggle on a surface with no selection selects that one node. *)
Lemma filter_selected_toggle_one (ns : list LayerNode) (p k : nat)
      (np : LayerNode) :
  Forall (fun n => selected n = false) ns ->
  nth_error ns p = Some np ->
  filter selected (update_members (toggle_at (k + p)) k ns)
  = [toggle_selected np].
Proof.
  intros H. revert p k. induction H as [|n ns Hn Hns IH]; intros p k Hp.
  - destruct p; discriminate.
  - destruct p as [|p]; simpl in Hp.
    + injection Hp as ->. rewrite Nat.add_0_r. simpl.
      rewrite toggle_at_same. simpl. rewrite Hn. simpl.
      rewrite filter_selected_untouched by (lia || assumption). reflexivity.
    + simpl. rewrite toggle_at_other by lia. rewrite Hn.
      replace (k + S p) with (S k + p) by lia. apply IH, Hp.
Qed.

(** Two toggles on distinct nodes select the two, in document order. *)
Lemma filter_selected_toggle_two (ns : list LayerNode) (p q k : nat)
      (np nq : LayerNode) :
  Forall (fun n => selected n = false) ns ->
  p < q -> nth_error ns p = Some np -> nth_error ns q = Some nq ->
  filter selected
    (update_members
       (fun i n => toggle_at (k + q) i (toggle_at (k + p) i n)) k ns)
  = [toggle_selected np; toggle_selected nq].
Proof.
  intros H. revert p q k. induction H as [|n ns Hn Hns IH];
    intros p q k Hpq Hp Hq.
  - destruct p; discriminate.
  - destruct q as [|q]; [lia|]. simpl in Hq.
    destruct p as [|p]; simpl in Hp.
    + injection Hp as ->. rewrite Nat.add_0_r. simpl.
      rewrite toggle_at_same, toggle_at_other by lia. simpl.
      rewrite Hn. simpl. f_equal.
      rewrite (update_members_ext_from _ (toggle_at (S k + q))).
      * apply filter_selected_toggle_one; assumption.
      * intros i n' Hi. rewrite (toggle_at_other k) by lia.
        replace (k + S q) with (S k + q) by lia. reflexivity.
    + simpl. rewrite !toggle_at_other by lia. rewrite Hn.
      rewrite (update_members_ext _
                 (fun i n => toggle_at (S k + q) i (toggle_at (S k + p) i n))).
      * apply IH; [lia | exact Hp | exact Hq].
      * intros i n'. replace (k + S p) with (S k + p) by lia.
        replace (k + S q) with (S k + q) by lia. reflexivity.
Qed.

Lemma toggle_at_commute (p q i : nat) (n : LayerNode) :
  toggle_at p i (toggle_at q i n) = toggle_at q i (toggle_at p i n).
Proof. unfold toggle_at. destruct (i =? p), (i =? q); reflexivity. Qed.

Lemma resolve_same_name (m : ModelMetadata) (first : ModelLayer)
      (ns : list LayerNode) (nm : string) :
  find_layer m nm = Some first ->
  Forall (fun n => layer_name n = nm) ns ->
  resolve_layers m ns = map (fun _ => first) ns.
Proof.
  intros F H. induction H as [|n ns Hn _ IH]; [reflexivity|].
  simpl. rewrite Hn, F, IH. reflexivity.
Qed.

(** C10.  A selected node is resolved to the first layer of the model whose
    name is the name the node displays.  So, after a render under any of the
    four layouts, if two nodes display the same name, a click on either of
    them reports that first layer, and with both selected the event carries
    that first layer twice.  Under a chain layout node [k] stands for layer
    [k], so the later node [q] is resolved to a layer at or before [p], an
    earlier layer than its own. *)
Theorem duplicate_names_resolve_to_first_layer :
  forall (v0 v : Visualizer) (m : ModelMetadata) (layout : string)
         (p q : nat) (np nq : LayerNode),
    In layout LayoutKinds ->
    visualize' v0 m (Some layout) = Normal v ->
    nth_error (querySelectorAll_layer_node (canvas v)) p = Some np ->
    nth_error (querySelectorAll_layer_node (canvas v)) q = Some nq ->
    p < q ->
    layer_name np = layer_name nq ->
    exists (first : ModelLayer) (i : nat),
      nth_error (layers m) i = Some first
      /\ name first = layer_name nq
      /\ (forall k l, k < i -> nth_error (layers m) k = Some l ->
                      name l <> layer_name nq)
      /\ find_layer m (layer_name nq) = Some first
      /\ snd (click v q 1) = [layerSelection 1 [first]]
      /\ snd (click v p 1) = [layerSelection 1 [first]]
      /\ snd (click (fst (click v p 1)) q 1) = [layerSelection 2 [first; first]]
      /\ snd (click (fst (click v q 1)) p 1) = [layerSelection 2 [first; first]]
      /\ (In layout ChainLayouts ->
          nth_error (layers m) p = Some (node_layer np)
          /\ nth_error (layers m) q = Some (node_layer nq)
          /\ i <= p).
Proof.
  intros v0 v m layout p q np nq Hk Hv Hp Hq Hpq Hname.
  set (ns := querySelectorAll_layer_node (canvas v)) in *.
  (* what the render guarantees about the nodes *)
  pose proof (visualize_nodes_fresh v0 m (Some layout)) as F.
  pose proof (surface_visualize v0 m (Some layout)) as S. cbv zeta in S.
  rewrite Hv in F, S. cbn [state_of] in F, S. fold ns in F, S.
  destruct (render_layout _ _ _ _ m) as [[size els]|] eqn:R;
    [|destruct S as (S & _); discriminate].
  destruct S as (_ & Hns & _).
  assert (Ht : truthy (Some layout) = true)
    by (unfold LayoutKinds in Hk; simpl in Hk;
        destruct Hk as [<-|[<-|[<-|[<-|[]]]]]; reflexivity).
  rewrite Ht in R.
  destruct (render_layout_layers layout m size els Hk R) as [Perm Chain].
  rewrite <- Hns in Perm, Chain.
  assert (Fsel : Forall (fun n => selected n = false) ns)
    by (eapply Forall_impl; [|exact F]; intros n H; apply H).
  rewrite Forall_forall in F.
  assert (Fp := F np (nth_error_In _ _ Hp)).
  assert (Fq := F nq (nth_error_In _ _ Hq)).
  destruct Fp as (_ & _ & _ & Mp & Np & _).
  destruct Fq as (_ & _ & _ & Mq & Nq & _).
  (* the first layer with the displayed name *)
  assert (Hin : In (node_layer nq) (layers m)).
  { eapply Permutation_in; [exact Perm|]. apply in_map.
    eapply nth_error_In, Hq. }
  destruct (find_exists (fun l => String.eqb (name l) (layer_name nq))
              (layers m) (node_layer nq) Hin) as [first Ffirst].
  { rewrite Nq. apply String.eqb_refl. }
  destruct (find_first _ _ _ Ffirst) as (i & Hi & Pfirst & Hmin).
  apply String.eqb_eq in Pfirst.
  assert (Hmin' : forall k l, k < i -> nth_error (layers m) k = Some l ->
                              name l <> layer_name nq).
  { intros k l Hlt Hl. apply String.eqb_neq. exact (Hmin k l Hlt Hl). }
  assert (D1 : 1 <> 2) by discriminate.
  exists first, i.
  split; [exact Hi|]. split; [exact Pfirst|]. split; [exact Hmin'|].
  split; [exact Ffirst|].
  (* one click *)
  assert (One : forall t nt, nth_error ns t = Some nt ->
            layer_name nt = layer_name nq -> node_metadata nt = m ->
            snd (click v t 1) = [layerSelection 1 [first]]).
  { intros t nt Hnt Hnm Hm.
    rewrite (click_single _ _ _ _ Hnt D1). cbn [snd].
    unfold selected_nodes. rewrite (nodes_click _ _ _ _ Hnt D1). fold ns.
    pose proof (filter_selected_toggle_one ns t 0 nt Fsel Hnt) as X.
    change (0 + t) with t in X. rewrite X.
    rewrite Hm. simpl. rewrite Hnm.
    unfold find_layer. rewrite Ffirst. reflexivity. }
  split; [exact (One q nq Hq eq_refl Mq)|].
  split; [exact (One p np Hp Hname Mp)|].
  (* two clicks *)
  assert (Two : forall t u nt nu,
            t <> u -> nth_error ns t = Some nt -> nth_error ns u = Some nu ->
            node_metadata nu = m ->
            selected_nodes (fst (click (fst (click v t 1)) u 1))
            = filter selected
                (update_members
                   (fun i n => toggle_at u i (toggle_at t i n)) 0 ns)
            /\ snd (click (fst (click v t 1)) u 1)
               = [layerSelection
                    (List.length
                       (selected_nodes (fst (click (fst (click v t 1)) u 1))))
                    (resolve_layers m
                       (selected_nodes
                          (fst (click (fst (click v t 1)) u 1))))]).
  { intros t u nt nu Htu Hnt Hnu Hm.
    assert (Hu1 : nth_error
                    (querySelectorAll_layer_node
                       (canvas (fst (click v t 1)))) u = Some nu).
    { rewrite (nodes_click _ _ _ _ Hnt D1). fold ns.
      rewrite nth_error_update_members, Hnu. simpl.
      unfold toggle_at. destruct (Nat.eqb_spec u t); [congruence|].
      reflexivity. }
    split.
    - unfold selected_nodes.
      rewrite (nodes_click _ _ _ _ Hu1 D1), (nodes_click _ _ _ _ Hnt D1).
      fold ns. rewrite update_members_compose. reflexivity.
    - rewrite (click_single _ _ _ _ Hu1 D1) at 1. cbn [snd].
      rewrite Hm. reflexivity. }
  assert (Sel : filter selected
                  (update_members
                     (fun i n => toggle_at q i (toggle_at p i n)) 0 ns)
                = [toggle_selected np; toggle_selected nq])
    by exact (filter_selected_toggle_two ns p q 0 np nq Fsel Hpq Hp Hq).
  assert (Res : resolve_layers m [toggle_selected np; toggle_selected nq]
                = [first; first]).
  { rewrite (resolve_same_name m first _ (layer_name nq) Ffirst);
      [reflexivity|].
    repeat constructor. exact Hname. }
  split.
  { destruct (Two p q np nq ltac:(lia) Hp Hq Mq) as [E1 E2].
    rewrite E2, E1, Sel, Res. reflexivity. }
  split.
  { destruct (Two q p nq np ltac:(lia) Hq Hp Mp) as [E1 E2].
    rewrite E2, E1.
    rewrite (update_members_ext _
               (fun i n => toggle_at q i (toggle_at p i n)))
      by (intros; apply toggle_at_commute).
    rewrite Sel, Res. reflexivity. }
  (* chain layouts *)
  intros Hc. specialize (Chain Hc).
  assert (Lp : nth_error (layers m) p = Some (node_layer np))
    by (rewrite <- Chain; apply map_nth_error, Hp).
  assert (Lq : nth_error (layers m) q = Some (node_layer nq))
    by (rewrite <- Chain; apply map_nth_error, Hq).
  split; [exact Lp|]. split; [exact Lq|].
  destruct (le_lt_dec i p) as [Hle|Hlt]; [exact Hle|].
  exfalso. apply (Hmin' p (node_layer np) Hlt Lp).
  rewrite <- Np. exact Hname.
Qed.

(** ** The number of a small positive integer

    An array length is below [2^32].  The float of such a positive integer
    is a positive finite number, so dividing zero by it gives zero. *)

Lemma digits2_pos_iter_xO (p k : positive) :
  digits2_pos (Pos.iter xO p k) = (digits2_pos p + k)%positive.
Proof.
  induction k as [|k IH] using Pos.peano_ind.
  - simpl. lia.
  - rewrite Pos.iter_succ. simpl. rewrite IH. lia.
Qed.

Lemma digits2_pos_bound (p : positive) (b : nat) :
  (Zpos p < 2 ^ Z.of_nat b)%Z -> (Zpos (digits2_pos p) <= Z.of_nat b)%Z.
Proof.
  revert b. induction p as [p IH|p IH|]; intros b H.
  - destruct b as [|b]; [simpl in H; lia|].
    rewrite Nat2Z.inj_succ, Z.pow_succ_r in H by lia.
    simpl. specialize (IH b). lia.
  - destruct b as [|b]; [simpl in H; lia|].
    rewrite Nat2Z.inj_succ, Z.pow_succ_r in H by lia.
    simpl. specialize (IH b). lia.
  - destruct b as [|b]; [simpl in H; lia|]. simpl. lia.
Qed.

Lemma binary_normalize_small (p : positive) :
  (Zpos p < 2 ^ 32)%Z ->
  exists mant e,
    binary_normalize prec emax (Zpos p) 0 false = S754_finite false mant e.
Proof.
  intros Hp.
  pose proof (digits2_pos_bound p 32 Hp) as Hd.
  set (d := digits2_pos p) in *.
  assert (Hk : exists k,
             (Zpos d + 0 - 53 = Zneg k)%Z /\ (d + k = 53)%positive)
    by (exists (53 - d)%positive; lia).
  destruct Hk as (k & Hk & Hdk).
  unfold binary_normalize, binary_round.
  assert (Hf : fexp prec emax (Zpos (digits2_pos p) + 0) = Zneg k)
    by (unfold fexp, emin, prec, emax; fold d; lia).
  rewrite Hf. unfold shl_align. cbn [Z.sub Z.add Z.opp Z.pos_sub].
  unfold binary_round_aux, shr_fexp.
  assert (Hg : (fexp prec emax (Zdigits2 (Zpos (Pos.iter xO p k)) + Zneg k)
                - Zneg k = 0)%Z).
  { unfold Zdigits2. rewrite digits2_pos_iter_xO. fold d.
    unfold fexp, emin, prec, emax. lia. }
  rewrite Hg.
  cbn [shr shr_record_of_loc fst snd shr_m loc_of_shr_record
       round_nearest_even].
  rewrite Hg. cbn [shr shr_record_of_loc fst snd shr_m].
  eexists. eexists. reflexivity.
Qed.

Lemma zero_div_js_of_nat (n : nat) :
  0 < n -> (Z.of_nat n < 2 ^ 32)%Z -> (0 / js_of_nat n)%float = 0%float.
Proof.
  intros Hn Hb.
  assert (E : exists mant e,
             Prim2SF (js_of_nat n) = S754_finite false mant e).
  { unfold js_of_nat. rewrite of_uint63_spec, Uint63.of_Z_spec.
    rewrite Z.mod_small by (change wB with (2 ^ 63)%Z; lia).
    destruct (Z.of_nat n) as [|p|p] eqn:Ez; try lia.
    apply binary_normalize_small. lia. }
  destruct E as (mant & e & E).
  apply Prim2SF_inj. rewrite FloatAxioms.div_spec, E. reflexivity.
Qed.

(** ** The circular layout *)

Lemma forEach_from_seq {A B} (h : nat -> B) (k : nat) (xs : list A) :
  forEach_from (fun _ i => [h i]) k xs = map h (seq k (List.length xs)).
Proof.
  revert k. induction xs as [|x xs IH]; intros k; simpl;
    [reflexivity | rewrite IH; reflexivity].
Qed.

(** C4.  For a model of [N >= 1] layers (an array length, so below [2^32])
    the circular layout uses the radius [clamp(N * 15, 200, 300)] and a
    square container of side [radius * 2 + 150 + 100], the height of the
    canvas; node [i] stands for layer [i] and is centred at
    [center + radius * (cos theta_i, sin theta_i)] with
    [theta_i = (i / N) * 2 * PI - PI / 2]; the connectors are exactly the
    [N - 1] lines from node [i] to node [i + 1] for [i] in [[0, N - 2]], each
    as long as the distance of its two ends and rotated by the angle
    [atan2(dy, dx)], written in degrees: no line leaves the last node.
    Node 0 is at [theta = -PI / 2] for every [N], and for [N = 4] the angles
    are [-PI / 2], [0], [PI / 2], [PI] in index order. *)
Theorem circular_layout_geometry :
  forall (v : Visualizer) (m : ModelMetadata),
    1 <= List.length (layers m) ->
    (Z.of_nat (List.length (layers m)) < 2 ^ 32)%Z ->
    let N := List.length (layers m) in
    let shown := state_of (visualize' v m (Some "circular")) in
    let radius := circular_radius N in
    let side := (radius * 2 + 150 + 100)%float in
    let center := (side / 2)%float in
    let theta := fun i =>
      ((js_of_nat i / js_of_nat N) * 2 * Math_PI - Math_PI / 2)%float in
    let x := fun i => (center + radius * Math_cos (theta i))%float in
    let y := fun i => (center + radius * Math_sin (theta i))%float in
    radius = clamp (js_of_nat N * 15)%float 200 300
    /\ option_map container_size (viz_container (canvas shown))
       = Some (css_px side)
    /\ canvas_height (canvas shown) = css_px side
    /\ map node_layer (querySelectorAll_layer_node (canvas shown)) = layers m
    /\ map (fun n => (style_left (node_style n), style_top (node_style n)))
           (querySelectorAll_layer_node (canvas shown))
       = map (fun i => (css_px (x i), css_px (y i))) (seq 0 N)
    /\ connectors_of (canvas shown)
       = map (fun i =>
                connection_line (x i) (y i)
                  (PrimFloat.sqrt
                     ((x (i + 1)%nat - x i) * (x (i + 1)%nat - x i)
                      + (y (i + 1)%nat - y i) * (y (i + 1)%nat - y i))%float)
                  (Math_atan2 (y (i + 1)%nat - y i) (x (i + 1)%nat - x i)
                   * 180 / Math_PI)%float)
           (seq 0 (N - 1))
    /\ theta 0 = (- (Math_PI / 2))%float
    /\ map (fun i => circular_angle i 4) [0; 1; 2; 3]
       = [(- (Math_PI / 2))%float; 0%float; (Math_PI / 2)%float; Math_PI].
Proof.
  intros v m HN Hb N shown radius side center theta x y.
  pose proof (surface_visualize v m (Some "circular")) as S.
  cbv zeta in S.
  change (render_layout Math_cos Math_sin Math_atan2
            (if truthy (Some "circular") then "circular" else currentLayout v)
            m)
    with (Some (css_px (circular_size N),
                renderCircularLayout Math_cos Math_sin Math_atan2
                  "circular" m)) in S.
  cbv iota beta in S. destruct S as (Hv & Hn & Hc). fold shown in Hn, Hc.
  split; [reflexivity|].
  split; [unfold shown; rewrite Hv; reflexivity|].
  split; [unfold shown; rewrite Hv; reflexivity|].
  split.
  { rewrite Hn, nodes_renderCircularLayout. unfold forEach.
    apply node_layer_forEach. reflexivity. }
  split.
  { rewrite Hn, nodes_renderCircularLayout. unfold forEach.
    rewrite map_forEach_from.
    exact (forEach_from_seq (fun i => (css_px (x i), css_px (y i))) 0
             (layers m)). }
  split.
  { rewrite Hc, connectors_renderCircularLayout. reflexivity. }
  split.
  { unfold theta. change (js_of_nat 0) with 0%float.
    rewrite (zero_div_js_of_nat N) by (unfold N; lia).
    vm_compute. reflexivity. }
  vm_compute. reflexivity.
Qed.

End Properties.

(** * Further properties of the engine and of the host *)

Section FurtherProperties.

Context {String_prototype : StringPrototype}.
Variable Math_cos Math_sin : number -> number.
Variable Math_atan2 : number -> number -> number.

Local Abbreviation visualize' := (visualize Math_cos Math_sin Math_atan2).
Local Abbreviation setLayout' := (setLayout Math_cos Math_sin Math_atan2).
Local Abbreviation render_layout' :=
  (render_layout Math_cos Math_sin Math_atan2).
Local Abbreviation step' := (step Math_cos Math_sin Math_atan2).
Local Abbreviation run' := (run Math_cos Math_sin Math_atan2).
Local Abbreviation in_sync' := (in_sync Math_cos Math_sin Math_atan2).
Local Abbreviation host_setLayout :=
  (LucefactApp.setLayout Math_cos Math_sin Math_atan2).

(** ** Panning by drag *)

Lemma render_set_view_render (v : Visualizer) (s tx ty s' tx' ty' : number) :
  render (set_view (render (set_view v s tx ty)) s' tx' ty')
  = render (set_view v s' tx' ty').
Proof.
  destruct v as [[? ? ? ? [k |]] ? ? ? ? ? ? ? ? ? ? ?]; reflexivity.
Qed.

Lemma mousemove_mousemove (v : Visualizer) (a b x y : number) :
  mousemove (mousemove v a b) x y = mousemove v x y.
Proof.
  unfold mousemove.
  destruct (isDragging v) eqn:E; [| rewrite E; reflexivity ].
  rewrite isDragging_render. cbn [isDragging set_view]. rewrite E.
  rewrite scale_render. cbn [scale set_view].
  assert (S : forall w, startX (render w) = startX w
                        /\ startY (render w) = startY w
                        /\ startTranslateX (render w) = startTranslateX w
                        /\ startTranslateY (render w) = startTranslateY w).
  { intro w. unfold render. destruct (viz_container (canvas w)); cbn; auto. }
  destruct (S (set_view v (scale v) (startTranslateX v + (a - startX v))%float
                 (startTranslateY v + (b - startY v))%float))
    as (-> & -> & -> & ->).
  cbn [startX startY startTranslateX startTranslateY set_view].
  apply render_set_view_render.
Qed.

Lemma mousemoves_last (v : Visualizer) (moves : list (number * number))
      (x y : number) :
  mousemoves v (moves ++ [(x, y)]) = mousemove v x y.
Proof.
  unfold mousemoves. revert v.
  induction moves as [| [a b] rest IH]; intro v; [ reflexivity |].
  cbn [fold_left app fst snd]. rewrite IH.
  apply mousemove_mousemove.
Qed.

Lemma mousemoves_idle (v : Visualizer) (moves : list (number * number)) :
  isDragging v = false -> mousemoves v moves = v.
Proof.
  unfold mousemoves. intro H.
  induction moves as [| p rest IH]; [ reflexivity |].
  cbn [fold_left]. unfold mousemove at 2. rewrite H. exact IH.
Qed.

(** X1.  During a drag the pan offset is the offset at [mousedown] plus the
    distance from the press point to the last pointer position: the moves in
    between leave no trace, the engine being in the state that one
    [mousemove] to the last position gives.  The drag changes neither the
    scale nor the nodes nor the connectors.  Once the button is released or
    the pointer has left the canvas, [mousemove] does nothing, and the
    release keeps the view. *)
Theorem drag_follows_the_last_pointer_position :
  forall (v : Visualizer) (x0 y0 x y : number)
         (moves later : list (number * number)),
    let dragged := mousemoves (mousedown v x0 y0) (moves ++ [(x, y)]) in
    dragged = mousemove (mousedown v x0 y0) x y
    /\ translateX dragged = (translateX v + (x - x0))%float
    /\ translateY dragged = (translateY v + (y - y0))%float
    /\ scale dragged = scale v
    /\ querySelectorAll_layer_node (canvas dragged)
       = querySelectorAll_layer_node (canvas v)
    /\ connectors_of (canvas dragged) = connectors_of (canvas v)
    /\ mousemoves (mouseup dragged) later = mouseup dragged
    /\ mousemoves (mouseleave dragged) later = mouseleave dragged
    /\ view_of (mouseup dragged) = view_of dragged.
Proof.
  intros v x0 y0 x y moves later dragged.
  assert (E : dragged = mousemove (mousedown v x0 y0) x y)
    by apply mousemoves_last.
  split; [ exact E |].
  rewrite E. unfold mousemove, mousedown. cbn [isDragging set_canvas set_drag].
  cbn [scale startX startY startTranslateX startTranslateY set_canvas set_drag].
  match goal with |- context [render ?w] => set (w0 := w) end.
  pose proof (view_render w0) as V. unfold view_of in V.
  injection V as Vs Vx Vy.
  repeat split.
  - rewrite Vx. reflexivity.
  - rewrite Vy. reflexivity.
  - rewrite Vs. reflexivity.
  - rewrite nodes_render. reflexivity.
  - rewrite connectors_render. reflexivity.
  - apply mousemoves_idle. reflexivity.
  - apply mousemoves_idle. reflexivity.
Qed.

(** ** The transform of the container *)

Lemma transform_current_render (v : Visualizer) : transform_current (render v).
Proof.
  unfold transform_current, render.
  destruct (viz_container (canvas v)) eqn:E; cbn; [ reflexivity |].
  rewrite E. exact I.
Qed.

Lemma transform_current_frame (v w : Visualizer) :
  viz_container (canvas w) = viz_container (canvas v) ->
  view_of w = view_of v ->
  transform_current v -> transform_current w.
Proof.
  unfold transform_current, view_of. intros -> E.
  injection E as -> -> ->. auto.
Qed.

Lemma transform_update_canvas_nodes (f : nat -> LayerNode -> LayerNode)
      (c : Canvas) :
  option_map transform (viz_container (update_canvas_nodes f c))
  = option_map transform (viz_container c).
Proof.
  unfold update_canvas_nodes.
  destruct (viz_container c) eqn:E; cbn; [ reflexivity |].
  rewrite E. reflexivity.
Qed.

Lemma transform_current_nodes (f : nat -> LayerNode -> LayerNode)
      (v w : Visualizer) :
  canvas w = update_canvas_nodes f (canvas v) ->
  view_of w = view_of v ->
  transform_current v -> transform_current w.
Proof.
  unfold transform_current, view_of. intros Ec E.
  injection E as -> -> ->.
  pose proof (transform_update_canvas_nodes f (canvas v)) as T.
  rewrite Ec.
  destruct (viz_container (update_canvas_nodes f (canvas v)));
    destruct (viz_container (canvas v)); cbn in T; try discriminate; auto.
  injection T as ->. auto.
Qed.

Lemma transform_current_visualize (v : Visualizer) (m : ModelMetadata)
      (l : option string) :
  transform_current (state_of (visualize' v m l)).
Proof.
  unfold visualize.
  destruct (render_layout _ _ _ _ _) as [[size els] |]; cbn [state_of].
  - apply transform_current_render.
  - exact I.
Qed.

Lemma transform_current_step (v : Visualizer) (op : Operation) :
  transform_current v -> transform_current (step' v op).
Proof.
  intro H. destruct op; cbn [step].
  - apply transform_current_visualize.
  - unfold setLayout. destruct (currentMetadata v); cbn [state_of];
      [ apply transform_current_visualize | exact H ].
  - unfold search.
    eapply transform_current_nodes; [ | | exact H ]; reflexivity.
  - unfold click.
    destruct (nth_error _ _); [| exact H ].
    destruct (detail =? 2); [ exact H |]. cbn [fst].
    eapply transform_current_nodes; [ | | exact H ]; reflexivity.
  - destruct direction; apply transform_current_render.
  - apply transform_current_render.
  - eapply transform_current_frame; [ | | exact H ]; reflexivity.
  - eapply transform_current_frame; [ | | exact H ]; reflexivity.
  - eapply transform_current_frame; [ | | exact H ]; reflexivity.
  - unfold mousemove. destruct (isDragging v);
      [ apply transform_current_render | exact H ].
  - eapply transform_current_frame; [ | | exact H ]; reflexivity.
  - eapply transform_current_frame; [ | | exact H ]; reflexivity.
Qed.

(** X2.  In every state that the engine reaches from its construction, the
    transform written on the container, if there is a container, is the one
    of the current view: [scale(s) translate(tx / s, ty / s)] for the scale
    [s] and the pan offset [(tx, ty)]. *)
Theorem container_transform_follows_the_view :
  forall (ops : list Operation),
    let v := run' new_Visualizer ops in
    match viz_container (canvas v) with
    | Some container =>
        transform container
        = Some (scale v, (translateX v / scale v)%float,
                (translateY v / scale v)%float)
    | None => True
    end.
Proof.
  intro ops. cbv zeta.
  change (transform_current (run' new_Visualizer ops)).
  assert (G : forall v, transform_current v -> transform_current (run' v ops)).
  { induction ops as [| op rest IH]; intros v H; [ exact H |].
    cbn [run fold_left]. apply IH. apply transform_current_step. exact H. }
  apply G. exact I.
Qed.

(** ** A render forgets the surface it replaces *)

Lemma canvas_height_for_kind (A : string) (n : nat) (old old' : css_length) :
  In A LayoutKinds -> canvas_height_for A n old = canvas_height_for A n old'.
Proof.
  intros [<- | [<- | [<- | [<- | []]]]]; reflexivity.
Qed.

Lemma truthy_kind (A : string) : In A LayoutKinds -> truthy (Some A) = true.
Proof.
  intros [<- | [<- | [<- | [<- | []]]]]; reflexivity.
Qed.

Lemma visualize_frame (v w : Visualizer) (m : ModelMetadata) (A : string) :
  In A LayoutKinds -> frame_of v = frame_of w ->
  visualize' v m (Some A) = visualize' w m (Some A).
Proof.
  intros HA F. unfold visualize. rewrite (truthy_kind A HA).
  destruct v as [[h c hl hp k] s tx ty d sx sy stx sty cl cm st].
  destruct w
    as [[h' c' hl' hp' k'] s' tx' ty' d' sx' sy' stx' sty' cl' cm' st'].
  unfold frame_of, view_of in F. cbn in F.
  injection F as -> -> -> -> -> -> -> -> -> -> -> ->.
  cbn [set_model set_canvas set_viz_container set_canvas_height canvas
       canvas_height cursor hide_labels hide_params viz_container
       scale translateX translateY isDragging startX startY startTranslateX
       startTranslateY currentLayout currentMetadata searchTerm].
  rewrite (canvas_height_for_kind A _ h h' HA).
  reflexivity.
Qed.

Lemma frame_render (v : Visualizer) : frame_of (render v) = frame_of v.
Proof.
  unfold render. destruct (viz_container (canvas v)); reflexivity.
Qed.

Lemma frame_visualize (v : Visualizer) (m : ModelMetadata) (l : option string) :
  frame_of (state_of (visualize' v m l)) = frame_of v.
Proof.
  unfold visualize.
  destruct (render_layout _ _ _ _ _) as [[size els] |]; cbn [state_of].
  - rewrite frame_render. reflexivity.
  - reflexivity.
Qed.

Lemma frame_update_canvas_nodes (f : nat -> LayerNode -> LayerNode)
      (v : Visualizer) :
  frame_of (set_canvas v (update_canvas_nodes f (canvas v))) = frame_of v.
Proof.
  unfold update_canvas_nodes.
  destruct v as [[h c hl hp [k |]] s tx ty d sx sy stx sty cl cm st];
    reflexivity.
Qed.

Lemma frame_click (v : Visualizer) (target detail : nat) :
  frame_of (fst (click v target detail)) = frame_of v.
Proof.
  unfold click. destruct (nth_error _ _); [| reflexivity ].
  destruct (detail =? 2); [ reflexivity |]. cbn [fst].
  apply frame_update_canvas_nodes.
Qed.

Lemma currentMetadata_visualize (v : Visualizer) (m : ModelMetadata)
      (l : option string) :
  currentMetadata (state_of (visualize' v m l)) = Some m.
Proof.
  unfold visualize.
  destruct (render_layout _ _ _ _ _) as [[size els] |]; cbn [state_of];
    [| reflexivity ].
  unfold render. cbn. reflexivity.
Qed.

(** X3.  A render under a kind of the enumeration reads of the engine only
    what it keeps (the view, the drag state, the search term, the cursor and
    the visibility classes): whatever was rendered before, and whatever was
    selected, rendering model [m] under kind [A] gives the same result.  So
    switching the layout from [A] to any [B] and back to [A] leaves the
    engine as the first switch to [A] left it. *)
Theorem render_forgets_the_previous_surface :
  forall (v : Visualizer) (m0 m : ModelMetadata) (l0 : option string)
         (A B : string) (target detail : nat),
    In A LayoutKinds ->
    visualize' (state_of (visualize' v m0 l0)) m (Some A)
      = visualize' v m (Some A)
    /\ visualize' (fst (click v target detail)) m (Some A)
       = visualize' v m (Some A)
    /\ (currentMetadata v = Some m ->
        setLayout' (state_of (setLayout' (state_of (setLayout' v A)) B)) A
        = setLayout' v A).
Proof.
  intros v m0 m l0 A B target detail HA.
  split; [| split ].
  - apply visualize_frame; [ exact HA | apply frame_visualize ].
  - apply visualize_frame; [ exact HA | apply frame_click ].
  - intro Hm.
    assert (S1 : forall w l, currentMetadata w = Some m ->
                             setLayout' w l = visualize' w m (Some l)).
    { intros w l E. unfold setLayout. rewrite E. reflexivity. }
    rewrite (S1 v A Hm).
    rewrite (S1 _ B (currentMetadata_visualize v m (Some A))).
    rewrite (S1 _ A (currentMetadata_visualize _ m (Some B))).
    apply visualize_frame; [ exact HA |].
    rewrite !frame_visualize. reflexivity.
Qed.

(** ** Searches and clicks in sequence *)

Lemma search_node_search_node (t1 s1 t2 s2 : string) (n : LayerNode) :
  search_node t2 s2 (search_node t1 s1 n) = search_node t2 s2 n.
Proof.
  unfold search_node.
  destruct (String.eqb t1 "" || includes s1 (toLowerCase (layer_name n))
            || includes s1 (toLowerCase (layer_type n)));
    cbn [layer_name layer_type set_classes selected];
    destruct (String.eqb t2 "" || includes s2 (toLowerCase (layer_name n))
              || includes s2 (toLowerCase (layer_type n)));
    reflexivity.
Qed.

Lemma update_canvas_nodes_compose (f g : nat -> LayerNode -> LayerNode)
      (c : Canvas) :
  update_canvas_nodes f (update_canvas_nodes g c)
  = update_canvas_nodes (fun i n => f i (g i n)) c.
Proof.
  unfold update_canvas_nodes.
  destruct c as [h cu hl hp [k |]]; cbn; [| reflexivity ].
  rewrite update_nodes_compose. reflexivity.
Qed.

Lemma update_canvas_nodes_ext (f g : nat -> LayerNode -> LayerNode)
      (c : Canvas) :
  (forall i n, f i n = g i n) ->
  update_canvas_nodes f c = update_canvas_nodes g c.
Proof.
  intro H. unfold update_canvas_nodes.
  destruct (viz_container c); [| reflexivity ].
  rewrite (update_nodes_ext f g 0 _ H). reflexivity.
Qed.

(** X4.  Two searches in a row leave the engine as the second one alone
    does; in particular, searching again for the same term changes
    nothing. *)
Theorem search_replaces_the_previous_search :
  forall (v : Visualizer) (t1 t2 : string),
    search (search v t1) t2 = search v t2
    /\ search (search v t1) t1 = search v t1.
Proof.
  assert (G : forall v t1 t2, search (search v t1) t2 = search v t2).
  { intros v t1 t2. unfold search.
    cbn [canvas set_canvas set_searchTerm searchTerm].
    rewrite update_canvas_nodes_compose.
    rewrite (update_canvas_nodes_ext
               (fun _ n => search_node t2 (toLowerCase t2)
                             (search_node t1 (toLowerCase t1) n))
               (fun _ => search_node t2 (toLowerCase t2)) (canvas v))
      by (intros; apply search_node_search_node).
    reflexivity. }
  intros v t1 t2. split; apply G.
Qed.

Lemma toggle_at_search_node (target i : nat) (t s : string) (n : LayerNode) :
  toggle_at target i (search_node t s n)
  = search_node t s (toggle_at target i n).
Proof.
  unfold toggle_at. destruct (i =? target); [| reflexivity ].
  unfold toggle_selected, search_node.
  cbn [layer_name layer_type set_classes selected].
  destruct (String.eqb t "" || includes s (toLowerCase (layer_name n))
            || includes s (toLowerCase (layer_type n)));
    reflexivity.
Qed.

Lemma filter_selected_map (g : LayerNode -> LayerNode) (ns : list LayerNode) :
  (forall n, selected (g n) = selected n) ->
  filter selected (map g ns) = map g (filter selected ns).
Proof.
  intro H. induction ns as [| n rest IH]; [ reflexivity |].
  cbn [map filter]. rewrite H, IH. destruct (selected n); reflexivity.
Qed.

Lemma resolve_layers_map (m : ModelMetadata) (g : LayerNode -> LayerNode)
      (ns : list LayerNode) :
  (forall n, layer_name (g n) = layer_name n) ->
  resolve_layers m (map g ns) = resolve_layers m ns.
Proof.
  intro H. induction ns as [| n rest IH]; [ reflexivity |].
  cbn [map resolve_layers]. rewrite H, IH. reflexivity.
Qed.

Lemma selected_search_node (t s : string) (n : LayerNode) :
  selected (search_node t s n) = selected n.
Proof. unfold search_node. destruct (_ || _); reflexivity. Qed.

Lemma layer_name_search_node (t s : string) (n : LayerNode) :
  layer_name (search_node t s n) = layer_name n.
Proof. unfold search_node. destruct (_ || _); reflexivity. Qed.

Lemma search_toggle (v : Visualizer) (target : nat) (t : string) :
  set_canvas (search v t)
    (update_canvas_nodes (toggle_at target) (canvas (search v t)))
  = search (set_canvas v (update_canvas_nodes (toggle_at target) (canvas v))) t.
Proof.
  unfold search. cbn [canvas set_canvas set_searchTerm searchTerm].
  rewrite !update_canvas_nodes_compose.
  rewrite (update_canvas_nodes_ext
             (fun i n => toggle_at target i (search_node t (toLowerCase t) n))
             (fun i n => search_node t (toLowerCase t) (toggle_at target i n))
             (canvas v))
    by (intros; apply toggle_at_search_node).
  reflexivity.
Qed.

(** X5.  A click after a search leaves the engine as the search after the
    click does, and dispatches the events it dispatches without the search:
    a search changes neither the selection nor what is reported of it. *)
Theorem search_and_click_commute :
  forall (v : Visualizer) (term : string) (target detail : nat),
    click (search v term) target detail
    = (search (fst (click v target detail)) term, snd (click v target detail)).
Proof.
  intros v term target detail.
  unfold click at 1. rewrite nodes_search, nth_error_map.
  unfold click.
  destruct (nth_error (querySelectorAll_layer_node (canvas v)) target)
    as [node |]; cbn [option_map]; [| reflexivity ].
  destruct (detail =? 2); cbn [fst snd].
  - unfold search_node. destruct (_ || _); reflexivity.
  - rewrite search_toggle.
    f_equal. f_equal.
    rewrite nodes_search.
    rewrite filter_selected_map by apply selected_search_node.
    rewrite length_map.
    rewrite resolve_layers_map by apply layer_name_search_node.
    f_equal.
    unfold search_node. destruct (_ || _); reflexivity.
Qed.

(** ** Refining a search term *)

Lemma append_assoc (a b c : string) :
  String.append (String.append a b) c = String.append a (String.append b c).
Proof.
  induction a as [| x a IH]; [ reflexivity |].
  cbn [String.append]. rewrite IH. reflexivity.
Qed.

Lemma includes_trans (a b c : string) :
  includes a b = true -> includes b c = true -> includes a c = true.
Proof.
  rewrite !includes_spec.
  intros (p & q & ->) (pre & post & ->).
  exists (String.append pre p), (String.append q post).
  rewrite !append_assoc. reflexivity.
Qed.

(** X6.  Refining a term narrows the highlight.  For two terms of ASCII
    characters: if the term [t1] is not empty and occurs in the term [t2]
    up to letter case, then at every position a node that the search for
    [t2] highlights is highlighted by the search for [t1], and a node that
    the search for [t1] dims is dimmed by the search for [t2], whatever the
    name and the type of the node. *)
Theorem refining_the_term_narrows_the_highlight :
  forall (v : Visualizer) (t1 t2 : string) (i : nat) (n1 n2 : LayerNode),
    isASCII t1 = true ->
    isASCII t2 = true ->
    ci_substring t1 t2 ->
    t1 <> "" ->
    nth_error (querySelectorAll_layer_node (canvas (search v t1))) i
      = Some n1 ->
    nth_error (querySelectorAll_layer_node (canvas (search v t2))) i
      = Some n2 ->
    (highlighted n2 = true -> highlighted n1 = true)
    /\ (dimmed n1 = true -> dimmed n2 = true)
    /\ t2 <> "".
Proof.
  intros v t1 t2 i n1 n2 A1 A2 Hsub Hne H1 H2.
  assert (Hne2 : t2 <> "").
  { intros ->. destruct Hsub as (a & m & b & E & L).
    destruct a; [| discriminate E ]. destruct m; [| discriminate E ].
    destruct t1; [ apply Hne; reflexivity | discriminate L ]. }
  assert (T : includes (toLowerCase t1) (toLowerCase t2) = true)
    by (apply includes_toLowerCase; assumption).
  rewrite nodes_search, nth_error_map in H1, H2.
  destruct (nth_error (querySelectorAll_layer_node (canvas v)) i) as [n |];
    [| discriminate H1 ].
  cbn [option_map] in H1, H2. injection H1 as <-. injection H2 as <-.
  destruct (search_node_classes t1 n) as (Hh1 & Hd1 & _).
  destruct (search_node_classes t2 n) as (Hh2 & Hd2 & _).
  cbv zeta in *.
  split; [| split; [| exact Hne2 ]].
  - intro X. apply Hh2 in X. destruct X as [_ M]. apply Hh1.
    split; [ exact Hne |].
    destruct M as [M | M]; [ left | right ];
      exact (includes_trans _ _ _ T M).
  - intro X. apply Hd1 in X. destruct X as [_ M]. apply Hd2.
    split; [ exact Hne2 |].
    intros [Y | Y]; apply M; [ left | right ];
      exact (includes_trans _ _ _ T Y).
Qed.

(** ** The size of the selection *)

Lemma length_filter_selected_toggle (ns : list LayerNode) (p k : nat)
      (np : LayerNode) :
  nth_error ns p = Some np ->
  List.length (filter selected (update_members (toggle_at (k + p)) k ns))
  + (if selected np then 1 else 0)
  = List.length (filter selected ns) + (if selected np then 0 else 1).
Proof.
  revert p k. induction ns as [| n rest IH]; intros p k H.
  - destruct p; discriminate.
  - destruct p as [| p].
    + injection H as ->. cbn [update_members filter].
      rewrite Nat.add_0_r, toggle_at_same.
      rewrite (update_members_ext_from (toggle_at k) (fun _ x => x) (S k))
        by (intros i x Hi; apply toggle_at_other; lia).
      rewrite update_members_id.
      unfold toggle_selected. cbn [selected set_classes].
      destruct (selected np); cbn [negb List.length]; lia.
    + cbn [nth_error] in H. cbn [update_members filter].
      rewrite toggle_at_other by lia.
      replace (k + S p) with (S k + p) by lia.
      specialize (IH p (S k) H).
      destruct (selected n); cbn [List.length]; lia.
Qed.

(** X7.  A click that toggles a node moves the number of selected nodes by
    exactly one: up when the node was not selected, down when it was.  The
    event carries the new number, which never exceeds the number of
    nodes. *)
Theorem click_changes_the_selection_by_one :
  forall (v : Visualizer) (target detail : nat) (node : LayerNode),
    nth_error (querySelectorAll_layer_node (canvas v)) target = Some node ->
    detail <> 2 ->
    let before := List.length (selected_nodes v) in
    let after := List.length (selected_nodes (fst (click v target detail))) in
    (if selected node then before = S after else after = S before)
    /\ (exists selection,
          snd (click v target detail) = [layerSelection after selection])
    /\ after <= List.length (querySelectorAll_layer_node (canvas v)).
Proof.
  intros v target detail node Hn Hd before after.
  assert (N : querySelectorAll_layer_node (canvas (fst (click v target detail)))
              = update_members (toggle_at target) 0
                  (querySelectorAll_layer_node (canvas v)))
    by (eapply nodes_click; eassumption).
  pose proof (length_filter_selected_toggle _ target 0 node Hn) as L.
  cbn [Nat.add] in L.
  assert (A : after = List.length (filter selected
                 (update_members (toggle_at target) 0
                    (querySelectorAll_layer_node (canvas v)))))
    by (unfold after, selected_nodes; rewrite N; reflexivity).
  split; [| split ].
  - unfold before, selected_nodes. rewrite A.
    destruct (selected node); lia.
  - rewrite (click_single v target detail node Hn Hd). cbn [snd].
    eexists. reflexivity.
  - rewrite A.
    etransitivity; [ apply filter_length_le |].
    rewrite length_update_members. reflexivity.
Qed.

(** ** The groups that the tree layout shows *)

(** X8.  When the tree layout returns, its children are groups, one for each
    type that occurs in the model: the count in the header of a group is the
    number of its nodes, no group is empty, and the nodes of the group headed
    by [k] stand for the layers of type [k], all of them, in model order.
    No two groups have the same type, and when no type is an array index
    the groups stand in the order in which their types first occur. *)
Theorem tree_groups_partition_the_layers_by_type :
  forall (layout : string) (m : ModelMetadata) (els : list Element),
    renderTreeLayout layout m = Some els ->
    Forall (fun e =>
              exists k ms,
                e = layer_group k (List.length ms) ms
                /\ ms <> []
                /\ map node_layer ms
                   = filter (fun l => String.eqb (type l) k) (layers m))
           els
    /\ NoDup (map group_type els)
    /\ (forall l, In l (layers m) -> In (Some (type l)) (map group_type els))
    /\ (Forall (fun l => array_index (type l) = None) (layers m) ->
        map group_type els
        = map Some (first_occurrences (map type (layers m)))).
Proof.
  intros layout m els. unfold renderTreeLayout.
  destruct (group_layers (layers m) []) as [o |] eqn:G; [| discriminate ].
  intro E. injection E as <-.
  destruct (group_layers_groups (layers m) [] [] o) as (Hnd & Hg & Hin & Hk);
    [ constructor | constructor | intros l [] | exact G |].
  cbn [app map] in *.
  pose proof (Object_entries_perm o) as P.
  assert (K : map group_type
                (map (fun '(type, group) =>
                        layer_group type (List.length group)
                          (forEach (fun layer index =>
                             [tree_node (createLayerNode layout layer index m)])
                             group))
                   (Object_entries o))
              = map Some (map fst (Object_entries o))).
  { rewrite !map_map. apply map_ext. intros [k g]. reflexivity. }
  split; [| split; [| split ]].
  - apply Forall_map.
    apply (Permutation_Forall (Permutation_sym P)) in Hg.
    revert Hg. apply Forall_impl. intros [k g] [Hg Hne]. cbn [fst snd] in *.
    assert (N : map node_layer
                  (forEach (fun layer index =>
                     [tree_node (createLayerNode layout layer index m)]) g) = g)
      by (unfold forEach; apply node_layer_forEach; reflexivity).
    eexists k, _. split; [| split ].
    + f_equal. rewrite <- N at 1. rewrite length_map. reflexivity.
    + intro Z. rewrite Z in N. cbn in N. congruence.
    + rewrite N. exact Hg.
  - rewrite K. apply Finite.Injective_map_NoDup; [ intros a b; congruence |].
    apply (Permutation_NoDup (Permutation_map fst (Permutation_sym P))).
    exact Hnd.
  - intros l Hl. rewrite K. apply in_map.
    apply (Permutation_in _ (Permutation_map fst (Permutation_sym P))).
    apply Hin. exact Hl.
  - intro Hx. rewrite K. f_equal.
    rewrite Object_entries_no_index; [ exact Hk |].
    apply Forall_forall. intros k Hkin. rewrite Hk in Hkin.
    apply add_new_incl in Hkin. destruct Hkin as [[] | Hkin].
    apply in_map_iff in Hkin. destruct Hkin as (l & <- & Hl).
    rewrite Forall_forall in Hx. apply Hx. exact Hl.
Qed.

(** ** When the tree layout throws *)

Lemma group_layers_throws (ls : list ModelLayer) :
  forall o : JsObject (list ModelLayer),
    Forall (fun k => inherited k = false) (map fst o) ->
    match group_layers ls o with Some _ => true | None => false end
    = forallb (fun l => negb (inherited (type l))) ls.
Proof.
  induction ls as [| l ls IH]; intros o Ho; [ reflexivity |].
  cbn [group_layers forallb].
  destruct (own_lookup o (type l)) as [g |] eqn:L.
  - apply own_lookup_Some in L.
    rewrite Forall_forall in Ho. rewrite (Ho _ L). cbn [negb andb].
    apply IH. rewrite keys_own_update. apply Forall_forall. exact Ho.
  - destruct (inherited (type l)) eqn:I; [ reflexivity |]. cbn [negb andb].
    apply IH. rewrite map_app. apply Forall_app. split; [ exact Ho |].
    repeat constructor. exact I.
Qed.

Lemma visualize_tree_returns (v : Visualizer) (m : ModelMetadata) :
  returns (visualize' v m (Some "tree"))
  = forallb (fun l => negb (inherited (type l))) (layers m).
Proof.
  rewrite <- (group_layers_throws (layers m) [] (Forall_nil _)).
  unfold visualize, render_layout, renderTreeLayout.
  cbn [truthy String.eqb Ascii.eqb Bool.eqb negb].
  destruct (group_layers (layers m) []); reflexivity.
Qed.

(** X9.  [visualize] under the tree layout returns exactly when no layer
    type is a property name that objects inherit, wherever such a layer
    stands in the model.  When it throws, the canvas is left without a
    container, the tree layout is the current layout, the model is the
    current model and the view is as before; a [setLayout] to a chain layout
    then returns and shows the layers in model order. *)
Theorem tree_layout_throws_exactly_on_inherited_types :
  forall (v : Visualizer) (m : ModelMetadata) (recover : string),
    let shown := visualize' v m (Some "tree") in
    returns shown
      = forallb (fun l => negb (inherited (type l))) (layers m)
    /\ (returns shown = false ->
        viz_container (canvas (state_of shown)) = None
        /\ currentLayout (state_of shown) = "tree"
        /\ currentMetadata (state_of shown) = Some m
        /\ view_of (state_of shown) = view_of v
        /\ (In recover ChainLayouts ->
            let again := setLayout' (state_of shown) recover in
            returns again = true
            /\ map node_layer
                 (querySelectorAll_layer_node (canvas (state_of again)))
               = layers m)).
Proof.
  intros v m recover shown.
  split; [ apply visualize_tree_returns |].
  intro F. unfold shown in F. rewrite visualize_tree_returns in F.
    rewrite <- (group_layers_throws (layers m) [] (Forall_nil _)) in F.
    assert (T : shown
                = Throw (set_canvas (set_model v (Some m) "tree")
                    (set_canvas_height (set_viz_container (canvas v) None)
                       (canvas_height_for "tree" (List.length (layers m))
                          (canvas_height (canvas v)))))).
    { unfold shown, visualize, render_layout, renderTreeLayout.
      cbn [truthy String.eqb Ascii.eqb Bool.eqb negb].
      destruct (group_layers (layers m) []); [ discriminate | reflexivity ]. }
    rewrite T. cbn [state_of].
    split; [ reflexivity |]. split; [ reflexivity |].
    split; [ reflexivity |]. split; [ reflexivity |].
    intro Hr. cbv zeta. unfold setLayout.
    cbn [currentMetadata set_canvas set_model].
    pose proof (layout_counts Math_cos Math_sin Math_atan2
                  (set_canvas (set_model v (Some m) "tree")
                    (set_canvas_height (set_viz_container (canvas v) None)
                       (canvas_height_for "tree" (List.length (layers m))
                          (canvas_height (canvas v))))) m recover) as C.
    cbv zeta in C. destruct C as [C _]. destruct (C Hr) as (C1 & _).
    split; [ exact C1 |].
    apply (shows_in_model_order_visualize Math_cos Math_sin Math_atan2 _ m
             recover Hr).
Qed.

(** ** The surface and the current model *)

Lemma in_sync_same (v w : Visualizer) :
  surface_of w = surface_of v ->
  currentMetadata w = currentMetadata v ->
  currentLayout w = currentLayout v ->
  in_sync' v -> in_sync' w.
Proof. unfold in_sync. intros -> -> ->. auto. Qed.

Lemma surface_render (v : Visualizer) : surface_of (render v) = surface_of v.
Proof.
  unfold surface_of, render.
  destruct (viz_container (canvas v)) eqn:E; cbn; [| rewrite E ]; reflexivity.
Qed.

Lemma model_render (v : Visualizer) :
  currentMetadata (render v) = currentMetadata v
  /\ currentLayout (render v) = currentLayout v.
Proof.
  unfold render. destruct (viz_container (canvas v)); split; reflexivity.
Qed.

Lemma surface_update_canvas_nodes (f : nat -> LayerNode -> LayerNode)
      (v : Visualizer) (c : Canvas) :
  (forall i n, placement_of (f i n) = placement_of n) ->
  canvas v = update_canvas_nodes f c ->
  option_map (fun container =>
                (container_size container,
                 map placement_of (flat_map nodes_of (children container)),
                 filter is_connector (children container)))
             (viz_container c)
  = surface_of v.
Proof.
  intros Hf E. unfold surface_of. rewrite E. unfold update_canvas_nodes.
  destruct (viz_container c) as [k |] eqn:K; cbn; [| rewrite K; reflexivity ].
  rewrite nodes_update_nodes, connectors_update_nodes.
  rewrite (map_update_members placement_of f 0 _ Hf). reflexivity.
Qed.

Lemma forallb_negb_existsb {A} (p : A -> bool) (xs : list A) :
  forallb (fun x => negb (p x)) xs = negb (existsb p xs).
Proof.
  induction xs as [| x xs IH]; [ reflexivity |].
  cbn [forallb existsb]. rewrite IH. destruct (p x); reflexivity.
Qed.

Lemma render_layout_throws (layout : string) (m : ModelMetadata) :
  render_layout' layout m = None ->
  layout = "tree"
  /\ existsb (fun l => inherited (type l)) (layers m) = true.
Proof.
  unfold render_layout.
  destruct (String.eqb layout "vertical"); [ discriminate |].
  destruct (String.eqb layout "horizontal"); [ discriminate |].
  destruct (String.eqb layout "circular"); [ discriminate |].
  destruct (String.eqb_spec layout "tree") as [-> | _]; [| discriminate ].
  unfold renderTreeLayout.
  pose proof (group_layers_throws (layers m) [] (Forall_nil _)) as T.
  destruct (group_layers (layers m) []); [ discriminate |].
  intros _. split; [ reflexivity |].
  rewrite forallb_negb_existsb in T.
  destruct (existsb _ _); [ reflexivity | discriminate ].
Qed.

Lemma in_sync_visualize (v : Visualizer) (m : ModelMetadata)
      (l : option string) :
  in_sync' (state_of (visualize' v m l)).
Proof.
  unfold visualize.
  set (layout := match l with
                 | Some k => if truthy l then k else currentLayout v
                 | None => currentLayout v
                 end).
  destruct (render_layout' layout m) as [[size els] |] eqn:R; cbn [state_of].
  - unfold in_sync. rewrite surface_render.
    match goal with
    | |- context [currentMetadata (render ?w)] =>
        destruct (model_render w) as [-> ->]
    end.
    cbn. exists m, els. auto.
  - apply render_layout_throws in R. destruct R as [-> X].
    unfold in_sync. cbn. right. exists m. auto.
Qed.

Lemma in_sync_step (v : Visualizer) (op : Operation) :
  in_sync' v -> in_sync' (step' v op).
Proof.
  intro H. destruct op; cbn [step].
  - apply in_sync_visualize.
  - unfold setLayout. destruct (currentMetadata v); cbn [state_of];
      [ apply in_sync_visualize | exact H ].
  - apply (in_sync_same v); [ | reflexivity | reflexivity | exact H ].
    symmetry.
    apply (surface_update_canvas_nodes
             (fun _ => search_node term (toLowerCase term)) _ (canvas v));
      [| reflexivity ].
    intros _ n. unfold search_node. destruct (_ || _); reflexivity.
  - unfold click.
    destruct (nth_error _ _); [| exact H ].
    destruct (detail =? 2); [ exact H |]. cbn [fst].
    apply (in_sync_same v); [ | reflexivity | reflexivity | exact H ].
    symmetry.
    apply (surface_update_canvas_nodes (toggle_at target) _ (canvas v));
      [| reflexivity ].
    intros i n. unfold toggle_at. destruct (i =? target); reflexivity.
  - destruct direction; unfold zoom;
      (eapply in_sync_same; [ apply surface_render | apply model_render
                            | apply model_render | exact H ]).
  - unfold reset.
    eapply in_sync_same; [ apply surface_render | apply model_render
                         | apply model_render | exact H ].
  - apply (in_sync_same v); [ reflexivity .. | exact H ].
  - apply (in_sync_same v); [ reflexivity .. | exact H ].
  - apply (in_sync_same v); [ reflexivity .. | exact H ].
  - unfold mousemove. destruct (isDragging v); [| exact H ].
    eapply in_sync_same; [ apply surface_render | apply model_render
                         | apply model_render | exact H ].
  - apply (in_sync_same v); [ reflexivity .. | exact H ].
  - apply (in_sync_same v); [ reflexivity .. | exact H ].
Qed.

(** X10.  In every state that the engine reaches from its construction, a
    container on the canvas shows the render of the current model under the
    current layout: it has the size, the placements in document order and
    the connectors of that render, so that only the state classes of its
    nodes can differ.  The canvas is without a container only while no model
    has been given, or after the tree render of a model with an inherited
    type name, which threw. *)
Theorem surface_shows_the_current_model :
  forall (ops : list Operation),
    let v := run' new_Visualizer ops in
    match viz_container (canvas v) with
    | Some container =>
        exists m els,
          currentMetadata v = Some m
          /\ render_layout' (currentLayout v) m
             = Some (container_size container, els)
          /\ placements (canvas v) = map placement_of (flat_map nodes_of els)
          /\ connectors_of (canvas v) = filter is_connector els
    | None =>
        currentMetadata v = None
        \/ exists m,
             currentMetadata v = Some m /\ currentLayout v = "tree"
             /\ existsb (fun l => inherited (type l)) (layers m) = true
    end.
Proof.
  intro ops. cbv zeta.
  assert (G : forall v, in_sync' v -> in_sync' (run' v ops)).
  { induction ops as [| op rest IH]; intros v H; [ exact H |].
    cbn [run fold_left]. apply IH. apply in_sync_step. exact H. }
  specialize (G new_Visualizer (or_introl eq_refl)).
  unfold in_sync, surface_of in G.
  unfold placements, connectors_of, querySelectorAll_layer_node.
  destruct (viz_container (canvas (run' new_Visualizer ops))) as [k |];
    cbn [option_map] in G; exact G.
Qed.

(** ** The order of nodes and connectors *)

Lemma map_forEach_from_list {A B C} (h : B -> C) (f : A -> nat -> list B)
      (k : nat) (xs : list A) :
  map h (forEach_from f k xs) = forEach_from (fun x i => map h (f x i)) k xs.
Proof.
  revert k. induction xs as [| x xs IH]; intro k; [ reflexivity |].
  cbn [forEach_from]. rewrite map_app, IH. reflexivity.
Qed.

Lemma markers_before {A} (k : nat) (xs : list A) :
  forEach_from (fun _ i => (if 0 <? i then [true] else []) ++ [false]) (S k) xs
  = List.concat (repeat [true; false] (List.length xs)).
Proof.
  revert k. induction xs as [| x xs IH]; intro k; [ reflexivity |].
  cbn [forEach_from List.length repeat List.concat]. rewrite IH. reflexivity.
Qed.

Lemma markers_after {A} (n k : nat) (xs : list A) :
  k + List.length xs = n ->
  forEach_from
    (fun _ i => [false] ++ (if (Z.of_nat i <? Z.of_nat n - 1)%Z
                            then [true] else [])) k xs
  = alternating (List.length xs).
Proof.
  revert k. induction xs as [| x xs IH]; intros k H; [ reflexivity |].
  cbn [forEach_from List.length] in *.
  rewrite (IH (S k)) by lia.
  destruct xs as [| y xs].
  - cbn [List.length] in *.
    destruct (Z.ltb_spec (Z.of_nat k) (Z.of_nat n - 1)); [ lia | reflexivity ].
  - cbn [List.length] in *.
    destruct (Z.ltb_spec (Z.of_nat k) (Z.of_nat n - 1)); [| lia ].
    cbn [alternating app repeat List.concat]. reflexivity.
Qed.

Lemma render_layout_alternates (layout : string) (m : ModelMetadata) :
  In layout ChainLayouts ->
  exists size els,
    render_layout' layout m = Some (size, els)
    /\ map is_connector els = alternating (List.length (layers m)).
Proof.
  intros [<- | [<- | [<- | []]]]; eexists _, _; (split; [ reflexivity |]).
  - unfold renderVerticalLayout, forEach. rewrite map_forEach_from_list.
    rewrite (forEach_from_ext _
               (fun _ i => (if 0 <? i then [true] else []) ++ [false]))
      by (intros x i; destruct (0 <? i); reflexivity).
    destruct (layers m) as [| l ls]; [ reflexivity |].
    cbn [forEach_from List.length alternating app Nat.ltb Nat.leb].
    rewrite markers_before. reflexivity.
  - unfold renderHorizontalLayout, forEach. rewrite map_forEach_from_list.
    rewrite (forEach_from_ext _
               (fun _ i => (if 0 <? i then [true] else []) ++ [false]))
      by (intros x i; destruct (0 <? i); reflexivity).
    destruct (layers m) as [| l ls]; [ reflexivity |].
    cbn [forEach_from List.length alternating app Nat.ltb Nat.leb].
    rewrite markers_before. reflexivity.
  - unfold renderCircularLayout, forEach. rewrite map_forEach_from_list.
    rewrite (forEach_from_ext _
               (fun _ i => [false]
                  ++ (if (Z.of_nat i <? Z.of_nat (List.length (layers m)) - 1)%Z
                      then [true] else [])))
      by (intros x i;
          destruct (Z.of_nat i <? Z.of_nat (List.length (layers m)) - 1)%Z;
          reflexivity).
    apply markers_after. reflexivity.
Qed.

(** X11.  Under the vertical, the horizontal and the circular layout the
    children of the container are nodes and connectors in turn, a node first
    and last: [2 * N - 1] children for [N] layers, the nodes standing for
    the layers in model order. *)
Theorem chain_layouts_alternate_nodes_and_connectors :
  forall (v : Visualizer) (m : ModelMetadata) (layout : string),
    In layout ChainLayouts ->
    exists container,
      viz_container (canvas (state_of (visualize' v m (Some layout))))
        = Some container
      /\ map is_connector (children container)
         = alternating (List.length (layers m))
      /\ List.length (children container)
         = 2 * List.length (layers m) - 1
      /\ map node_layer (flat_map nodes_of (children container)) = layers m.
Proof.
  intros v m layout Hc.
  assert (Hk : In layout LayoutKinds)
    by (unfold ChainLayouts, LayoutKinds in *; cbn in *; tauto).
  destruct (render_layout_alternates layout m Hc) as (size & els & R & A).
  pose proof (surface_visualize Math_cos Math_sin Math_atan2 v m (Some layout))
    as S.
  cbv zeta in S. rewrite (truthy_kind layout Hk), R in S.
  destruct S as (S & _). rewrite S. cbn [state_of].
  unfold render. cbn.
  eexists. split; [ reflexivity |]. cbn [children].
  split; [ exact A |]. split.
  - rewrite <- (length_map is_connector), A.
    destruct (List.length (layers m)) as [| k]; [ reflexivity |].
    cbn [alternating List.length]. 
    assert (L : forall j,
               List.length (List.concat (repeat [true; false] j)) = 2 * j).
    { induction j as [| j IH]; [ reflexivity |].
      cbn [repeat List.concat app List.length]. rewrite IH. lia. }
    rewrite L. lia.
  - apply (render_layout_layers Math_cos Math_sin Math_atan2 layout m size els
             Hk R). exact Hc.
Qed.

(** ** The order of binary64 numbers *)

Lemma SFltb_rank (x y : spec_float) :
  SFltb x y = true
  <-> match rank x, rank y with
      | Some a, Some b => rank_lt a b
      | _, _ => False
      end.
Proof.
  unfold SFltb, SFcompare, rank, rank_lt.
  destruct x as [sx | sx | | sx mx ex], y as [sy | sy | | sy my ey];
    try destruct sx; try destruct sy;
    try change (Pos.compare_cont Eq mx my) with (Pos.compare mx my);
    try destruct (Z.compare_spec ex ey);
    try destruct (Pos.compare_spec mx my);
    cbn [CompOpp];
    (split; intro Hlt;
     first [ discriminate Hlt | contradiction | reflexivity | lia ]).
Qed.

Lemma ltb_below (x y : number) : (x <? y)%float = true <-> below x y.
Proof. rewrite FloatAxioms.ltb_spec. apply SFltb_rank. Qed.

Lemma SFeqb_rank (x : spec_float) :
  SFeqb x x = match rank x with Some _ => true | None => false end.
Proof.
  unfold SFeqb, SFcompare, rank.
  destruct x as [sx | sx | | sx mx ex]; try destruct sx; try reflexivity;
    change (Pos.compare_cont Eq mx mx) with (Pos.compare mx mx);
    rewrite Z.compare_refl, Pos.compare_refl; reflexivity.
Qed.

Lemma is_nan_rank (x : number) :
  is_nan x = match rank (Prim2SF x) with Some _ => false | None => true end.
Proof.
  unfold is_nan. rewrite FloatAxioms.eqb_spec, SFeqb_rank.
  destruct (rank (Prim2SF x)); reflexivity.
Qed.

Lemma ltb_irrefl (x : number) : (x <? x)%float = false.
Proof.
  destruct (x <? x)%float eqn:E; [| reflexivity ].
  apply ltb_below in E. unfold below in E.
  destruct (rank (Prim2SF x)) as [[[c e] m] |]; [| contradiction ].
  unfold rank_lt in E. lia.
Qed.

Lemma ltb_trans (x y z : number) :
  (x <? y)%float = true -> (y <? z)%float = true -> (x <? z)%float = true.
Proof.
  rewrite !ltb_below. unfold below.
  destruct (rank (Prim2SF x)) as [[[c1 e1] m1] |]; [| contradiction ].
  destruct (rank (Prim2SF y)) as [[[c2 e2] m2] |]; [| contradiction ].
  destruct (rank (Prim2SF z)) as [[[c3 e3] m3] |]; [| intros _ [] ].
  unfold rank_lt. lia.
Qed.

(** Two numbers neither of which is below the other, and neither NaN, are
    below and above the same numbers. *)
Lemma ltb_same_rank (x y z : number) :
  is_nan x = false -> is_nan y = false ->
  (x <? y)%float = false -> (y <? x)%float = false ->
  (z <? x)%float = (z <? y)%float /\ (x <? z)%float = (y <? z)%float.
Proof.
  rewrite !is_nan_rank. intros Hx Hy Hxy Hyx.
  assert (R : rank (Prim2SF x) = rank (Prim2SF y)).
  { destruct (rank (Prim2SF x)) as [[[c1 e1] m1] |] eqn:Rx; [| discriminate ].
    destruct (rank (Prim2SF y)) as [[[c2 e2] m2] |] eqn:Ry; [| discriminate ].
    assert (A : ~ below x y)
      by (intro B; apply ltb_below in B; congruence).
    assert (B : ~ below y x)
      by (intro B; apply ltb_below in B; congruence).
    unfold below in A, B. rewrite Rx, Ry in A, B. unfold rank_lt in A, B.
    assert (c1 = c2 /\ e1 = e2 /\ m1 = m2) as (-> & -> & ->) by lia.
    reflexivity. }
  split.
  - destruct (z <? x)%float eqn:E1, (z <? y)%float eqn:E2; try reflexivity.
    + apply ltb_below in E1. unfold below in E1. rewrite R in E1.
      apply (proj2 (ltb_below z y)) in E1. congruence.
    + apply ltb_below in E2. unfold below in E2. rewrite <- R in E2.
      apply (proj2 (ltb_below z x)) in E2. congruence.
  - destruct (x <? z)%float eqn:E1, (y <? z)%float eqn:E2; try reflexivity.
    + apply ltb_below in E1. unfold below in E1. rewrite R in E1.
      apply (proj2 (ltb_below y z)) in E1. congruence.
    + apply ltb_below in E2. unfold below in E2. rewrite <- R in E2.
      apply (proj2 (ltb_below x z)) in E2. congruence.
Qed.

(** ** The width of a layer without parameters *)

Lemma Math_max_above (a b z : number) :
  is_nan a = false -> is_nan b = false ->
  is_nan (Math_max a b) = false
  /\ ((z <? a)%float = true \/ (z <? b)%float = true ->
      (z <? Math_max a b)%float = true).
Proof.
  intros Ha Hb. unfold Math_max. rewrite Ha, Hb. cbn [orb].
  destruct (a <? b)%float eqn:Hab.
  - split; [ exact Hb |]. intros [Hz | Hz]; [| exact Hz ].
    exact (ltb_trans _ _ _ Hz Hab).
  - destruct (b <? a)%float eqn:Hba.
    + split; [ exact Ha |]. intros [Hz | Hz]; [ exact Hz |].
      exact (ltb_trans _ _ _ Hz Hba).
    + destruct (ltb_same_rank a b z Ha Hb Hab Hba) as [E _].
      destruct (is_neg_zero a).
      * split; [ exact Hb |]. intros [Hz | Hz]; [ rewrite <- E |]; exact Hz.
      * split; [ exact Ha |]. intros [Hz | Hz]; [| rewrite E ]; exact Hz.
Qed.

Lemma fold_Math_max_above (xs : list number) (z : number) :
  forall init : number,
    is_nan init = false ->
    Forall (fun x => is_nan x = false) xs ->
    is_nan (fold_left Math_max xs init) = false
    /\ ((z <? init)%float = true
        \/ Exists (fun x => (z <? x)%float = true) xs ->
        (z <? fold_left Math_max xs init)%float = true).
Proof.
  induction xs as [| x xs IH]; intros init Hi Hx; cbn [fold_left].
  - split; [ exact Hi |]. intros [H | H]; [ exact H | inversion H ].
  - apply Forall_cons_iff in Hx. destruct Hx as [Hx Hxs].
    destruct (Math_max_above init x z Hi Hx) as [Hn Hm].
    destruct (IH (Math_max init x) Hn Hxs) as [Hn' Hm'].
    split; [ exact Hn' |].
    intros [H | H]; apply Hm'.
    + left. apply Hm. left. exact H.
    + apply Exists_cons in H. destruct H as [H | H];
        [ left; apply Hm; right; exact H | right; exact H ].
Qed.

Lemma zero_div_positive (m : number) :
  (0 <? m)%float = true -> (0 / m)%float = 0%float.
Proof.
  intro H. apply Prim2SF_inj.
  rewrite FloatAxioms.div_spec.
  rewrite FloatAxioms.ltb_spec in H.
  change (Prim2SF 0%float) with (S754_zero false) in *.
  destruct (Prim2SF m) as [s | s | | s p e]; cbn in H; try discriminate;
    destruct s; try discriminate; reflexivity.
Qed.

Lemma createLayerNode_parameterless (layout : string) (l : ModelLayer)
      (index : nat) (m : ModelMetadata) :
  Forall (fun x => is_nan (parameters x) = false) (layers m) ->
  Exists (fun x => (0 <? parameters x)%float = true) (layers m) ->
  parameters l = 0%float ->
  let node := createLayerNode layout l index m in
  size_bar node = css_percent 0%float
  /\ (if String.eqb layout "horizontal"
      then width (node_style node) = css_px 280%float
           /\ minWidth (node_style node) = css_px 280%float
           /\ maxWidth (node_style node) = css_px 280%float
      else width (node_style node) = css_percent 100%float
           /\ maxWidth (node_style node) = css_px 300%float).
Proof.
  intros Hn Hp Hl node.
  assert (M : (0 <? Math_max_spread (map parameters (layers m)))%float = true).
  { unfold Math_max_spread.
    apply (fold_Math_max_above (map parameters (layers m)) 0%float
             neg_infinity eq_refl).
    - apply Forall_map. exact Hn.
    - right. apply Exists_map. exact Hp. }
  assert (R : (parameters l / Math_max_spread (map parameters (layers m)))%float
              = 0%float)
    by (rewrite Hl; apply zero_div_positive; exact M).
  unfold node, createLayerNode. cbv zeta. rewrite R.
  destruct (String.eqb layout "horizontal"); cbn; repeat split.
Qed.

(** X12.  In a model in which no parameter count is NaN and some layer has
    a positive count, the node of a layer that reports [0] parameters is
    rendered with an empty size bar ([0%]) and the least width of its
    layout: [280px] for the three widths under the horizontal layout; a
    width of [100%] with a maximum width of [300px] under the vertical and
    the circular layout; a width of [100%] with the maximum width [none]
    under the tree layout, which overwrites the [300px] that
    [createLayerNode] sets. *)
Theorem parameterless_layer_gets_the_minimum_width :
  forall (v : Visualizer) (layout : string) (m : ModelMetadata),
    Forall (fun x => is_nan (parameters x) = false) (layers m) ->
    Exists (fun x => (0 <? parameters x)%float = true) (layers m) ->
    In layout LayoutKinds ->
    Forall (fun node =>
              parameters (node_layer node) = 0%float ->
              size_bar node = css_percent 0%float
              /\ (if String.eqb layout "horizontal"
                  then width (node_style node) = css_px 280%float
                       /\ minWidth (node_style node) = css_px 280%float
                       /\ maxWidth (node_style node) = css_px 280%float
                  else width (node_style node) = css_percent 100%float
                       /\ maxWidth (node_style node)
                          = if String.eqb layout "tree" then css_none
                            else css_px 300%float))
      (querySelectorAll_layer_node
         (canvas (state_of (visualize' v m (Some layout)))))
    /\ (forall (l : ModelLayer) (index : nat),
          parameters l = 0%float ->
          maxWidth (node_style (createLayerNode "tree" l index m))
          = css_px 300%float).
Proof.
  intros v layout m Hn Hp Hk.
  split.
  2:{ intros l index Hl.
      destruct (createLayerNode_parameterless "tree" l index m Hn Hp Hl)
        as (_ & _ & W).
      exact W. }
  pose proof (surface_visualize Math_cos Math_sin Math_atan2 v m
                (Some layout)) as S. cbv zeta in S.
  rewrite (truthy_kind layout Hk) in S.
  destruct (render_layout Math_cos Math_sin Math_atan2 layout m)
    as [[size els] |] eqn:R;
    destruct S as (_ & -> & _); [| constructor ].
  unfold render_layout in R.
  destruct Hk as [<- | [<- | [<- | [<- | []]]]];
    cbn [String.eqb Ascii.eqb Bool.eqb] in R |- *.
  - injection R as _ <-. rewrite nodes_renderVerticalLayout.
    apply Forall_forEach_from. intros x i. constructor; [| constructor ].
    intro Hl.
    exact (createLayerNode_parameterless "vertical" x i m Hn Hp Hl).
  - injection R as _ <-. rewrite nodes_renderHorizontalLayout.
    apply Forall_forEach_from. intros x i. constructor; [| constructor ].
    intro Hl.
    exact (createLayerNode_parameterless "horizontal" x i m Hn Hp Hl).
  - injection R as _ <-.
    rewrite (nodes_renderCircularLayout Math_cos Math_sin Math_atan2).
    apply Forall_forEach_from. intros x i. constructor; [| constructor ].
    intro Hl.
    exact (createLayerNode_parameterless "circular" x i m Hn Hp Hl).
  - destruct (renderTreeLayout "tree" m) as [els' |] eqn:T; [| discriminate ].
    injection R as _ <-.
    destruct (nodes_renderTreeLayout _ _ _ T) as (o & _ & -> & _).
    induction (Object_entries o) as [| e es IH]; [ constructor |].
    cbn [flat_map]. apply Forall_app. split; [| exact IH ].
    apply Forall_forEach_from. intros x i. constructor; [| constructor ].
    intro Hl.
    destruct (createLayerNode_parameterless "tree" x i m Hn Hp Hl)
      as (B & W & _).
    split; [ exact B |]. split; [ exact W | reflexivity ].
Qed.

(** ** Numbers that are never NaN *)

Lemma shr_1_nonneg (mrs : shr_record) :
  (0 <= shr_m mrs)%Z -> (0 <= shr_m (shr_1 mrs))%Z.
Proof.
  destruct mrs as [m r s]. cbn [shr_m shr_1].
  destruct m as [| [p | p |] | p]; cbn [shr_m]; lia.
Qed.

Lemma iter_pos_shr_1_nonneg (p : positive) :
  forall mrs : shr_record,
    (0 <= shr_m mrs)%Z -> (0 <= shr_m (SpecFloat.iter_pos shr_1 p mrs))%Z.
Proof.
  induction p as [p IH | p IH |]; intros mrs H; cbn [SpecFloat.iter_pos].
  - apply IH, IH, shr_1_nonneg, H.
  - apply IH, IH, H.
  - apply shr_1_nonneg, H.
Qed.

Lemma shr_fexp_nonneg (m e : Z) (l : location) :
  (0 <= m)%Z -> (0 <= shr_m (fst (shr_fexp prec emax m e l)))%Z.
Proof.
  intro H. unfold shr_fexp, shr.
  assert (R : (0 <= shr_m (shr_record_of_loc m l))%Z)
    by (destruct l as [| []]; exact H).
  destruct (fexp prec emax (Zdigits2 m + e) - e)%Z; cbn [fst];
    [ exact R | apply iter_pos_shr_1_nonneg, R | exact R ].
Qed.

Lemma binary_round_aux_not_nan (sx : bool) (mx ex : Z) (lx : location) :
  (0 <= mx)%Z -> binary_round_aux prec emax sx mx ex lx <> S754_nan.
Proof.
  intro H. unfold binary_round_aux.
  pose proof (shr_fexp_nonneg mx ex lx H) as H1.
  destruct (shr_fexp prec emax mx ex lx) as [mrs' e']. cbn [fst] in H1.
  assert (H2 : (0 <= round_nearest_even (shr_m mrs')
                      (loc_of_shr_record mrs'))%Z).
  { unfold round_nearest_even.
    destruct (loc_of_shr_record mrs') as [| []]; try exact H1;
      [ destruct (Z.even (shr_m mrs')) |]; lia. }
  pose proof (shr_fexp_nonneg _ e' loc_Exact H2) as H3.
  destruct (shr_fexp prec emax _ e' loc_Exact) as [mrs'' e'']. cbn [fst] in H3.
  destruct (shr_m mrs'') as [| m | m]; [ discriminate | | lia ].
  destruct (e'' <=? emax - prec)%Z; discriminate.
Qed.

Lemma binary_normalize_not_nan (m e : Z) (szero : bool) :
  binary_normalize prec emax m e szero <> S754_nan.
Proof.
  unfold binary_normalize, binary_round.
  destruct m as [| p | p]; [ discriminate | |];
    destruct (shl_align _ _ _) as [mz ez];
    apply binary_round_aux_not_nan; lia.
Qed.

Lemma is_nan_Prim2SF (x : number) :
  is_nan x = false <-> Prim2SF x <> S754_nan.
Proof.
  rewrite is_nan_rank.
  destruct (Prim2SF x) as [s | s | | s m e]; cbn [rank];
    split; intro H; try reflexivity; try discriminate; congruence.
Qed.

Lemma js_of_nat_not_nan (n : nat) : is_nan (js_of_nat n) = false.
Proof.
  apply is_nan_Prim2SF. unfold js_of_nat.
  rewrite FloatAxioms.of_uint63_spec. apply binary_normalize_not_nan.
Qed.

(** The product with a finite number other than zero, and the sum with a
    finite number, of a number that is not NaN. *)
Lemma mul_not_nan (x y : number) :
  is_nan x = false ->
  (exists s m e, Prim2SF y = S754_finite s m e) ->
  is_nan (x * y)%float = false.
Proof.
  rewrite !is_nan_Prim2SF, FloatAxioms.mul_spec.
  intros Hx (s & m & e & ->). unfold SF64mul, SFmul.
  destruct (Prim2SF x) as [sx | sx | | sx mx ex];
    [ discriminate | discriminate | contradiction |].
  apply binary_round_aux_not_nan. lia.
Qed.

Lemma add_not_nan (x y : number) :
  is_nan x = false ->
  (exists s m e, Prim2SF y = S754_finite s m e) ->
  is_nan (x + y)%float = false.
Proof.
  rewrite !is_nan_Prim2SF, FloatAxioms.add_spec.
  intros Hx (s & m & e & ->). unfold SF64add, SFadd.
  destruct (Prim2SF x) as [sx | sx | | sx mx ex];
    [ discriminate | discriminate | contradiction |].
  apply binary_normalize_not_nan.
Qed.

Lemma sub_not_nan (x y : number) :
  is_nan x = false ->
  (exists s m e, Prim2SF y = S754_finite s m e) ->
  is_nan (x - y)%float = false.
Proof.
  rewrite !is_nan_Prim2SF, FloatAxioms.sub_spec.
  intros Hx (s & m & e & ->). unfold SF64sub, SFsub.
  destruct (Prim2SF x) as [sx | sx | | sx mx ex];
    [ discriminate | discriminate | contradiction |].
  apply binary_normalize_not_nan.
Qed.

Lemma div_not_nan (x y : number) :
  is_nan x = false ->
  (exists s m e, Prim2SF y = S754_finite s m e) ->
  is_nan (x / y)%float = false.
Proof.
  rewrite !is_nan_Prim2SF, FloatAxioms.div_spec.
  intros Hx (s & m & e & ->). unfold SF64div, SFdiv.
  destruct (Prim2SF x) as [sx | sx | | sx mx ex];
    [ discriminate | discriminate | contradiction |].
  unfold SFdiv_core_binary.
  set (m' := match (_ - _ - _)%Z with
             | Z0 => Zpos mx
             | Zpos _ => Z.shiftl (Zpos mx) _
             | Zneg _ => Z0
             end).
  assert (P : (0 <= m')%Z).
  { unfold m'. destruct (_ - _ - _)%Z; try lia.
    apply Z.shiftl_nonneg. lia. }
  pose proof (Z.div_pos m' (Zpos m) P ltac:(lia)) as Q.
  unfold Z.div in Q.
  destruct (Z.div_eucl m' (Zpos m)) as [q r]. cbn [fst] in Q.
  apply binary_round_aux_not_nan. exact Q.
Qed.

Lemma Math_ceil_not_nan (x : number) :
  is_nan x = false -> is_nan (Math_ceil x) = false.
Proof.
  intro H. unfold Math_ceil. rewrite H.
  assert (F52 : exists s m e, Prim2SF two52 = S754_finite s m e)
    by (vm_compute; eauto).
  assert (F1 : exists s m e, Prim2SF 1%float = S754_finite s m e)
    by (vm_compute; eauto).
  destruct (two52 <=? abs x)%float; [ exact H |].
  destruct (is_zero x); [ exact H |].
  destruct (0 <? x)%float.
  - assert (R : is_nan (x + two52 - two52)%float = false)
      by (apply sub_not_nan; [ apply add_not_nan |]; assumption).
    destruct (x + two52 - two52 <? x)%float; [| exact R ].
    apply add_not_nan; assumption.
  - assert (R : is_nan (x - two52 + two52)%float = false)
      by (apply add_not_nan; [ apply sub_not_nan |]; assumption).
    assert (C : is_nan (if (x - two52 + two52 <? x)%float
                        then (x - two52 + two52 + 1)%float
                        else (x - two52 + two52)%float) = false).
    { destruct (x - two52 + two52 <? x)%float; [| exact R ].
      apply add_not_nan; assumption. }
    cbv zeta. destruct (is_zero _); [ reflexivity | exact C ].
Qed.

Lemma leb_rank (x y : number) :
  (x <=? y)%float = true
  <-> match rank (Prim2SF x), rank (Prim2SF y) with
      | Some a, Some b => ~ rank_lt b a
      | _, _ => False
      end.
Proof.
  rewrite FloatAxioms.leb_spec.
  unfold SFleb, SFcompare, rank, rank_lt.
  destruct (Prim2SF x) as [sx | sx | | sx mx ex],
           (Prim2SF y) as [sy | sy | | sy my ey];
    try destruct sx; try destruct sy;
    try change (Pos.compare_cont Eq mx my) with (Pos.compare mx my);
    try destruct (Z.compare_spec ex ey);
    try destruct (Pos.compare_spec mx my);
    cbn [CompOpp];
    (split; intro Hle;
     first [ discriminate Hle | contradiction | reflexivity | lia ]).
Qed.

Lemma leb_of_not_ltb (x y : number) :
  is_nan x = false -> is_nan y = false ->
  (y <? x)%float = false -> (x <=? y)%float = true.
Proof.
  rewrite !is_nan_rank. intros Hx Hy H. apply leb_rank.
  destruct (rank (Prim2SF x)) as [a |] eqn:Rx; [| discriminate ].
  destruct (rank (Prim2SF y)) as [b |] eqn:Ry; [| discriminate ].
  intro L.
  assert (B : below y x) by (unfold below; rewrite Rx, Ry; exact L).
  apply ltb_below in B. congruence.
Qed.

Lemma leb_not_nan (x y : number) :
  (x <=? y)%float = true -> is_nan x = false /\ is_nan y = false.
Proof.
  rewrite leb_rank, !is_nan_rank.
  destruct (rank (Prim2SF x)); [| contradiction ].
  destruct (rank (Prim2SF y)); [| contradiction ]. auto.
Qed.

Lemma Math_max_ge (a b : number) :
  is_nan a = false -> is_nan b = false ->
  (a <=? Math_max a b)%float = true /\ (b <=? Math_max a b)%float = true.
Proof.
  intros Ha Hb. unfold Math_max. rewrite Ha, Hb. cbn [orb].
  destruct (a <? b)%float eqn:Hab.
  - split; apply leb_of_not_ltb; try assumption;
      [| apply ltb_irrefl ].
    destruct (b <? a)%float eqn:Hba; [| reflexivity ].
    rewrite <- (ltb_irrefl a). symmetry. exact (ltb_trans _ _ _ Hab Hba).
  - destruct (b <? a)%float eqn:Hba.
    + split; apply leb_of_not_ltb; try assumption; apply ltb_irrefl.
    + destruct (is_neg_zero a); split; apply leb_of_not_ltb;
        try assumption; apply ltb_irrefl.
Qed.

Lemma Math_min_le (a b : number) :
  is_nan a = false -> is_nan b = false ->
  (Math_min a b <=? a)%float = true /\ (Math_min a b <=? b)%float = true
  /\ (Math_min a b = a \/ Math_min a b = b).
Proof.
  intros Ha Hb. unfold Math_min. rewrite Ha, Hb. cbn [orb].
  destruct (a <? b)%float eqn:Hab.
  - split; [| split; [| left; reflexivity ]]; apply leb_of_not_ltb;
      try assumption; [ apply ltb_irrefl |].
    destruct (b <? a)%float eqn:Hba; [| reflexivity ].
    rewrite <- (ltb_irrefl a). symmetry. exact (ltb_trans _ _ _ Hab Hba).
  - destruct (b <? a)%float eqn:Hba.
    + split; [| split; [| right; reflexivity ]]; apply leb_of_not_ltb;
        try assumption; apply ltb_irrefl.
    + destruct (is_neg_zero a);
        (split; [| split; [| auto ]]); apply leb_of_not_ltb;
        try assumption; apply ltb_irrefl.
Qed.

(** ** The extents of the layouts *)

(** X13.  Whatever the number of layers, the radius of the circular layout
    lies between [200] and [300], the canvas height of the vertical and of
    the horizontal layout is at least [600], and the canvas height of the
    tree layout is at most [1000]; none of them is NaN. *)
Theorem layout_extents_are_bounded :
  forall (layerCount : nat) (old : css_length),
    (200 <=? circular_radius layerCount)%float = true
    /\ (circular_radius layerCount <=? 300)%float = true
    /\ (exists h, canvas_height_for "vertical" layerCount old = css_px h
                  /\ (600 <=? h)%float = true)
    /\ (exists h, canvas_height_for "horizontal" layerCount old = css_px h
                  /\ (600 <=? h)%float = true)
    /\ (exists h, canvas_height_for "tree" layerCount old = css_px h
                  /\ (h <=? 1000)%float = true).
Proof.
  intros n old.
  pose proof (js_of_nat_not_nan n) as Hn.
  assert (H15 : is_nan (js_of_nat n * 15)%float = false)
    by (apply mul_not_nan; [ exact Hn | vm_compute; eauto ]).
  assert (H150 : is_nan (js_of_nat n * 150 + 100)%float = false).
  { apply add_not_nan; [| vm_compute; eauto ].
    apply mul_not_nan; [ exact Hn | vm_compute; eauto ]. }
  assert (H180 : is_nan (Math_ceil (js_of_nat n / 3) * 180 + 100)%float
                 = false).
  { apply add_not_nan; [| vm_compute; eauto ].
    apply mul_not_nan; [| vm_compute; eauto ].
    apply Math_ceil_not_nan.
    apply div_not_nan; [ exact Hn | vm_compute; eauto ]. }
  assert (H10 : is_nan (400 + js_of_nat n * 10)%float = false).
  { apply is_nan_Prim2SF. rewrite FloatAxioms.add_spec.
    assert (M : is_nan (js_of_nat n * 10)%float = false)
      by (apply mul_not_nan; [ exact Hn | vm_compute; eauto ]).
    apply is_nan_Prim2SF in M.
    let c := eval vm_compute in (Prim2SF 400%float) in
    change (Prim2SF 400%float) with c.
    unfold SF64add, SFadd.
    destruct (Prim2SF (js_of_nat n * 10)%float) as [sx | sx | | sx mx ex];
      [ discriminate | discriminate | contradiction |].
    apply binary_normalize_not_nan. }
  destruct (Math_max_ge 200%float (js_of_nat n * 15)%float eq_refl H15)
    as [M1 _].
  destruct (leb_not_nan _ _ M1) as [_ M2].
  destruct (Math_min_le 300%float _ eq_refl M2) as (R1 & _ & R3).
  split; [| split; [ exact R1 | split; [| split ]]].
  - unfold circular_radius. destruct R3 as [-> | ->];
      [ reflexivity | exact M1 ].
  - eexists. split; [ reflexivity |].
    apply (Math_max_ge 600%float _ eq_refl H150).
  - eexists. split; [ reflexivity |].
    apply (Math_max_ge 600%float _ eq_refl H180).
  - eexists. split; [ reflexivity |].
    apply (Math_min_le _ 1000%float H10 eq_refl).
Qed.

(** ** The layout buttons of the host *)

Lemma layoutMap_kind (b : ToolbarLayout) : In (layoutMap b) LayoutKinds.
Proof. destruct b; cbn; tauto. Qed.

Lemma currentLayout_visualize (v : Visualizer) (m : ModelMetadata)
      (k : string) :
  In k LayoutKinds ->
  currentLayout (state_of (visualize' v m (Some k))) = k.
Proof.
  intro Hk. unfold visualize. rewrite (truthy_kind k Hk).
  destruct (render_layout _ _ _ _ _) as [[size els] |]; cbn [state_of];
    [| reflexivity ].
  match goal with
  | |- context [render ?w] => destruct (model_render w) as [_ ->]
  end.
  reflexivity.
Qed.

(** X14.  The four layout buttons of the host send four different kinds of
    the enumeration to the engine.  With a model loaded the engine renders
    it under that kind, which becomes the current layout.  The call returns
    unless the button is [force] and a layer type is an inherited property
    name; when it returns, the pressed button alone is marked active; when
    it throws, the marks are left as they were while the engine has moved to
    the tree layout and its canvas has no container. *)
Theorem toolbar_sends_only_known_layout_kinds :
  forall (app : LucefactApp.t) (v : Visualizer) (m : ModelMetadata)
         (b : ToolbarLayout),
    LucefactApp.visualizer app = Some v ->
    currentMetadata v = Some m ->
    let called := host_setLayout app b in
    let kind := layoutMap b in
    In kind LayoutKinds
    /\ (forall b', layoutMap b' = kind -> b' = b)
    /\ LucefactApp.visualizer (state_of called)
       = Some (state_of (visualize' v m (Some kind)))
    /\ option_map currentLayout (LucefactApp.visualizer (state_of called))
       = Some kind
    /\ returns called
       = (negb (ToolbarLayout_eqb b force)
          || forallb (fun l => negb (inherited (type l))) (layers m))
    /\ (returns called = true -> LucefactApp.active (state_of called) = [b])
    /\ (returns called = false ->
        LucefactApp.active (state_of called) = LucefactApp.active app
        /\ option_map (fun w => viz_container (canvas w))
             (LucefactApp.visualizer (state_of called)) = Some None).
Proof.
  intros app v m b Hv Hm called kind.
  pose proof (layoutMap_kind b) as Hk. fold kind in Hk.
  assert (S : setLayout' v kind = visualize' v m (Some kind))
    by (unfold setLayout; rewrite Hm; reflexivity).
  assert (R : returns (visualize' v m (Some kind))
              = (negb (ToolbarLayout_eqb b force)
                 || forallb (fun l => negb (inherited (type l))) (layers m))).
  { destruct b; cbn [ToolbarLayout_eqb negb orb];
      try (destruct (layout_counts Math_cos Math_sin Math_atan2 v m kind)
             as [Chain _];
           apply Chain; unfold kind, ChainLayouts; cbn; tauto).
    apply visualize_tree_returns. }
  assert (C : called
              = match visualize' v m (Some kind) with
                | Normal v' =>
                    Normal {| LucefactApp.visualizer := Some v';
                              LucefactApp.active := [b] |}
                | Throw v' =>
                    Throw {| LucefactApp.visualizer := Some v';
                             LucefactApp.active := LucefactApp.active app |}
                end).
  { unfold called, LucefactApp.setLayout. rewrite Hv. fold kind. rewrite S.
    destruct b; reflexivity. }
  split; [ exact Hk |].
  split; [ intros b' E; destruct b, b'; (reflexivity || discriminate E) |].
  pose proof (currentLayout_visualize v m kind Hk) as L.
  rewrite C, <- R.
  destruct (visualize' v m (Some kind)) as [v' | v'] eqn:V;
    cbn [state_of returns LucefactApp.visualizer LucefactApp.active option_map]
    in *.
  - rewrite L.
    split; [ reflexivity |]. split; [ reflexivity |]. split; [ reflexivity |].
    split; [ reflexivity | intro X; discriminate X ].
  - rewrite L.
    split; [ reflexivity |]. split; [ reflexivity |]. split; [ reflexivity |].
    split; [ intro X; discriminate X |]. intros _.
    split; [ reflexivity |]. f_equal.
    pose proof (surface_visualize Math_cos Math_sin Math_atan2 v m (Some kind))
      as SV.
    cbv zeta in SV. rewrite (truthy_kind kind Hk) in SV.
    destruct (render_layout _ _ _ kind m) as [[size els] |];
      destruct SV as (SV & _); rewrite SV in V; [ discriminate V |].
    injection V as <-. reflexivity.
Qed.

(** ** The model history *)

Lemma In_firstn {A} (n : nat) (xs : list A) (x : A) :
  In x (firstn n xs) -> In x xs.
Proof.
  revert n. induction xs as [| y xs IH]; intros n H.
  - destruct n; destruct H.
  - destruct n; [ destruct H |].
    destruct H as [-> | H]; [ left; reflexivity | right; exact (IH n H) ].
Qed.

Lemma filter_firstn_keep {A} (p : A -> bool) (n : nat) (xs : list A) :
  Forall (fun x => p x = true) xs -> filter p (firstn n xs) = firstn n xs.
Proof.
  intro H. revert n. induction H as [| x xs Hx _ IH]; intro n.
  - destruct n; reflexivity.
  - destruct n; [ reflexivity |]. cbn [firstn filter]. rewrite Hx, IH.
    reflexivity.
Qed.

Lemma Forall_filter_true {A} (p : A -> bool) (xs : list A) :
  Forall (fun x => p x = true) (filter p xs).
Proof.
  apply Forall_forall. intros x Hx. apply filter_In in Hx. tauto.
Qed.

Lemma NoDup_map_filter {A B} (f : A -> B) (p : A -> bool) (xs : list A) :
  NoDup (map f xs) -> NoDup (map f (filter p xs)).
Proof.
  induction xs as [| x xs IH]; intro H; [ constructor |].
  cbn [map] in H. apply NoDup_cons_iff in H. destruct H as [Hx H].
  cbn [filter]. destruct (p x); [| exact (IH H) ].
  cbn [map]. constructor; [| exact (IH H) ].
  intro Hin. apply Hx. apply in_map_iff in Hin.
  destruct Hin as (y & E & Hy). apply filter_In in Hy.
  apply in_map_iff. exists y. tauto.
Qed.

Lemma NoDup_map_firstn {A B} (f : A -> B) (n : nat) (xs : list A) :
  NoDup (map f xs) -> NoDup (map f (firstn n xs)).
Proof.
  revert n. induction xs as [| x xs IH]; intros n H.
  - destruct n; constructor.
  - destruct n; [ constructor |].
    cbn [map] in H. apply NoDup_cons_iff in H. destruct H as [Hx H].
    cbn [firstn map]. constructor; [| exact (IH n H) ].
    intro Hin. apply Hx. apply in_map_iff in Hin.
    destruct Hin as (y & E & Hy). apply in_map_iff. exists y.
    split; [ exact E |]. exact (In_firstn _ _ _ Hy).
Qed.

(** X15.  [addToHistory] puts the entry of the model first, with the time
    of the call, and keeps after it the earlier entries of other file names,
    in their order, as far as ten entries in all.  The result has one entry
    for the file name of the model, at most ten entries, and no file name
    twice if the history had none twice.  Adding the same file again only
    replaces its entry: the result is the one of adding it once, at the
    later time. *)
Theorem history_keeps_the_latest_entry_of_each_file :
  forall (now later : number) (metadata : ModelMetadata)
         (totals totals' : ModelTotals) (modelHistory : list HistoryItem.t),
    let item :=
      {| HistoryItem.fileName := fileName metadata;
         HistoryItem.framework := framework totals;
         HistoryItem.timestamp := now;
         HistoryItem.layers := totalLayers totals;
         HistoryItem.params := totalParameters totals |} in
    let others :=
      filter (fun h => negb (String.eqb (HistoryItem.fileName h)
                               (fileName metadata)))
             modelHistory in
    let added := LucefactApp.addToHistory now metadata totals modelHistory in
    added = item :: firstn 9 others
    /\ List.length added = Nat.min 10 (S (List.length others))
    /\ List.length added <= 10
    /\ count_occ string_dec (map HistoryItem.fileName added)
         (fileName metadata) = 1
    /\ (forall h, In h (tl added) ->
                  In h modelHistory
                  /\ HistoryItem.fileName h <> fileName metadata)
    /\ (NoDup (map HistoryItem.fileName modelHistory) ->
        NoDup (map HistoryItem.fileName added))
    /\ LucefactApp.addToHistory later metadata totals' added
       = LucefactApp.addToHistory later metadata totals' modelHistory.
Proof.
  intros now later metadata totals totals' modelHistory item others added.
  assert (A : added = item :: firstn 9 others) by reflexivity.
  assert (O : Forall (fun h => negb (String.eqb (HistoryItem.fileName h)
                                       (fileName metadata)) = true) others)
    by apply Forall_filter_true.
  assert (N : ~ In (fileName metadata)
                (map HistoryItem.fileName (firstn 9 others))).
  { intro Hin. apply in_map_iff in Hin. destruct Hin as (h & E & Hh).
    apply In_firstn in Hh. rewrite Forall_forall in O.
    specialize (O h Hh). rewrite E, String.eqb_refl in O. discriminate. }
  split; [ exact A |].
  split; [| split; [| split; [| split; [| split ]]]].
  - rewrite A. cbn [List.length]. rewrite length_firstn. lia.
  - rewrite A. cbn [List.length]. rewrite length_firstn. lia.
  - rewrite A. cbn [map HistoryItem.fileName item count_occ].
    destruct (string_dec (fileName metadata) (fileName metadata));
      [| contradiction ].
    f_equal. apply (proj1 (count_occ_not_In string_dec _ _)). exact N.
  - rewrite A. cbn [tl]. intros h Hh. apply In_firstn in Hh.
    apply filter_In in Hh. destruct Hh as [Hh E]. split; [ exact Hh |].
    intro X. rewrite X, String.eqb_refl in E. discriminate.
  - intro Hnd. rewrite A. cbn [map]. constructor; [ exact N |].
    apply NoDup_map_firstn. apply NoDup_map_filter. exact Hnd.
  - rewrite A. unfold LucefactApp.addToHistory. cbv zeta.
    cbn [HistoryItem.fileName filter item].
    rewrite String.eqb_refl. cbn [negb].
    rewrite (filter_firstn_keep _ 9 others O).
    fold others. rewrite !firstn_cons, firstn_firstn. reflexivity.
Qed.

(** ** The extension of a file name *)

Lemma split_not_nil (sep : ascii) (s : string) : split sep s <> [].
Proof.
  destruct s as [| c t]; cbn [split]; [ discriminate |].
  destruct (Ascii.eqb c sep); [ discriminate |].
  destruct (split sep t); discriminate.
Qed.

Lemma includes_dot_cons (c : ascii) (t : string) :
  includes "." (String c t) = Ascii.eqb c "." || includes "." t.
Proof.
  cbn [includes String.prefix].
  destruct (ascii_dec "." c) as [E | N].
  - subst c. destruct t; reflexivity.
  - destruct (Ascii.eqb_spec c ".") as [-> | _]; [ contradiction |].
    reflexivity.
Qed.

Lemma split_no_dot (s : string) :
  includes "." s = false -> split "." s = [s].
Proof.
  induction s as [| c t IH]; intro H; [ reflexivity |].
  rewrite includes_dot_cons in H. apply orb_false_iff in H.
  destruct H as [Hc Ht]. cbn [split]. rewrite Hc, (IH Ht). reflexivity.
Qed.

Lemma split_append (sep : ascii) (a b : string) :
  split sep (String.append a (String sep b)) = split sep a ++ split sep b.
Proof.
  induction a as [| c t IH]; cbn [String.append split].
  - rewrite Ascii.eqb_refl. reflexivity.
  - rewrite IH. destruct (Ascii.eqb c sep); [ reflexivity |].
    pose proof (split_not_nil sep t) as N.
    destruct (split sep t) as [| part parts]; [ contradiction | reflexivity ].
Qed.

Lemma nth_last_app {A} (l : list A) (x d : A) :
  nth (List.length (l ++ [x]) - 1) (l ++ [x]) d = x.
Proof.
  rewrite length_app. cbn [List.length].
  replace (List.length l + 1 - 1) with (List.length l) by lia.
  apply nth_middle.
Qed.

(** X16.  The extension of a file name is the lower-case form, as
    [toLowerCase] gives it, of what follows its last dot, and of the whole
    name when it has no dot.  The
    parser is chosen by it alone: whatever precedes the last dot, the file
    goes to the parser of the extension, and an extension that has no
    parser gives the error that names it in lower case.  For an extension
    of ASCII characters the lower-case form is the one of the letters A to
    Z, so two file names whose extensions are the same up to letter case go
    to the same parser. *)
Theorem parser_is_chosen_by_the_last_extension :
  forall (base ext : string),
    includes "." ext = false ->
    ModelParser.getFileExtension (String.append base (String "." ext))
    = toLowerCase ext
    /\ ModelParser.getFileExtension ext = toLowerCase ext
    /\ ModelParser.parser_of (String.append base (String "." ext))
       = ModelParser.parser_of ext
    /\ match ModelParser.parser_of (String.append base (String "." ext)) with
       | inl tensorflowParser => In (toLowerCase ext) ["h5"; "keras"]
       | inl pytorchParser => In (toLowerCase ext) ["pt"; "pth"]
       | inl onnxParser => toLowerCase ext = "onnx"
       | inl pickleParser => In (toLowerCase ext) ["pkl"; "pickle"]
       | inr error =>
           error
           = String.append "Unsupported file format: ." (toLowerCase ext)
       end
    /\ (isASCII ext = true ->
        ModelParser.getFileExtension (String.append base (String "." ext))
        = toLowerCase_ASCII ext
        /\ forall base' ext' : string,
             isASCII ext' = true ->
             includes "." ext' = false ->
             same_letters ext ext' = true ->
             ModelParser.parser_of (String.append base' (String "." ext'))
             = ModelParser.parser_of (String.append base (String "." ext))).
Proof.
  intros base ext H.
  assert (E1 : forall b e,
             includes "." e = false ->
             ModelParser.getFileExtension (String.append b (String "." e))
             = toLowerCase e).
  { intros b e He. unfold ModelParser.getFileExtension. cbv zeta.
    rewrite split_append, (split_no_dot e He), nth_last_app. reflexivity. }
  assert (E2 : ModelParser.getFileExtension ext = toLowerCase ext).
  { unfold ModelParser.getFileExtension. cbv zeta.
    rewrite (split_no_dot ext H). reflexivity. }
  split; [ exact (E1 base ext H) |]. split; [ exact E2 |].
  split; [ unfold ModelParser.parser_of; cbv zeta;
           rewrite (E1 base ext H), E2; reflexivity |].
  split.
  { unfold ModelParser.parser_of. cbv zeta. rewrite (E1 base ext H).
    set (e := toLowerCase ext).
    destruct (String.eqb_spec e "h5") as [-> | _]; [ left; reflexivity |].
    destruct (String.eqb_spec e "keras") as [-> | _];
      [ right; left; reflexivity |].
    destruct (String.eqb_spec e "pt") as [-> | _]; [ left; reflexivity |].
    destruct (String.eqb_spec e "pth") as [-> | _];
      [ right; left; reflexivity |].
    destruct (String.eqb_spec e "onnx") as [-> | _]; [ reflexivity |].
    destruct (String.eqb_spec e "pkl") as [-> | _]; [ left; reflexivity |].
    destruct (String.eqb_spec e "pickle") as [-> | _];
      [ right; left; reflexivity |].
    reflexivity. }
  intro A. split.
  { rewrite (E1 base ext H). apply toLowerCase_isASCII. exact A. }
  intros base' ext' A' H' S.
  unfold ModelParser.parser_of. cbv zeta.
  rewrite (E1 base ext H), (E1 base' ext' H').
  rewrite (toLowerCase_isASCII ext A), (toLowerCase_isASCII ext' A').
  apply same_letters_lower in S. rewrite S. reflexivity.
Qed.

(** ** Choosing the best element with [reduce] *)

Section Best.

Context {A : Type} (beats : A -> A -> bool).
Hypothesis beats_irrefl : forall x, beats x x = false.
Hypothesis beats_trans :
  forall x y z, beats x y = true -> beats y z = true -> beats x z = true.

Lemma reduce_best (xs : list A) :
  forall cur : A,
    let r := reduce (fun best x => if beats x best then x else best) xs cur in
    beats cur r = false
    /\ (forall x, In x xs -> beats x r = false)
    /\ (r = cur \/ (In r xs /\ beats r cur = true)).
Proof.
  unfold reduce.
  induction xs as [| x rest IH]; intro cur; cbn [fold_left].
  - split; [ apply beats_irrefl |]. split; [ intros x [] | left; reflexivity ].
  - destruct (beats x cur) eqn:B.
    + destruct (IH x) as (Ha & Hb & Hc).
      set (r := fold_left _ rest x) in *.
      assert (Rc : beats r cur = true).
      { destruct Hc as [-> | [_ Hr]]; [ exact B |].
        exact (beats_trans _ _ _ Hr B). }
      split; [| split ].
      * destruct (beats cur r) eqn:C; [| reflexivity ].
        rewrite <- (beats_irrefl cur). symmetry.
        exact (beats_trans _ _ _ C Rc).
      * intros y [<- | Hy]; [ exact Ha | exact (Hb y Hy) ].
      * right. split; [| exact Rc ].
        destruct Hc as [-> | [Hr _]]; [ left; reflexivity | right; exact Hr ].
    + destruct (IH cur) as (Ha & Hb & Hc).
      set (r := fold_left _ rest cur) in *.
      split; [ exact Ha |]. split.
      * intros y [E | Hy]; [ subst y | exact (Hb y Hy) ].
        destruct Hc as [-> | [_ Hr]]; [ exact B |].
        destruct (beats x r) eqn:C; [| reflexivity ].
        rewrite <- B. symmetry. exact (beats_trans _ _ _ C Hr).
      * destruct Hc as [-> | [Hr Hrc]]; [ left; reflexivity |].
        right. split; [ right; exact Hr | exact Hrc ].
Qed.

End Best.

Lemma reduce_most (xs : list ModelLayer) (cur : ModelLayer) :
  let r := reduce (fun max layer =>
                     if (parameters max <? parameters layer)%float
                     then layer else max) xs cur in
  (r = cur \/ In r xs)
  /\ (parameters r <? parameters cur)%float = false
  /\ forall x, In x xs -> (parameters r <? parameters x)%float = false.
Proof.
  destruct (reduce_best
              (fun x y => (parameters y <? parameters x)%float)
              (fun x => ltb_irrefl (parameters x))
              (fun x y z Hxy Hyz => ltb_trans _ _ _ Hyz Hxy) xs cur)
    as (Ha & Hb & Hc).
  cbv zeta. split; [| split ].
  - destruct Hc as [-> | [Hr _]]; auto.
  - exact Ha.
  - exact Hb.
Qed.

Lemma reduce_least (xs : list ModelLayer) (cur : ModelLayer) :
  let r := reduce (fun min layer =>
                     if (parameters layer <? parameters min)%float
                     then layer else min) xs cur in
  (r = cur \/ In r xs)
  /\ (parameters cur <? parameters r)%float = false
  /\ forall x, In x xs -> (parameters x <? parameters r)%float = false.
Proof.
  destruct (reduce_best
              (fun x y => (parameters x <? parameters y)%float)
              (fun x => ltb_irrefl (parameters x))
              (fun x y z Hxy Hyz => ltb_trans _ _ _ Hxy Hyz) xs cur)
    as (Ha & Hb & Hc).
  cbv zeta. split; [| split ].
  - destruct Hc as [-> | [Hr _]]; auto.
  - exact Ha.
  - exact Hb.
Qed.

Lemma mostComplexLayer_spec (ls : list ModelLayer) :
  match mostComplexLayer ls with
  | Some r =>
      In r ls
      /\ forall l, In l ls -> (parameters r <? parameters l)%float = false
  | None => ls = []
  end.
Proof.
  unfold mostComplexLayer. destruct ls as [| first rest]; [ reflexivity |].
  destruct (reduce_most (first :: rest) first) as (Hin & _ & Hmax).
  split; [| exact Hmax ].
  destruct Hin as [-> | Hin]; [ left; reflexivity | exact Hin ].
Qed.

(** X17.  The layers that the insights report as extremes.  The most
    complex layer is a layer of the model that no layer exceeds in
    parameters; there is none only for a model without layers.  The largest
    layer has a positive parameter count that no layer of the model exceeds;
    the smallest layer has a positive parameter count, and no layer with a
    positive count has fewer.  Both are the placeholder [N/A] with [0]
    exactly together, which is when no layer has a positive count. *)
Theorem insights_report_the_extreme_layers :
  forall (ls : list ModelLayer),
    match mostComplexLayer ls with
    | Some r =>
        In r ls
        /\ forall l, In l ls -> (parameters r <? parameters l)%float = false
    | None => ls = []
    end
    /\ match largestLayer ls with
       | Some r =>
           In r ls /\ (0 <? parameters r)%float = true
           /\ forall l, In l ls -> (parameters r <? parameters l)%float = false
       | None => forall l, In l ls -> (0 <? parameters l)%float = false
       end
    /\ match smallestLayer ls with
       | Some r =>
           In r ls /\ (0 <? parameters r)%float = true
           /\ forall l, In l ls -> (0 <? parameters l)%float = true ->
                        (parameters l <? parameters r)%float = false
       | None => forall l, In l ls -> (0 <? parameters l)%float = false
       end
    /\ (reported (largestLayer ls) = ("N/A", 0%float)
        <-> reported (smallestLayer ls) = ("N/A", 0%float)).
Proof.
  intro ls.
  assert (Empty : layersWithParams ls = [] ->
                  forall l, In l ls -> (0 <? parameters l)%float = false).
  { intros E l Hl.
    destruct (0 <? parameters l)%float eqn:P; [| reflexivity ].
    assert (X : In l (layersWithParams ls))
      by (apply filter_In; split; assumption).
    rewrite E in X. destruct X. }
  split; [ apply mostComplexLayer_spec |].
  split; [| split ].
  - unfold largestLayer.
    pose proof (mostComplexLayer_spec (layersWithParams ls)) as M.
    destruct (mostComplexLayer (layersWithParams ls)) as [r |].
    + destruct M as [Hin Hmax]. apply filter_In in Hin.
      destruct Hin as [Hin Hpos]. split; [ exact Hin |].
      split; [ exact Hpos |].
      intros l Hl. destruct (0 <? parameters l)%float eqn:P.
      * apply Hmax. apply filter_In. split; assumption.
      * destruct (parameters r <? parameters l)%float eqn:C; [| reflexivity ].
        rewrite <- P. symmetry. exact (ltb_trans _ _ _ Hpos C).
    + exact (Empty M).
  - unfold smallestLayer.
    destruct (layersWithParams ls) as [| first rest] eqn:W;
      [ exact (Empty eq_refl) |].
    destruct (reduce_least (first :: rest) first) as (Hin & _ & Hmin).
    assert (Hr : In (reduce (fun min layer =>
                               if (parameters layer <? parameters min)%float
                               then layer else min) (first :: rest) first)
                    (layersWithParams ls)).
    { rewrite W.
      destruct Hin as [-> | Hin]; [ left; reflexivity | exact Hin ]. }
    apply filter_In in Hr. destruct Hr as [Hr Hpos].
    split; [ exact Hr |]. split; [ exact Hpos |].
    intros l Hl P. apply Hmin. rewrite <- W. apply filter_In. split; assumption.
  - unfold largestLayer, smallestLayer, mostComplexLayer.
    destruct (layersWithParams ls) as [| first rest] eqn:W;
      [ split; reflexivity |].
    cbn [reported].
    destruct (reduce_most (first :: rest) first) as (Hin1 & _).
    destruct (reduce_least (first :: rest) first) as (Hin2 & _).
    assert (P : forall r, (r = first \/ In r (first :: rest)) ->
                          parameters r <> 0%float).
    { intros r Hr E.
      assert (X : In r (layersWithParams ls))
        by (rewrite W; destruct Hr as [-> | Hr];
            [ left; reflexivity | exact Hr ]).
      apply filter_In in X. destruct X as [_ X]. rewrite E in X.
      vm_compute in X. discriminate. }
    split; intro E; exfalso.
    + apply (P _ Hin1). congruence.
    + apply (P _ Hin2). congruence.
Qed.

(** ** The layers the parsers make up *)

Lemma extract_loop_nth (P : nat -> ModelLayer -> Prop)
      (body : nat -> list ModelLayer -> nat -> ModelLayer * nat) :
  (forall i layers calls,
      List.length layers = i -> P i (fst (body i layers calls))) ->
  forall remaining i layers calls,
    List.length layers = i ->
    (forall j l, nth_error layers j = Some l -> P j l) ->
    List.length (fst (extract_loop body remaining i layers calls))
    = i + remaining
    /\ forall j l,
         nth_error (fst (extract_loop body remaining i layers calls)) j
         = Some l -> P j l.
Proof.
  intro H. induction remaining as [| r IH]; intros i layers calls L Hl.
  - cbn [extract_loop fst]. split; [ lia | exact Hl ].
  - cbn [extract_loop]. specialize (H i layers calls L).
    destruct (body i layers calls) as [l calls']. cbn [fst] in H.
    destruct (IH (S i) (layers ++ [l]) calls') as [IL IN].
    + rewrite length_app. cbn [List.length]. lia.
    + intros j x Hj.
      destruct (Nat.lt_ge_cases j (List.length layers)) as [Lt | Ge].
      * rewrite nth_error_app1 in Hj by exact Lt. exact (Hl j x Hj).
      * rewrite nth_error_app2 in Hj by exact Ge.
        destruct (j - List.length layers) as [| k] eqn:D.
        -- cbn in Hj. injection Hj as <-.
           replace j with i by lia. exact H.
        -- destruct k; discriminate Hj.
    + split; [ lia | exact IN ].
Qed.

(** *** Names that end in an index *)

Lemma string_of_uint_inj (d d' : Decimal.uint) :
  DecimalString.NilEmpty.string_of_uint d
  = DecimalString.NilEmpty.string_of_uint d' -> d = d'.
Proof.
  intro E.
  pose proof (DecimalString.NilEmpty.usu d) as U.
  rewrite E, DecimalString.NilEmpty.usu in U. congruence.
Qed.

Lemma string_of_nat_inj (n n' : nat) :
  string_of_nat n = string_of_nat n' -> n = n'.
Proof.
  intro E. apply DecimalNat.Unsigned.to_uint_inj, string_of_uint_inj, E.
Qed.

Lemma split_string_of_nat (n : nat) :
  split "_" (string_of_nat n) = [string_of_nat n].
Proof.
  unfold string_of_nat.
  induction (Nat.to_uint n) as [| d IH | d IH | d IH | d IH | d IH | d IH
                                | d IH | d IH | d IH | d IH];
    cbn [DecimalString.NilEmpty.string_of_uint split]; try reflexivity;
    rewrite IH; reflexivity.
Qed.

(** What follows the last underscore of a name. *)
Lemma index_of_name (prefix : string) (n : nat) :
  let parts :=
    split "_" (String.append prefix (String.append "_" (string_of_nat n))) in
  nth (List.length parts - 1) parts EmptyString = string_of_nat n.
Proof.
  cbv zeta. change (String.append "_" (string_of_nat n))
    with (String "_" (string_of_nat n)).
  rewrite split_append, split_string_of_nat. apply nth_last_app.
Qed.

Lemma indexed_names_inj (prefix : nat -> string) (shift : nat -> nat)
      (i j : nat) :
  (forall a b, shift a = shift b -> a = b) ->
  String.append (prefix i) (String.append "_" (string_of_nat (shift i)))
  = String.append (prefix j) (String.append "_" (string_of_nat (shift j))) ->
  i = j.
Proof.
  intros Hs E. apply Hs, string_of_nat_inj.
  rewrite <- (index_of_name (prefix i) (shift i)).
  rewrite <- (index_of_name (prefix j) (shift j)).
  cbv zeta. rewrite E. reflexivity.
Qed.

Lemma NoDup_map_seq {A} (f : nat -> A) (a n : nat) :
  (forall i j, f i = f j -> i = j) -> NoDup (map f (seq a n)).
Proof.
  intro H. apply Finite.Injective_map_NoDup; [ exact H | apply seq_NoDup ].
Qed.

Lemma nth_mod_In (types : list string) (i : nat) :
  types <> [] -> In (nth (i mod List.length types) types "") types.
Proof.
  intro H. apply nth_In. apply Nat.mod_upper_bound.
  destruct types; [ contradiction | discriminate ].
Qed.

(** What the layers of a parser have in common: names that end in pairwise
    different indices, types of a fixed list, no output shape, and an input
    shape on the first layer at most. *)
Lemma made_up_layers (types : list string) (prefix : nat -> string)
      (shift : nat -> nat)
      (body : nat -> list ModelLayer -> nat -> ModelLayer * nat)
      (count : nat) :
  types <> [] ->
  (forall a b, shift a = shift b -> a = b) ->
  (forall i layers calls,
      List.length layers = i ->
      let l := fst (body i layers calls) in
      name l = String.append (prefix i)
                 (String.append "_" (string_of_nat (shift i)))
      /\ type l = nth (i mod List.length types) types ""
      /\ outputShape l = None
      /\ (i <> 0 -> inputShape l = None)) ->
  made_up types count (fst (extract_loop body count 0 [] 0)).
Proof.
  intros Ht Hs H.
  destruct (extract_loop_nth
              (fun i l =>
                 name l = String.append (prefix i)
                            (String.append "_" (string_of_nat (shift i)))
                 /\ type l = nth (i mod List.length types) types ""
                 /\ outputShape l = None
                 /\ (i <> 0 -> inputShape l = None))
              body H count 0 [] 0 eq_refl) as [L N].
  { intros j l Hj. destruct j; discriminate Hj. }
  set (ls := fst (extract_loop body count 0 [] 0)) in *.
  split; [ exact L |]. split; [| split; [| split ]].
  - apply NoDup_nth_error. intros i j Hi E.
    rewrite length_map in Hi. rewrite !nth_error_map in E.
    destruct (nth_error ls i) as [x |] eqn:Ex;
      [| apply nth_error_None in Ex; lia ].
    destruct (nth_error ls j) as [y |] eqn:Ey; [| discriminate E ].
    cbn [option_map] in E. injection E as E.
    destruct (N i x Ex) as (Nx & _). destruct (N j y Ey) as (Ny & _).
    rewrite Nx, Ny in E. exact (indexed_names_inj prefix shift i j Hs E).
  - apply Forall_forall. intros l Hl.
    apply In_nth_error in Hl. destruct Hl as [j Hj].
    destruct (N j l Hj) as (_ & -> & _). apply nth_mod_In. exact Ht.
  - apply Forall_forall. intros l Hl.
    apply In_nth_error in Hl. destruct Hl as [j Hj].
    destruct (N j l Hj) as (_ & _ & E & _). exact E.
  - apply Forall_forall. intros l Hl.
    apply In_nth_error in Hl. destruct Hl as [j Hj].
    assert (Hj' : nth_error ls (S j) = Some l)
      by (destruct ls; [ destruct j; discriminate Hj | exact Hj ]).
    destruct (N (S j) l Hj') as (_ & _ & _ & E). apply E. discriminate.
Qed.

Lemma tensorflow_layers (Math_random : nat -> number) (size : N) :
  made_up TensorFlowParser.commonLayerTypes
    (N.to_nat (N.max (N.min (size / 50000) 20) 3))
    (TensorFlowParser.extractLayers Math_random size).
Proof.
  apply (made_up_layers _ (fun _ => "layer") (fun i => i + 1));
    [ discriminate | intros a b; lia |].
  intros i layers calls L. cbv zeta.
  unfold TensorFlowParser.layer_of. cbn [fst name type outputShape inputShape].
  rewrite L.
  split; [ reflexivity |]. split; [ reflexivity |]. split.
  - destruct (Z.eqb_spec (Z.of_nat i) (Z.of_nat i - 1)); [ lia | reflexivity ].
  - intro Hi. destruct (Nat.eqb_spec i 0); [ contradiction | reflexivity ].
Qed.

Lemma pytorch_layers (Math_random : nat -> number) (size : N) :
  made_up PyTorchParser.layerTypes
    (N.to_nat (N.max (N.min (size / 40000) 25) 3))
    (PyTorchParser.extractLayers Math_random size).
Proof.
  apply (made_up_layers _
           (fun i => toLowerCase
                       (nth (i mod List.length PyTorchParser.layerTypes)
                          PyTorchParser.layerTypes ""))
           (fun i => i + 1));
    [ discriminate | intros a b; lia |].
  intros i layers calls L. cbv zeta.
  unfold PyTorchParser.layer_of. cbn [fst name type outputShape inputShape].
  rewrite L.
  split; [ reflexivity |]. split; [ reflexivity |]. split.
  - destruct (Z.eqb_spec (Z.of_nat i) (Z.of_nat i - 1)); [ lia | reflexivity ].
  - intro Hi. destruct (Nat.eqb_spec i 0); [ contradiction | reflexivity ].
Qed.

Lemma onnx_layers (Math_random : nat -> number) (size : N) :
  made_up ONNXParser.operatorTypes
    (N.to_nat (N.max (N.min (size / 30000) 30) 4))
    (ONNXParser.extractLayers Math_random size).
Proof.
  apply (made_up_layers _
           (fun i => nth (i mod List.length ONNXParser.operatorTypes)
                       ONNXParser.operatorTypes "")
           (fun i => i));
    [ discriminate | intros a b E; exact E |].
  intros i layers calls L. cbv zeta.
  unfold ONNXParser.layer_of. cbn [fst name type outputShape inputShape].
  repeat split.
Qed.

Lemma pickle_layers (Math_random : nat -> number) (size : N) :
  made_up PickleParser.layerTypes
    (N.to_nat (N.max (N.min (size / 20000) 15) 2))
    (PickleParser.extractLayers Math_random size).
Proof.
  apply (made_up_layers _
           (fun i => toLowerCase
                       (nth (i mod List.length PickleParser.layerTypes)
                          PickleParser.layerTypes ""))
           (fun i => i + 1));
    [ discriminate | intros a b; lia |].
  intros i layers calls L. cbv zeta.
  unfold PickleParser.layer_of. cbn [fst name type outputShape inputShape].
  repeat split.
Qed.

Lemma parser_types_plain :
  Forall (fun t => inherited t = false /\ array_index t = None) parser_types.
Proof. repeat constructor. Qed.

Lemma made_up_weaken (types types' : list string) (count : nat)
      (ls : list ModelLayer) :
  incl types types' -> made_up types count ls -> made_up types' count ls.
Proof.
  intros I (L & N & T & O & S). repeat split; try assumption.
  revert T. apply Forall_impl. intros l Hl. apply I, Hl.
Qed.

(** A successful parse: the layers are made up, between 2 and 30 of them. *)
Lemma parseFile_made_up (Math_random : nat -> number) (file : File)
      (metadata : ModelMetadata) (totals : ModelTotals) :
  ModelParser.parseFile Math_random file = inl (metadata, totals) ->
  exists framework format count,
    (metadata, totals)
    = metadata_of framework format file (layers metadata)
    /\ 2 <= count <= 30
    /\ made_up parser_types count (layers metadata).
Proof.
  unfold ModelParser.parseFile.
  set (size := N.of_nat (List.length (File_bytes file))).
  destruct (ModelParser.parser_of (File_name file)) as [[| | |] | error];
    [ unfold TensorFlowParser.parse | unfold PyTorchParser.parse
    | unfold ONNXParser.parse | unfold PickleParser.parse | discriminate ];
    cbv zeta; fold size;
    try match goal with
        | |- context [if negb ?b then _ else _] => destruct b; cbn [negb]
        end;
    try discriminate;
    intro E; injection E as <- <-; cbn [layers];
    eexists _, _, _; (split; [ reflexivity |]).
  - split; [| eapply made_up_weaken; [| apply tensorflow_layers ] ];
      [ lia | unfold parser_types; auto using incl_appl, incl_refl ].
  - split; [| eapply made_up_weaken; [| apply pytorch_layers ] ];
      [ lia
      | unfold parser_types;
        auto using incl_appl, incl_appr, incl_refl ].
  - split; [| eapply made_up_weaken; [| apply onnx_layers ] ];
      [ lia
      | unfold parser_types;
        auto using incl_appl, incl_appr, incl_refl ].
  - split; [| eapply made_up_weaken; [| apply pickle_layers ] ];
      [ lia
      | unfold parser_types;
        auto using incl_appl, incl_appr, incl_refl ].
Qed.

(** X18.  The models that the parsers make.  A successful parse of a file,
    whatever its content beyond the signature and whatever [Math.random()]
    returns, gives a model of the name and size of the file with at least 2
    and at most 30 layers, whose names are pairwise different and whose
    types are neither property names that objects inherit nor array
    indices.  So every layout renders it: [visualize] returns under each of
    the four kinds. *)
Theorem parsed_models_render_under_every_layout :
  forall (Math_random : nat -> number) (file : File)
         (metadata : ModelMetadata) (totals : ModelTotals),
    ModelParser.parseFile Math_random file = inl (metadata, totals) ->
    fileName metadata = File_name file
    /\ fileSize totals = List.length (File_bytes file)
    /\ totalLayers totals = js_of_nat (List.length (layers metadata))
    /\ 2 <= List.length (layers metadata) <= 30
    /\ NoDup (map name (layers metadata))
    /\ Forall (fun l => inherited (type l) = false
                        /\ array_index (type l) = None) (layers metadata)
    /\ (forall (v : Visualizer) (layout : string),
          In layout LayoutKinds ->
          returns (visualize' v metadata (Some layout)) = true).
Proof.
  intros Math_random file metadata totals H.
  destruct (parseFile_made_up _ _ _ _ H)
    as (framework & format & count & E & B & L & N & T & _).
  injection E as E1 E2.
  assert (P : Forall (fun l => inherited (type l) = false
                               /\ array_index (type l) = None)
                (layers metadata)).
  { revert T. apply Forall_impl. intros l Hl.
    pose proof parser_types_plain as A. rewrite Forall_forall in A.
    exact (A _ Hl). }
  split; [ rewrite E1; reflexivity |].
  split; [ rewrite E2; reflexivity |].
  split; [ rewrite E2; reflexivity |].
  split; [ rewrite L; exact B |].
  split; [ exact N |]. split; [ exact P |].
  intros v layout Hk.
  destruct (String.eqb_spec layout "tree") as [-> | Hn].
  - rewrite visualize_tree_returns. apply forallb_forall.
    intros l Hl. rewrite Forall_forall in P.
    destruct (P l Hl) as [-> _]. reflexivity.
  - assert (Hc : In layout ChainLayouts).
    { unfold LayoutKinds in Hk. unfold ChainLayouts. cbn in *.
      destruct Hk as [E | [E | [E | [E | []]]]]; auto;
        try (symmetry in E; contradiction). }
    destruct (layout_counts Math_cos Math_sin Math_atan2 v metadata layout)
      as [Chain _].
    destruct (Chain Hc) as [R _]. exact R.
Qed.

(** ** The issues of a parsed model *)

Lemma In_when {A} (b : bool) (x y : A) : In y (when b x) -> y = x /\ b = true.
Proof. destruct b; [ intros [<- | []]; auto | intros [] ]. Qed.

(** X19.  The shapes of a parsed model and what the insights say of it.  No
    layer of a parsed model has an output shape, since the test that would
    give one to the last layer compares the index with the number of layers
    pushed so far, less one; and only the first layer can have an input
    shape.  So the insights always report layers without shape information,
    all the layers or all but the first, and never that no significant
    issue was detected, nor that no layers were detected. *)
Theorem parsed_models_always_miss_shapes :
  forall (Math_random : nat -> number) (file : File)
         (metadata : ModelMetadata) (totals : ModelTotals),
    ModelParser.parseFile Math_random file = inl (metadata, totals) ->
    let issues := identifyIssues metadata totals in
    let total := List.length (layers metadata) in
    Forall (fun l => outputShape l = None) (layers metadata)
    /\ Forall (fun l => inputShape l = None) (tl (layers metadata))
    /\ (exists missing,
          In (MissingShapes missing) issues
          /\ (missing = total \/ missing = total - 1) /\ 1 <= missing)
    /\ ~ In NoSignificantIssues issues
    /\ ~ In NoLayers issues.
Proof.
  intros Math_random file metadata totals H issues total.
  destruct (parseFile_made_up _ _ _ _ H)
    as (framework & format & count & _ & B & L & _ & _ & O & I).
  split; [ exact O |]. split; [ exact I |].
  set (missingShapes :=
         filter (fun l => match inputShape l, outputShape l with
                          | None, None => true
                          | _, _ => false
                          end) (layers metadata)).
  assert (M : List.length missingShapes = total
              \/ List.length missingShapes = total - 1).
  { unfold missingShapes, total. destruct (layers metadata) as [| first rest].
    - left. reflexivity.
    - cbn [tl] in I. apply Forall_cons_iff in O. destruct O as [O1 O].
      assert (R : filter (fun l => match inputShape l, outputShape l with
                                   | None, None => true
                                   | _, _ => false
                                   end) rest = rest).
      { clear - O I. induction rest as [| l rest IH]; [ reflexivity |].
        apply Forall_cons_iff in O. destruct O as [Ol O].
        apply Forall_cons_iff in I. destruct I as [Il I].
        cbn [filter]. rewrite Il, Ol, (IH O I). reflexivity. }
      cbn [filter]. rewrite R, O1.
      destruct (inputShape first); cbn [List.length]; [ right | left ]; lia. }
  assert (P : 1 <= List.length missingShapes) by (unfold total in M; lia).
  assert (F : In (MissingShapes (List.length missingShapes)) issues).
  { unfold issues, identifyIssues. cbv zeta. fold missingShapes.
    assert (G : forall xs : list Issue,
               In (MissingShapes (List.length missingShapes))
                 (if List.length xs =? 0 then xs ++ [NoSignificantIssues]
                  else xs) <->
               In (MissingShapes (List.length missingShapes)) xs).
    { intro xs. destruct (List.length xs =? 0); [| reflexivity ].
      rewrite in_app_iff. cbn [In]. intuition discriminate. }
    apply G.
    apply in_or_app. right. apply in_or_app. right.
    apply in_or_app. left.
    destruct (Nat.ltb_spec 0 (List.length missingShapes)); [| lia ].
    left. reflexivity. }
  split; [ exists (List.length missingShapes); auto |].
  assert (W : forall x,
             In x issues ->
             x = NoSignificantIssues ->
             False).
  { intros x Hx ->. unfold issues, identifyIssues in Hx. cbv zeta in Hx.
    fold missingShapes in Hx.
    match type of Hx with
    | In _ (if List.length ?xs =? 0 then _ else _) =>
        set (found := xs) in *;
        assert (Hf : In (MissingShapes (List.length missingShapes)) found)
    end.
    { unfold found. apply in_or_app. right. apply in_or_app. right.
      apply in_or_app. left.
      destruct (Nat.ltb_spec 0 (List.length missingShapes)); [| lia ].
      left. reflexivity. }
    destruct found as [| y ys] eqn:Ef; [ destruct Hf |].
    cbn [List.length Nat.eqb] in Hx. rewrite <- Ef in Hx.
    unfold found in Hx.
    repeat (apply in_app_or in Hx; destruct Hx as [Hx | Hx];
            [ apply In_when in Hx; destruct Hx as [Hx _]; discriminate Hx |]).
    apply In_when in Hx. destruct Hx as [Hx _]. discriminate Hx. }
  split; [ intro X; exact (W _ X eq_refl) |].
  intro X. unfold issues, identifyIssues in X. cbv zeta in X.
  fold missingShapes in X.
  match type of X with
  | In _ (if List.length ?xs =? 0 then _ else _) => set (found := xs) in *
  end.
  assert (Y : In NoLayers found).
  { destruct (List.length found =? 0); [| exact X ].
    apply in_app_or in X. destruct X as [X | [X | []]];
      [ exact X | discriminate X ]. }
  unfold found in Y.
  apply in_app_or in Y. destruct Y as [Y | Y].
  - apply In_when in Y. destruct Y as [_ Y].
    apply Nat.eqb_eq in Y. rewrite L in Y. lia.
  - repeat (apply in_app_or in Y; destruct Y as [Y | Y];
            [ apply In_when in Y; destruct Y as [Y _]; discriminate Y |]).
    apply In_when in Y. destruct Y as [Y _]. discriminate Y.
Qed.

(** ** What the parsers check of a file *)

Lemma every_equal_prefix (signature reference : list byte) :
  every_equal signature reference = true
  <-> exists rest, reference = signature ++ rest.
Proof.
  revert reference. induction signature as [| b signature' IH];
    intro reference.
  - cbn. split; [ intros _; exists reference; reflexivity | reflexivity ].
  - destruct reference as [| r reference'].
    + cbn. split; [ discriminate | intros [rest E]; discriminate E ].
    + cbn [every_equal app]. rewrite andb_true_iff, IH. split.
      * intros [E [rest ->]]. apply Byte.byte_dec_bl in E. subst r.
        exists rest. reflexivity.
      * intros [rest E]. injection E as -> ->.
        split; [ apply Byte.byte_dec_lb; reflexivity |].
        exists rest. reflexivity.
Qed.

Lemma first_byte_x80 (bytes : list byte) :
  match bytes with
  | b :: _ => Byte.eqb b x80
  | [] => false
  end = true
  <-> exists rest, bytes = x80 :: rest.
Proof.
  destruct bytes as [| b rest].
  - split; [ discriminate | intros [rest E]; discriminate E ].
  - split.
    + intro E. apply Byte.byte_dec_bl in E. subst b. exists rest. reflexivity.
    + intros [rest' E]. injection E as -> _.
      apply Byte.byte_dec_lb. reflexivity.
Qed.

(** X20.  What decides whether a file is parsed, and into how many layers.
    A file sent to the parser of TensorFlow is parsed exactly when its first
    eight bytes, or all its bytes when it has fewer, begin the signature of
    HDF5 (so an empty file is parsed); a file sent to the parser of PyTorch
    or of pickle files exactly when its first byte is [0x80]; a file sent
    to the parser of ONNX always.  The number of layers of the parsed model
    is read off the size of the file alone. *)
Theorem parsers_accept_by_signature :
  forall (Math_random : nat -> number) (file : File) (parser : Parser),
    ModelParser.parser_of (File_name file) = inl parser ->
    let bytes := File_bytes file in
    let size := N.of_nat (List.length bytes) in
    let result := ModelParser.parseFile Math_random file in
    let count :=
      match result with
      | inl (metadata, _) => Some (List.length (layers metadata))
      | inr _ => None
      end in
    let estimate (per_layer most least : N) :=
      Some (N.to_nat (N.max (N.min (size / per_layer) most) least)) in
    match parser with
    | tensorflowParser =>
        (success result = true
         <-> exists rest, TensorFlowParser.hdf5Signature
                          = firstn 8 bytes ++ rest)
        /\ (success result = true -> count = estimate 50000 20 3)%N
        /\ (success result = false
            -> result = inr "Invalid HDF5/Keras model file")
    | pytorchParser =>
        (success result = true <-> exists rest, bytes = x80 :: rest)
        /\ (success result = true -> count = estimate 40000 25 3)%N
        /\ (success result = false
            -> result = inr "Invalid PyTorch model file")
    | onnxParser =>
        success result = true /\ (count = estimate 30000 30 4)%N
    | pickleParser =>
        (success result = true <-> exists rest, bytes = x80 :: rest)
        /\ (success result = true -> count = estimate 20000 15 2)%N
        /\ (success result = false
            -> result = inr "Invalid pickle file format")
    end.
Proof.
  intros Math_random file parser H bytes size result count estimate.
  unfold count, result, ModelParser.parseFile. rewrite H.
  destruct parser.
  - unfold TensorFlowParser.parse. cbv zeta. fold bytes size.
    rewrite <- every_equal_prefix.
    destruct (every_equal (firstn 8 bytes) TensorFlowParser.hdf5Signature);
      cbn [negb success metadata_of layers].
    + split; [ tauto |]. split; [| discriminate ].
      intros _. unfold estimate. f_equal.
      exact (proj1 (tensorflow_layers Math_random size)).
    + split; [ tauto |]. split; [ discriminate | reflexivity ].
  - unfold PyTorchParser.parse. cbv zeta. fold bytes size.
    rewrite <- first_byte_x80.
    destruct (match bytes with b :: _ => Byte.eqb b x80 | [] => false end);
      cbn [negb success metadata_of layers].
    + split; [ tauto |]. split; [| discriminate ].
      intros _. unfold estimate. f_equal.
      exact (proj1 (pytorch_layers Math_random size)).
    + split; [ tauto |]. split; [ discriminate | reflexivity ].
  - unfold ONNXParser.parse. cbv zeta. fold bytes size.
    cbn [success metadata_of layers].
    split; [ reflexivity |]. unfold estimate. f_equal.
    exact (proj1 (onnx_layers Math_random size)).
  - unfold PickleParser.parse. cbv zeta. fold bytes size.
    rewrite <- first_byte_x80.
    destruct (match bytes with b :: _ => Byte.eqb b x80 | [] => false end);
      cbn [negb success metadata_of layers].
    + split; [ tauto |]. split; [| discriminate ].
      intros _. unfold estimate. f_equal.
      exact (proj1 (pickle_layers Math_random size)).
    + split; [ tauto |]. split; [ discriminate | reflexivity ].
Qed.

End FurtherProperties.

(** * The engine run on concrete models

    The properties above at concrete inputs, with the reference [Math]
    library, and the runs that show where the engine departs from its
    specification.  The strings of the runs are strings of ASCII
    characters, for which the reference [toLowerCase] is taken. *)

Section Runs.

#[local] Existing Instance ASCII_strings.

(** A kind that is not a layout kind empties the surface: after
    [setLayout('grid')] on a vertical render of three layers the call has
    returned, the current layout is ['grid'] and no node is left. *)
Lemma setLayout_unknown_kind_counterexample :
  let v' := state_of (run_setLayout conv_vertical "grid") in
  ~ In "grid" LayoutKinds
  /\ returns (run_setLayout conv_vertical "grid") = true
  /\ List.length (querySelectorAll_layer_node (canvas conv_vertical)) = 3
  /\ List.length (connectors_of (canvas conv_vertical)) = 2
  /\ currentLayout v' = "grid"
  /\ querySelectorAll_layer_node (canvas v') = []
  /\ connectors_of (canvas v') = []
  /\ canvas v' <> canvas conv_vertical.
Proof.
  cbv zeta. split.
  { unfold LayoutKinds. simpl. intuition discriminate. }
  repeat split; try (vm_compute; reflexivity).
  intros H.
  apply (f_equal (fun c => List.length (querySelectorAll_layer_node c))) in H.
  vm_compute in H. discriminate.
Qed.

(** The same run as an instance of the property of unknown kinds. *)
Lemma setLayout_unknown_kind_witness :
  ~ In "grid" LayoutKinds
  /\ exists v',
      run_setLayout conv_vertical "grid" = Normal v'
      /\ currentLayout v' = "grid"
      /\ querySelectorAll_layer_node (canvas v') = []
      /\ connectors_of (canvas v') = []
      /\ canvas_height (canvas v') = canvas_height (canvas conv_vertical).
Proof.
  assert (H : ~ In "grid" LayoutKinds)
    by (unfold LayoutKinds; simpl; intuition discriminate).
  split; [exact H|].
  pose proof (setLayout_unknown_kind_renders_empty ref_cos ref_sin ref_atan2
                conv_vertical "grid" H) as T.
  change (currentMetadata conv_vertical) with (Some conv_model) in T.
  cbv iota beta in T.
  change (String.eqb "grid" "") with false in T. cbv iota in T.
  destruct T as (v' & E & L & _ & _ & Q & C & Hh & _).
  exists v'. repeat split; assumption.
Defined.

(** A render keeps the zoom and the search term: after one zoom step and a
    search for [conv], rendering another model leaves the scale at [1.1] and
    the search term at [conv]. *)
Lemma visualize_keeps_view_counterexample :
  let v1 := search (zoom conv_vertical zoom_in) "conv" in
  let v2 := state_of (run_visualize v1 grouped_model None) in
  currentMetadata v2 = Some grouped_model
  /\ view_of v2 = (1.1, 0, 0)%float
  /\ searchTerm v2 = "conv"
  /\ view_of v2 <> (1, 0, 0)%float
  /\ searchTerm v2 <> "".
Proof.
  cbv zeta. repeat split; try (vm_compute; reflexivity).
  - intros H.
    apply (f_equal (fun t => PrimFloat.eqb (fst (fst t)) 1)) in H.
    vm_compute in H. discriminate.
  - vm_compute. discriminate.
Qed.

(** The circular layout of the three layers of the search model. *)
Lemma circular_layout_geometry_witness :
  1 <= List.length (layers conv_model)
  /\ (Z.of_nat (List.length (layers conv_model)) < 2 ^ 32)%Z
  /\ (let shown :=
        state_of (run_visualize new_Visualizer conv_model (Some "circular")) in
      canvas_height (canvas shown)
        = css_px (circular_radius 3 * 2 + 150 + 100)%float
      /\ map node_layer (querySelectorAll_layer_node (canvas shown))
         = layers conv_model
      /\ (js_of_nat 0 / js_of_nat 3 * 2 * Math_PI - Math_PI / 2)%float
         = (- (Math_PI / 2))%float).
Proof.
  assert (H1 : 1 <= List.length (layers conv_model)) by (simpl; lia).
  assert (H2 : (Z.of_nat (List.length (layers conv_model)) < 2 ^ 32)%Z)
    by (simpl; lia).
  split; [exact H1|]. split; [exact H2|].
  destruct (circular_layout_geometry ref_cos ref_sin ref_atan2
              new_Visualizer conv_model H1 H2)
    as (_ & _ & Hh & Hl & _ & _ & Ht & _).
  split; [exact Hh|]. split; [exact Hl | exact Ht].
Defined.

(** Two clicks on the first node of the search model restore the engine;
    the second click of a double click reports the layer [conv1]. *)
Lemma click_toggles_selection_witness :
  nth_error (querySelectorAll_layer_node (canvas conv_vertical)) 0
    = Some (createLayerNode "vertical" (layer "conv1" "Conv2d" 9408%float)
              0 conv_model)
  /\ fst (click (fst (click conv_vertical 0 1)) 0 1) = conv_vertical
  /\ click conv_vertical 0 2
     = (conv_vertical, [layerClick (layer "conv1" "Conv2d" 9408%float)]).
Proof.
  assert (H : nth_error (querySelectorAll_layer_node (canvas conv_vertical)) 0
              = Some (createLayerNode "vertical"
                        (layer "conv1" "Conv2d" 9408%float) 0 conv_model))
    by (vm_compute; reflexivity).
  split; [exact H|].
  destruct (click_toggles_selection conv_vertical 0 1 1 _ H
              ltac:(discriminate) ltac:(discriminate))
    as (_ & _ & _ & _ & _ & Hlaw & Hdouble).
  split; [exact Hlaw | exact Hdouble].
Defined.




(** With two layers named [block], the node of the second one is resolved
    to the first one, and with both selected the first one is reported
    twice. *)
Lemma duplicate_names_witness :
  let first := layer "block" "Conv2d" 10%float in
  snd (click duplicate_vertical 1 1) = [layerSelection 1 [first]]
  /\ snd (click (fst (click duplicate_vertical 0 1)) 1 1)
     = [layerSelection 2 [first; first]].
Proof.
  cbv zeta.
  destruct (duplicate_names_resolve_to_first_layer ref_cos ref_sin ref_atan2
              new_Visualizer duplicate_vertical duplicate_model "vertical"
              0 1
              (createLayerNode "vertical" (layer "block" "Conv2d" 10%float)
                 0 duplicate_model)
              (createLayerNode "vertical" (layer "block" "Linear" 20%float)
                 1 duplicate_model))
    as (first & i & _ & _ & _ & Hfind & H1 & _ & H2 & _).
  - unfold LayoutKinds. simpl. tauto.
  - vm_compute. reflexivity.
  - vm_compute. reflexivity.
  - vm_compute. reflexivity.
  - lia.
  - reflexivity.
  - vm_compute in Hfind. injection Hfind as <-.
    split; [exact H1 | exact H2].
Defined.

(** * The further properties at concrete inputs *)

(** Rendering the search model in a circle after a tree render of the
    grouped model gives what rendering it in a circle at once gives. *)
Lemma render_forgets_the_previous_surface_witness :
  In "circular" LayoutKinds
  /\ run_visualize
       (state_of (run_visualize new_Visualizer grouped_model (Some "tree")))
       conv_model (Some "circular")
     = run_visualize new_Visualizer conv_model (Some "circular").
Proof.
  assert (H : In "circular" LayoutKinds)
    by (unfold LayoutKinds; simpl; tauto).
  split; [exact H|].
  destruct (render_forgets_the_previous_surface ref_cos ref_sin ref_atan2
              new_Visualizer grouped_model conv_model (Some "tree")
              "circular" "tree" 0 0 H) as (E & _).
  exact E.
Defined.

(** The node [conv1] is highlighted by the term [Conv1], and so it is by
    the term [CONV]. *)
Lemma refining_the_term_witness :
  isASCII "CONV" = true
  /\ isASCII "Conv1" = true
  /\ ci_substring "CONV" "Conv1"
  /\ "CONV" <> ""
  /\ exists n1 n2,
       nth_error
         (querySelectorAll_layer_node (canvas (search conv_vertical "CONV"))) 0
       = Some n1
       /\ nth_error
            (querySelectorAll_layer_node
               (canvas (search conv_vertical "Conv1"))) 0
          = Some n2
       /\ highlighted n2 = true
       /\ highlighted n1 = true.
Proof.
  assert (Hs : ci_substring "CONV" "Conv1")
    by (exists "", "Conv", "1"; split; reflexivity).
  assert (Hn : "CONV" <> "") by discriminate.
  split; [reflexivity|]. split; [reflexivity|].
  split; [exact Hs|]. split; [exact Hn|].
  destruct (nth_error
              (querySelectorAll_layer_node
                 (canvas (search conv_vertical "CONV"))) 0)
    as [n1|] eqn:H1; [|vm_compute in H1; discriminate].
  destruct (nth_error
              (querySelectorAll_layer_node
                 (canvas (search conv_vertical "Conv1"))) 0)
    as [n2|] eqn:H2; [|vm_compute in H2; discriminate].
  exists n1, n2. split; [reflexivity|]. split; [reflexivity|].
  assert (X : highlighted n2 = true)
    by (vm_compute in H2; injection H2 as <-; reflexivity).
  split; [exact X|].
  exact (proj1 (refining_the_term_narrows_the_highlight
                  conv_vertical "CONV" "Conv1" 0 n1 n2 eq_refl eq_refl
                  Hs Hn H1 H2) X).
Defined.

(** One click on [bn1] in a new render selects one node where none was
    selected. *)
Lemma click_changes_the_selection_witness :
  nth_error (querySelectorAll_layer_node (canvas conv_vertical)) 1
    = Some (createLayerNode "vertical" (layer "bn1" "BatchNorm2d" 128%float)
              1 conv_model)
  /\ 1 <> 2
  /\ List.length (selected_nodes (fst (click conv_vertical 1 1)))
     = S (List.length (selected_nodes conv_vertical)).
Proof.
  assert (H : nth_error (querySelectorAll_layer_node (canvas conv_vertical)) 1
              = Some (createLayerNode "vertical"
                        (layer "bn1" "BatchNorm2d" 128%float) 1 conv_model))
    by (vm_compute; reflexivity).
  assert (D : 1 <> 2) by discriminate.
  split; [exact H|]. split; [exact D|].
  exact (proj1 (click_changes_the_selection_by_one conv_vertical 1 1 _ H D)).
Defined.

(** The tree layout of the grouped model has the group of [Conv2d] before
    the group of [Linear]. *)
Lemma tree_groups_witness :
  exists els,
    renderTreeLayout "tree" grouped_model = Some els
    /\ map group_type els = [Some "Conv2d"; Some "Linear"].
Proof.
  destruct (renderTreeLayout "tree" grouped_model) as [els|] eqn:R;
    [|vm_compute in R; discriminate].
  exists els. split; [reflexivity|].
  destruct (tree_groups_partition_the_layers_by_type "tree" grouped_model
              els R) as (_ & _ & _ & O).
  rewrite O; [reflexivity|].
  repeat constructor.
Defined.

(** The vertical render of the three layers of the search model: node,
    connector, node, connector, node. *)
Lemma chain_layouts_alternate_witness :
  In "vertical" ChainLayouts
  /\ exists container,
       viz_container (canvas conv_vertical) = Some container
       /\ map is_connector (children container)
          = [false; true; false; true; false].
Proof.
  assert (H : In "vertical" ChainLayouts)
    by (unfold ChainLayouts; simpl; tauto).
  split; [exact H|].
  destruct (chain_layouts_alternate_nodes_and_connectors
              ref_cos ref_sin ref_atan2 new_Visualizer conv_model "vertical" H)
    as (container & E & A & _).
  exists container. split; [exact E | exact A].
Defined.

(** Under the tree layout the activation after the convolution, which has
    no parameters, is drawn with an empty size bar, a width of [100%] and
    no maximum width. *)
Lemma parameterless_layer_witness :
  let shown :=
    state_of (run_visualize new_Visualizer relu_model (Some "tree")) in
  Forall (fun x => is_nan (parameters x) = false) (layers relu_model)
  /\ Exists (fun x => (0 <? parameters x)%float = true) (layers relu_model)
  /\ In "tree" LayoutKinds
  /\ map (fun node => parameters (node_layer node))
       (querySelectorAll_layer_node (canvas shown))
     = [9408%float; 0%float]
  /\ Forall (fun node =>
               parameters (node_layer node) = 0%float ->
               size_bar node = css_percent 0%float
               /\ width (node_style node) = css_percent 100%float
               /\ maxWidth (node_style node) = css_none)
       (querySelectorAll_layer_node (canvas shown)).
Proof.
  cbv zeta.
  assert (H1 : Forall (fun x => is_nan (parameters x) = false)
                 (layers relu_model))
    by (repeat constructor).
  assert (H2 : Exists (fun x => (0 <? parameters x)%float = true)
                 (layers relu_model))
    by (apply Exists_cons_hd; reflexivity).
  assert (H3 : In "tree" LayoutKinds) by (unfold LayoutKinds; simpl; tauto).
  split; [exact H1|]. split; [exact H2|]. split; [exact H3|].
  split; [vm_compute; reflexivity|].
  exact (proj1 (parameterless_layer_gets_the_minimum_width
                  ref_cos ref_sin ref_atan2 new_Visualizer "tree" relu_model
                  H1 H2 H3)).
Defined.

(** The button [radial] on a vertical render of the search model: the
    engine is sent the kind [circular]. *)
Lemma toolbar_witness :
  let app := {| LucefactApp.visualizer := Some conv_vertical;
                LucefactApp.active := [vertical] |} in
  LucefactApp.visualizer app = Some conv_vertical
  /\ currentMetadata conv_vertical = Some conv_model
  /\ In (layoutMap radial) LayoutKinds
  /\ option_map currentLayout
       (LucefactApp.visualizer
          (state_of (LucefactApp.setLayout ref_cos ref_sin ref_atan2
                       app radial)))
     = Some "circular".
Proof.
  cbv zeta.
  assert (Hm : currentMetadata conv_vertical = Some conv_model)
    by (vm_compute; reflexivity).
  split; [reflexivity|]. split; [exact Hm|].
  destruct (toolbar_sends_only_known_layout_kinds ref_cos ref_sin ref_atan2
              {| LucefactApp.visualizer := Some conv_vertical;
                 LucefactApp.active := [vertical] |}
              conv_vertical conv_model radial eq_refl Hm)
    as (K & _ & _ & L & _).
  split; [exact K | exact L].
Defined.

(** A file named [model.PTH] goes to the parser of PyTorch files, as a file
    named [net.pth] does. *)
Lemma parser_witness :
  includes "." "PTH" = false
  /\ isASCII "PTH" = true
  /\ ModelParser.getFileExtension "model.PTH" = "pth"
  /\ ModelParser.parser_of "model.PTH" = inl pytorchParser
  /\ ModelParser.parser_of "net.pth" = ModelParser.parser_of "model.PTH".
Proof.
  assert (H : includes "." "PTH" = false) by reflexivity.
  split; [exact H|]. split; [reflexivity|].
  destruct (parser_is_chosen_by_the_last_extension "model" "PTH" H)
    as (_ & _ & _ & _ & A).
  destruct (A eq_refl) as [E P].
  split; [exact E|]. split; [reflexivity|].
  exact (P "net" "pth" eq_refl eq_refl eq_refl).
Defined.

(** The file [m.PTH] of two bytes is parsed into three layers, and each of
    the four layouts renders them. *)
Lemma parsed_models_witness :
  exists metadata totals,
    ModelParser.parseFile half_random pth_file = inl (metadata, totals)
    /\ map name (layers metadata) = ["linear_1"; "conv2d_2"; "batchnorm2d_3"]
    /\ NoDup (map name (layers metadata))
    /\ forall layout,
         In layout LayoutKinds ->
         returns (run_visualize new_Visualizer metadata (Some layout)) = true.
Proof.
  destruct (ModelParser.parseFile half_random pth_file)
    as [[metadata totals] | error] eqn:E;
    [| vm_compute in E; discriminate E ].
  exists metadata, totals. split; [reflexivity|].
  split; [ vm_compute in E; injection E as <- _; reflexivity |].
  destruct (parsed_models_render_under_every_layout ref_cos ref_sin ref_atan2
              half_random pth_file metadata totals E)
    as (_ & _ & _ & _ & N & _ & R).
  split; [exact N|]. intros layout Hl. exact (R new_Visualizer layout Hl).
Defined.

(** The empty file [empty.h5] is parsed into three layers, of which the
    insights report two as missing shape information. *)
Lemma parsed_models_miss_shapes_witness :
  exists metadata totals,
    ModelParser.parseFile half_random empty_h5 = inl (metadata, totals)
    /\ List.length (layers metadata) = 3
    /\ In (MissingShapes 2) (identifyIssues metadata totals)
    /\ ~ In NoSignificantIssues (identifyIssues metadata totals).
Proof.
  destruct (ModelParser.parseFile half_random empty_h5)
    as [[metadata totals] | error] eqn:E;
    [| vm_compute in E; discriminate E ].
  exists metadata, totals. split; [reflexivity|].
  destruct (parsed_models_always_miss_shapes half_random empty_h5
              metadata totals E) as (_ & _ & _ & S & _).
  vm_compute in E. injection E as <- <-.
  split; [reflexivity|]. split; [| exact S ].
  vm_compute. tauto.
Defined.

(** The empty file [empty.h5] goes to the parser of TensorFlow, which
    accepts it. *)
Lemma parsers_accept_witness :
  ModelParser.parser_of (File_name empty_h5) = inl tensorflowParser
  /\ success (ModelParser.parseFile half_random empty_h5) = true.
Proof.
  assert (H : ModelParser.parser_of (File_name empty_h5)
              = inl tensorflowParser) by reflexivity.
  split; [exact H|].
  destruct (parsers_accept_by_signature half_random empty_h5
              tensorflowParser H) as (A & _).
  apply A. exists TensorFlowParser.hdf5Signature. reflexivity.
Defined.

End Runs.
